(** * CometBlue update/retry coordinator

    A shallow embedding of the two coordinator variants of the repository,

      - [custom_components/eurotronic_cometblue/coordinator.py]
        (module [Eurotronic], the variant with in-invocation retries), and
      - [custom_components/cometblue/coordinator.py]
        (module [Legacy], the earlier variant without them),

    followed by the properties of the polling path, the command dispatch
    path and the availability gate.

    Python objects are modelled by the type [value], dictionaries by
    [gmap string value], exceptions by their class, message and
    [__cause__].  The Bluetooth device is an external collaborator: it is
    a script that says, for the n-th time the session is entered, what
    every operation of that session does.  Effects of the coordinator on
    the outside (session enter and exit, device calls, log records) are
    collected in an explicit [world]. *)

From Stdlib Require Import PrimFloat.
From stdpp Require Import gmap strings list.

Set Warnings "-register-all".

Open Scope Z_scope.

(** ** Python values and dictionaries *)

Inductive value : Type :=
| VNone
| VBool (b : bool)
| VInt (n : Z)
| VFloat (f : float)
| VStr (s : string)
| VDict (items : list (string * value)).

(** [bool(v)]: the truth value Python gives to an object. *)
Definition truthy (v : value) : bool :=
  match v with
  | VNone => false
  | VBool b => b
  | VInt n => negb (n =? 0)
  | VFloat f => negb (PrimFloat.eqb f 0%float)
  | VStr s => negb (String.eqb s "")
  | VDict items => match items with [] => false | _ :: _ => true end
  end.

(** [x or y] *)
Definition py_or (x y : value) : value := if truthy x then x else y.

(** [d.get(k)]: [None] when the key is missing. *)
Definition dict_get (d : gmap string value) (k : string) : value :=
  default VNone (d !! k).

(** [bool(d)] for a dictionary: non-empty. *)
Definition dict_truthy (d : gmap string value) : bool :=
  negb (bool_decide (d = ∅)).

(** ** Exceptions *)

(** The classes the handlers of the coordinator tell apart.  An
    exception is an instance of exactly the class it names, and every
    class here derives from [Exception].  [InvalidByteValueError] is the
    device library's subclass of [ValueError]; [OtherValueError] stands
    for a further subclass of [ValueError] ([UnicodeDecodeError], ...).
    [TimeoutError], [BleakError] and [ValueError] are unrelated to one
    another.  [OtherException] stands for a further class that derives
    from [Exception] and is unrelated to the named ones
    ([AttributeError], [TypeError], [KeyError], ...).  Instances of
    subclasses of [TimeoutError] and [BleakError] and exceptions that do
    not derive from [Exception] (cancellation) are not covered. *)
Inductive exn_class : Type :=
| InvalidByteValueError
| TimeoutError
| BleakError
| ValueError
| OtherValueError (name : string)
| ConfigEntryNotReady
| HomeAssistantError
| ServiceValidationError
| UpdateFailed
| OtherException (name : string).

(** An exception object: class, [str(ex)] and [ex.__cause__]. *)
Inductive exn : Type :=
| Exn (cls : exn_class) (msg : string) (cause : option exn).

Definition exn_cls (e : exn) : exn_class := let 'Exn c _ _ := e in c.
Definition exn_str (e : exn) : string := let 'Exn _ m _ := e in m.
Definition exn_cause (e : exn) : option exn := let 'Exn _ _ c := e in c.

(** [type(ex).__name__] *)
Definition class_name (c : exn_class) : string :=
  match c with
  | InvalidByteValueError => "InvalidByteValueError"
  | TimeoutError => "TimeoutError"
  | BleakError => "BleakError"
  | ValueError => "ValueError"
  | OtherValueError name => name
  | ConfigEntryNotReady => "ConfigEntryNotReady"
  | HomeAssistantError => "HomeAssistantError"
  | ServiceValidationError => "ServiceValidationError"
  | UpdateFailed => "UpdateFailed"
  | OtherException name => name
  end.

Definition type_name (e : exn) : string := class_name (exn_cls e).

(** [raise cls(msg) from ex] *)
Definition raise_from (cls : exn_class) (msg : string) (ex : exn) : exn :=
  Exn cls msg (Some ex).

Definition is_InvalidByteValueError (e : exn) : bool :=
  match exn_cls e with InvalidByteValueError => true | _ => false end.

(** The class is [ValueError] itself. *)
Definition is_ValueError (e : exn) : bool :=
  match exn_cls e with ValueError => true | _ => false end.

Definition is_BleakError (e : exn) : bool :=
  match exn_cls e with BleakError => true | _ => false end.

Definition is_TimeoutError (e : exn) : bool :=
  match exn_cls e with TimeoutError => true | _ => false end.

(** [except (InvalidByteValueError, TimeoutError, BleakError)] *)
Definition is_communication_error (e : exn) : bool :=
  is_InvalidByteValueError e || is_TimeoutError e || is_BleakError e.

(** [except ValueError]: a [ValueError] or an instance of one of its
    subclasses. *)
Definition except_ValueError (e : exn) : bool :=
  match exn_cls e with
  | ValueError | InvalidByteValueError | OtherValueError _ => true
  | _ => false
  end.

(** ** The device session *)

Inductive outcome (A : Type) : Type :=
| Ok (a : A)
| Raises (e : exn).
Arguments Ok {A} a.
Arguments Raises {A} e.

(** What one session does: [__aenter__] (connect) and [__aexit__]
    (disconnect) return ([None]) or raise; in between the [connected] flag
    and the typed operations answer as listed.  [command function payload]
    is what the expression of the dispatch gives: the operation named
    [function] is looked up with [getattr] on the device, called with the
    payload as keyword arguments and awaited.  When that expression
    raises, [fails_before_call function payload] says whether the
    exception comes from the lookup of the name or from the binding of
    the arguments, in which case no operation of the device is called. *)
Record attempt : Type := {
  aenter : option exn;
  connected : bool;
  get_temperature_async : outcome (gmap string value);
  get_battery_async : outcome value;
  get_holiday_async : outcome value;
  command : string -> gmap string value -> outcome value;
  fails_before_call : string -> gmap string value -> bool;
  aexit : option exn
}.

(** [AsyncCometBlue]: the address and, for the n-th session entered since
    the start (n = 0, 1, ...), its behaviour. *)
Record AsyncCometBlue : Type := {
  device_address : string;
  script : nat -> attempt
}.

(** ** Observable effects *)

Inductive log_level : Type := DEBUG | INFO | WARNING.

Inductive event : Type :=
| EEnter                                   (* async with self.device: entered *)
| EExit                                    (* ... and left *)
| ECall (name : string)                    (* a device operation awaited *)
| ELog (lvl : log_level) (fmt : string) (args : list string).

Record world : Type := {
  acquired : nat;            (* times a session was entered so far *)
  trace : list event         (* oldest first *)
}.

Definition emit (ev : event) (w : world) : world :=
  {| acquired := acquired w; trace := trace w ++ [ev] |}.

Definition enter (w : world) : world :=
  {| acquired := S (acquired w); trace := trace w ++ [EEnter] |}.

(** How a block of statements ends. *)
Inductive completion : Type :=
| Normal
| Return (v : value)
| Exc (e : exn).

(** How a call of a coroutine ends; [OutOfFuel] when the loop was cut
    before the call ended. *)
Inductive result (A : Type) : Type :=
| Returns (a : A)
| Raise (e : exn)
| OutOfFuel.
Arguments Returns {A} a.
Arguments Raise {A} e.
Arguments OutOfFuel {A}.

(** [async with self.device: body].  An exception of [__aenter__] skips
    the body and [__aexit__]; otherwise [__aexit__] runs however the body
    ended, and an exception of [__aexit__] replaces the body's outcome. *)
Definition async_with {S : Type} (a : attempt)
    (body : S -> world -> S * world * completion)
    (s : S) (w : world) : S * world * completion :=
  let w := enter w in
  match aenter a with
  | Some e => (s, w, Exc e)
  | None =>
      let '(s, w, c) := body s w in
      let w := emit EExit w in
      match aexit a with
      | Some e => (s, w, Exc e)
      | None => (s, w, c)
      end
  end.

Definition RETRY_COUNT : Z := 3.

Definition is_EEnter (ev : event) : bool :=
  match ev with EEnter => true | _ => false end.

Definition is_ECall (name : string) (ev : event) : bool :=
  match ev with ECall n => String.eqb n name | _ => false end.

Definition is_ELog (lvl : log_level) (ev : event) : bool :=
  match ev, lvl with
  | ELog DEBUG _ _, DEBUG | ELog INFO _ _, INFO | ELog WARNING _ _, WARNING => true
  | _, _ => false
  end.

(** Number of events of a kind in a trace. *)
Definition count (p : event -> bool) (tr : list event) : nat :=
  length (List.filter p tr).

(** ** The coordinator object *)

(** The attributes of [CometBlueDataUpdateCoordinator] that its methods
    read or write. *)
Record coordinator : Type := {
  device : AsyncCometBlue;
  address : string;
  data : gmap string value;
  failed_update_count : Z
}.

(** [__init__]: [failed_update_count] is the class attribute 0, [data] is
    the empty dictionary. *)
Definition init (cometblue : AsyncCometBlue) : coordinator :=
  {| device := cometblue;
     address := device_address cometblue;
     data := ∅;
     failed_update_count := 0 |}.

Definition set_failed_update_count (n : Z) (self : coordinator) : coordinator :=
  {| device := device self; address := address self; data := data self;
     failed_update_count := n |}.

(** [raise ConfigEntryNotReady(f"Failed to connect to '{address}'")] *)
Definition not_ready (self : coordinator) : exn :=
  Exn ConfigEntryNotReady
      ("Failed to connect to '" +:+ device_address (device self) +:+ "'") None.

(** [CometBlueBluetoothEntity.available], the same in both variants;
    [async_address_present] is the presence facility of the host,
    [bluetooth.async_address_present(hass, address, True)]. *)
Definition available (self : coordinator) (async_address_present : string -> bool) : bool :=
  (failed_update_count self <? RETRY_COUNT) && async_address_present (address self).

(** ** The variant with retries: eurotronic_cometblue/coordinator.py *)

Module Eurotronic.
Section Coordinator.

(** [CONF_ALL_TEMPERATURES] comes from [const.py]; [str_dict] is
    Python's printing of a dictionary in a formatted message. *)
Variable CONF_ALL_TEMPERATURES : list string.
Variable str_dict : gmap string value -> string.

(** *** send_command *)

(** Lines 69-74. *)
Definition send_body (self : coordinator) (a : attempt)
    (function : string) (payload : gmap string value)
    (s : unit) (w : world) : unit * world * completion :=
  if negb (connected a) then (s, w, Exc (not_ready self))
  else
    match command a function payload with
    | Ok v => (s, emit (ECall function) w, Return v)
    | Raises e =>
        (s, (if fails_before_call a function payload then w
             else emit (ECall function) w), Exc e)
    end.

(** The [while retry_count < RETRY_COUNT] loop, lines 67-91; one unit of
    fuel per evaluation of the loop condition. *)
Fixpoint send_loop (fuel : nat) (self : coordinator)
    (function : string) (payload : gmap string value) (caller_entity_id : string)
    (retry_count : Z) (w : world) : result value * world :=
  match fuel with
  | O => (OutOfFuel, w)
  | S fuel =>
      if retry_count <? RETRY_COUNT then
        let '(_, w, c) :=
          async_with (script (device self) (acquired w))
                     (send_body self (script (device self) (acquired w)) function payload)
                     tt w in
        match c with
        | Return v => (Returns v, w)
        | Normal => send_loop fuel self function payload caller_entity_id retry_count w
        | Exc ex =>
            if is_communication_error ex then
              let retry_count := retry_count + 1 in
              if RETRY_COUNT <=? retry_count then
                (Raise (raise_from HomeAssistantError
                          ("Error sending command '" +:+ str_dict payload +:+ "' to '"
                             +:+ caller_entity_id +:+ "': " +:+ exn_str ex) ex), w)
              else
                send_loop fuel self function payload caller_entity_id retry_count
                  (emit (ELog INFO "Retrying command '%s' to '%s' after %s (%s)"
                           [str_dict payload; caller_entity_id; type_name ex; exn_str ex]) w)
            else if except_ValueError ex then
              (Raise (raise_from ServiceValidationError
                        ("Invalid payload '" +:+ str_dict payload +:+ "' for '"
                           +:+ caller_entity_id +:+ "': " +:+ exn_str ex) ex), w)
            else (Raise ex, w)
        end
      else (Returns VNone, w)
  end.

Definition send_command (fuel : nat) (function : string)
    (payload : gmap string value) (caller_entity_id : string)
    (self : coordinator) (w : world) : result value * coordinator * world :=
  let w := emit (ELog DEBUG "Updating device with '%s' from '%s'"
                   [caller_entity_id; str_dict payload]) w in
  let '(r, w) := send_loop fuel self function payload caller_entity_id 0 w in
  (r, self, w).

(** *** _async_update_data *)

(** The local variables that live across the attempts of one call. *)
Record locals : Type := {
  retrieved_temperatures : gmap string value;
  battery : value;
  holiday : value
}.

(** Lines 98-100. *)
Definition initial_locals : locals :=
  {| retrieved_temperatures := ∅; battery := VInt 0; holiday := VDict [] |}.

(** The handler of the inner [try], lines 115-120. *)
Definition optional_handler (ex : exn) (l : locals) (w : world)
    : locals * world * completion :=
  if is_InvalidByteValueError ex then
    (l, emit (ELog WARNING "Failed to retrieve optional data: %s (%s)"
                [type_name ex; exn_str ex]) w, Normal)
  else (l, w, Exc ex).

(** Lines 105-120: the block under [async with self.device]. *)
Definition poll_body (self : coordinator) (a : attempt)
    (l : locals) (w : world) : locals * world * completion :=
  if negb (connected a) then (l, w, Exc (not_ready self))
  else
    let w := emit (ECall "get_temperature_async") w in
    match get_temperature_async a with
    | Raises ex => (l, w, Exc ex)
    | Ok t =>
        let l := {| retrieved_temperatures := t;
                    battery := battery l; holiday := holiday l |} in
        let w := emit (ECall "get_battery_async") w in
        match get_battery_async a with
        | Raises ex => optional_handler ex l w
        | Ok b =>
            let l := {| retrieved_temperatures := retrieved_temperatures l;
                        battery := b; holiday := holiday l |} in
            let w := emit (ECall "get_holiday_async") w in
            match get_holiday_async a with
            | Raises ex => optional_handler ex l w
            | Ok h =>
                ({| retrieved_temperatures := retrieved_temperatures l;
                    battery := battery l; holiday := h |}, w, Normal)
            end
        end
    end.

(** The [while retry_count < RETRY_COUNT] loop, lines 102-131.  An
    attempt that ends without an exception goes back to the loop
    condition with [retry_count] as it was. *)
Fixpoint poll_loop (fuel : nat) (self : coordinator)
    (retry_count : Z) (l : locals) (w : world) : result locals * world :=
  match fuel with
  | O => (OutOfFuel, w)
  | S fuel =>
      if retry_count <? RETRY_COUNT then
        let '(l, w, c) :=
          async_with (script (device self) (acquired w))
                     (poll_body self (script (device self) (acquired w))) l w in
        match c with
        | Exc ex =>
            if is_communication_error ex then
              let retry_count := retry_count + 1 in
              if RETRY_COUNT <=? retry_count then
                (Raise (raise_from UpdateFailed
                          ("Error retrieving data: " +:+ exn_str ex) ex), w)
              else
                poll_loop fuel self retry_count l
                  (emit (ELog INFO "Retrying after %s (%s)"
                           [type_name ex; exn_str ex]) w)
            else
              (Raise (raise_from UpdateFailed
                        ("(" +:+ type_name ex +:+ ") " +:+ exn_str ex) ex), w)
        | Normal | Return _ => poll_loop fuel self retry_count l w
        end
      else (Returns l, w)
  end.

(** Lines 134-141: the dictionary display; later keys overwrite earlier
    ones. *)
Definition merged_data (self : coordinator) (l : locals) : gmap string value :=
  foldl (λ d k, <[k := py_or (dict_get (retrieved_temperatures l) k)
                             (dict_get (data self) k)]> d)
        (<["holiday" := py_or (holiday l) (dict_get (data self) "holiday")]>
           (<["battery" := py_or (battery l) (dict_get (data self) "battery")]> ∅))
        CONF_ALL_TEMPERATURES.

Definition _async_update_data (fuel : nat) (self : coordinator) (w : world)
    : result (gmap string value) * coordinator * world :=
  match poll_loop fuel self 0 initial_locals w with
  | (Returns l, w) =>
      let data := merged_data self l in
      (Returns data, self, emit (ELog DEBUG "Received data: %s" [str_dict data]) w)
  | (Raise ex, w) => (Raise ex, self, w)
  | (OutOfFuel, w) => (OutOfFuel, self, w)
  end.

End Coordinator.
End Eurotronic.

(** ** The earlier variant: cometblue/coordinator.py *)

Module Legacy.
Section Coordinator.

Variable CONF_ALL_TEMPERATURES : list string.
Variable str_dict : gmap string value -> string.

(** *** send_command *)

(** Lines 67-71; the result of the operation is bound to a local
    variable and the block ends. *)
Definition send_body (self : coordinator) (a : attempt)
    (function : string) (payload : gmap string value)
    (s : unit) (w : world) : unit * world * completion :=
  if negb (connected a) then (s, w, Exc (not_ready self))
  else
    match command a function payload with
    | Ok _ => (s, emit (ECall function) w, Normal)
    | Raises e =>
        (s, (if fails_before_call a function payload then w
             else emit (ECall function) w), Exc e)
    end.

(** Lines 64-83: one attempt; the handlers are tried in the order
    [ValueError], [BleakError], [TimeoutError]; without an exception the
    function ends and gives [None]. *)
Definition send_command (function : string)
    (payload : gmap string value) (caller_entity_id : string)
    (self : coordinator) (w : world) : result value * coordinator * world :=
  let w := emit (ELog DEBUG "Updating device with '%s' from '%s'"
                   [caller_entity_id; str_dict payload]) w in
  let '(_, w, c) :=
    async_with (script (device self) (acquired w))
               (send_body self (script (device self) (acquired w)) function payload)
               tt w in
  match c with
  | Exc err =>
      if except_ValueError err then
        (Raise (raise_from ServiceValidationError
                  ("Invalid payload '" +:+ str_dict payload +:+ "' for '"
                     +:+ caller_entity_id +:+ "': " +:+ exn_str err) err), self, w)
      else if is_BleakError err || is_TimeoutError err then
        (Raise (raise_from HomeAssistantError
                  ("Error sending command '" +:+ str_dict payload +:+ "' to '"
                     +:+ caller_entity_id +:+ "': " +:+ exn_str err) err), self, w)
      else (Raise err, self, w)
  | Return v => (Returns v, self, w)
  | Normal => (Returns VNone, self, w)
  end.

(** *** _async_update_data *)

(** Lines 96-105: battery and holiday as read, the temperatures merged
    with the stored ones. *)
Definition new_data (self : coordinator) (retrieved_temperatures : gmap string value)
    (battery holiday : value) : gmap string value :=
  foldl (λ d k, <[k := py_or (dict_get retrieved_temperatures k)
                             (dict_get (data self) k)]> d)
        (<["holiday" := holiday]> (<["battery" := battery]> ∅))
        CONF_ALL_TEMPERATURES.

(** Lines 91-107: the block under [async with self.device]; its state is
    the coordinator and the local [data]. *)
Definition poll_body (a : attempt)
    (s : coordinator * gmap string value) (w : world)
    : (coordinator * gmap string value) * world * completion :=
  let self := fst s in
  if negb (connected a) then (s, w, Exc (not_ready self))
  else
    let w := emit (ECall "get_temperature_async") w in
    match get_temperature_async a with
    | Raises ex => (s, w, Exc ex)
    | Ok retrieved_temperatures =>
        let w := emit (ECall "get_battery_async") w in
        match get_battery_async a with
        | Raises ex => (s, w, Exc ex)
        | Ok battery =>
            let w := emit (ECall "get_holiday_async") w in
            match get_holiday_async a with
            | Raises ex => (s, w, Exc ex)
            | Ok holiday =>
                ((set_failed_update_count 0 self,
                  new_data self retrieved_temperatures battery holiday), w, Normal)
            end
        end
    end.

(** Lines 87-118. *)
Definition _async_update_data (self : coordinator) (w : world)
    : result (gmap string value) * coordinator * world :=
  let '((self, data'), w, c) :=
    async_with (script (device self) (acquired w))
               (poll_body (script (device self) (acquired w))) (self, ∅) w in
  match c with
  | Exc ex =>
      if is_InvalidByteValueError ex then
        if (failed_update_count self <? RETRY_COUNT) && dict_truthy (data self) then
          (Returns (data self),
           set_failed_update_count (failed_update_count self + 1) self, w)
        else
          (Raise (raise_from UpdateFailed
                    ("Error in device response: " +:+ exn_str ex) ex), self, w)
      else
        (Raise (raise_from UpdateFailed
                  ("(" +:+ type_name ex +:+ ") " +:+ exn_str ex) ex),
         set_failed_update_count (failed_update_count self + 1) self, w)
  | Normal | Return _ =>
      (Returns data', self, emit (ELog DEBUG "Received data: %s" [str_dict data']) w)
  end.

End Coordinator.
End Legacy.

(** ** Classes of sessions *)

(** The session is entered and left without an exception and reports
    connected. *)
Definition session_opens (a : attempt) : bool :=
  match aenter a, aexit a with
  | None, None => connected a
  | _, _ => false
  end.

(** The session opens but reports not connected. *)
Definition session_not_connected (a : attempt) : bool :=
  match aenter a, aexit a with
  | None, None => negb (connected a)
  | _, _ => false
  end.

(** The temperature read raises a malformed-byte, timeout or transport
    error. *)
Definition temperature_read_fails (a : attempt) : bool :=
  session_opens a &&
  match get_temperature_async a with
  | Raises ex => is_communication_error ex
  | Ok _ => false
  end.

(** All three reads answer. *)
Definition reads_succeed (a : attempt) : bool :=
  session_opens a &&
  match get_temperature_async a, get_battery_async a, get_holiday_async a with
  | Ok _, Ok _, Ok _ => true
  | _, _, _ => false
  end.

(** Temperatures answer, the battery read raises a malformed-byte error. *)
Definition battery_malformed (a : attempt) : bool :=
  session_opens a &&
  match get_temperature_async a, get_battery_async a with
  | Ok _, Raises ex => is_InvalidByteValueError ex
  | _, _ => false
  end.

(** Temperatures and battery answer, the holiday read raises a
    malformed-byte error. *)
Definition holiday_malformed (a : attempt) : bool :=
  session_opens a &&
  match get_temperature_async a, get_battery_async a, get_holiday_async a with
  | Ok _, Ok _, Raises ex => is_InvalidByteValueError ex
  | _, _, _ => false
  end.

Definition optional_malformed (a : attempt) : bool :=
  battery_malformed a || holiday_malformed a.

(** The operation named [function] is called with [payload] and raises
    an exception of the given kind. *)
Definition command_raises (a : attempt) (function : string)
    (payload : gmap string value) (p : exn -> bool) : bool :=
  session_opens a && negb (fails_before_call a function payload) &&
  match command a function payload with
  | Raises ex => p ex
  | Ok _ => false
  end.

(** ** Sample devices *)

Module Sample.

Definition temperatures : gmap string value :=
  <["targetTempLow" := VFloat 16%float]> (<["targetTempHigh" := VFloat 20%float]> ∅).

Definition CONF_ALL_TEMPERATURES : list string :=
  ["currentTemp"; "manualTemp"; "targetTempLow"; "targetTempHigh"].

(** Printing of dictionaries is left out of the samples. *)
Definition str_dict (d : gmap string value) : string := "{...}".

Definition invalid_byte : exn := Exn InvalidByteValueError "Invalid byte value: 255" None.
Definition timeout : exn := Exn TimeoutError "" None.
Definition bleak : exn := Exn BleakError "Not connected" None.
Definition out_of_range : exn := Exn ValueError "temperature out of range" None.

(** Every read answers; every command answers with [None]. *)
Definition healthy : attempt :=
  {| aenter := None; connected := true;
     get_temperature_async := Ok temperatures;
     get_battery_async := Ok (VInt 80);
     get_holiday_async := Ok (VDict [("temperature", VFloat 12%float)]);
     command := λ _ _, Ok VNone;
     fails_before_call := λ _ _, false;
     aexit := None |}.

Definition with_temperature (o : outcome (gmap string value)) (a : attempt) : attempt :=
  {| aenter := aenter a; connected := connected a;
     get_temperature_async := o;
     get_battery_async := get_battery_async a;
     get_holiday_async := get_holiday_async a;
     command := command a; fails_before_call := fails_before_call a;
     aexit := aexit a |}.

Definition with_battery (o : outcome value) (a : attempt) : attempt :=
  {| aenter := aenter a; connected := connected a;
     get_temperature_async := get_temperature_async a;
     get_battery_async := o;
     get_holiday_async := get_holiday_async a;
     command := command a; fails_before_call := fails_before_call a;
     aexit := aexit a |}.

Definition with_command (o : outcome value) (a : attempt) : attempt :=
  {| aenter := aenter a; connected := connected a;
     get_temperature_async := get_temperature_async a;
     get_battery_async := get_battery_async a;
     get_holiday_async := get_holiday_async a;
     command := λ _ _, o; fails_before_call := fails_before_call a;
     aexit := aexit a |}.

Definition disconnected (a : attempt) : attempt :=
  {| aenter := aenter a; connected := false;
     get_temperature_async := get_temperature_async a;
     get_battery_async := get_battery_async a;
     get_holiday_async := get_holiday_async a;
     command := command a; fails_before_call := fails_before_call a;
     aexit := aexit a |}.

Definition thermostat (script : nat -> attempt) : AsyncCometBlue :=
  {| device_address := "AA:BB:CC:DD:EE:FF"; script := script |}.

(** The temperature read times out in the first [k] sessions and answers
    from then on. *)
Definition fails_then_succeeds (k : nat) : AsyncCometBlue :=
  thermostat (λ n, if (n <? k)%nat then with_temperature (Raises timeout) healthy
                   else healthy).

Definition always (a : attempt) : AsyncCometBlue := thermostat (λ _, a).

Definition w0 : world := {| acquired := 0; trace := [] |}.

(** A coordinator that has polled before. *)
Definition stored : gmap string value :=
  <["battery" := VInt 75]>
    (<["holiday" := VDict [("temperature", VFloat 10%float)]]>
       (<["targetTempLow" := VFloat 17%float]> ∅)).

Definition with_data (d : gmap string value) (self : coordinator) : coordinator :=
  {| device := device self; address := address self; data := d;
     failed_update_count := failed_update_count self |}.

(** A command payload the device rejects as out of range. *)
Definition payload : gmap string value := <["temperature" := VFloat 99.5%float]> ∅.
Definition rejecting : attempt := with_command (Raises out_of_range) healthy.

(** A device whose operations answer with the battery level. *)
Definition answering : attempt := with_command (Ok (VInt 80)) healthy.

(** A poll cycle of the variant with retries on a device whose
    temperature read times out three times. *)
Definition failed_poll : result (gmap string value) * coordinator * world :=
  Eurotronic._async_update_data CONF_ALL_TEMPERATURES str_dict 3
    (init (fails_then_succeeds 3)) w0.

End Sample.

(** ** Further classes of sessions *)

(** [__aenter__] raises: the connection is not established. *)
Definition connect_fails (a : attempt) (p : exn -> bool) : bool :=
  match aenter a with
  | Some ex => p ex
  | None => false
  end.

(** The temperature read raises an exception of the given kind. *)
Definition temperature_read_raises (a : attempt) (p : exn -> bool) : bool :=
  session_opens a &&
  match get_temperature_async a with
  | Raises ex => p ex
  | Ok _ => false
  end.

(** Temperatures answer, the battery read raises an exception of the
    given kind. *)
Definition battery_read_raises (a : attempt) (p : exn -> bool) : bool :=
  session_opens a &&
  match get_temperature_async a, get_battery_async a with
  | Ok _, Raises ex => p ex
  | _, _ => false
  end.

(** The first of the three reads that raises, raises a malformed-byte
    error. *)
Definition some_read_malformed (a : attempt) : bool :=
  session_opens a &&
  match get_temperature_async a, get_battery_async a, get_holiday_async a with
  | Raises ex, _, _ | Ok _, Raises ex, _ | Ok _, Ok _, Raises ex =>
      is_InvalidByteValueError ex
  | Ok _, Ok _, Ok _ => false
  end.

(** The operation answers, then [__aexit__] raises an exception of the
    given kind. *)
Definition exit_fails (a : attempt) (function : string)
    (payload : gmap string value) (p : exn -> bool) : bool :=
  match aenter a, aexit a, command a function payload with
  | None, Some ex, Ok _ => connected a && p ex
  | _, _, _ => false
  end.

(** A timeout or transport error, as opposed to a malformed byte. *)
Definition is_connection_error (e : exn) : bool :=
  is_TimeoutError e || is_BleakError e.

(** Caught by neither handler of the dispatch: not a communication
    error, and not a [ValueError] or an instance of a subclass of it. *)
Definition is_unhandled_by_dispatch (e : exn) : bool :=
  negb (is_communication_error e) && negb (except_ValueError e).

Definition is_unexpected (e : exn) : bool := negb (is_communication_error e).

(** The host stores the snapshot a poll returned: [self.data = ...]. *)
Definition set_data (d : gmap string value) (self : coordinator) : coordinator :=
  {| device := device self; address := address self; data := d;
     failed_update_count := failed_update_count self |}.

(** [n] calls of the earlier poll in a row, each on the coordinator and
    the world the call before left.  The stored snapshot is kept as it
    is: used for calls that raise or return the stored snapshot. *)
Fixpoint legacy_polls (CONF_ALL_TEMPERATURES : list string)
    (str_dict : gmap string value -> string)
    (n : nat) (self : coordinator) (w : world) : coordinator * world :=
  match n with
  | O => (self, w)
  | S n =>
      let r := Legacy._async_update_data CONF_ALL_TEMPERATURES str_dict self w in
      legacy_polls CONF_ALL_TEMPERATURES str_dict n r.1.2 r.2
  end.

(** ** Further sample devices *)

Module Scenario.

Definition unknown_operation : exn :=
  Exn (OtherException "AttributeError")
      "'AsyncCometBlue' object has no attribute 'set_colour_async'" None.

Definition key_error : exn := Exn (OtherException "KeyError") "'manualTemp'" None.

Definition with_aenter (o : option exn) (a : attempt) : attempt :=
  {| aenter := o; connected := connected a;
     get_temperature_async := get_temperature_async a;
     get_battery_async := get_battery_async a;
     get_holiday_async := get_holiday_async a;
     command := command a; fails_before_call := fails_before_call a;
     aexit := aexit a |}.

Definition with_aexit (o : option exn) (a : attempt) : attempt :=
  {| aenter := aenter a; connected := connected a;
     get_temperature_async := get_temperature_async a;
     get_battery_async := get_battery_async a;
     get_holiday_async := get_holiday_async a;
     command := command a; fails_before_call := fails_before_call a;
     aexit := o |}.

(** Out of range: every connect attempt fails. *)
Definition out_of_range_device : AsyncCometBlue :=
  Sample.always (with_aenter (Some Sample.bleak) Sample.healthy).

(** The operation answers; leaving the first session fails. *)
Definition drops_on_first_exit : AsyncCometBlue :=
  Sample.thermostat
    (λ n, if (n <? 1)%nat then with_aexit (Some Sample.bleak) Sample.answering
          else Sample.answering).

(** The operation times out in the first [j] sessions, then answers. *)
Definition answers_after (j : nat) : AsyncCometBlue :=
  Sample.thermostat
    (λ n, if (n <? j)%nat then Sample.with_command (Raises Sample.timeout) Sample.healthy
          else Sample.answering).

(** The operation times out in the first [j] sessions, then rejects the
    payload. *)
Definition rejects_after (j : nat) : AsyncCometBlue :=
  Sample.thermostat
    (λ n, if (n <? j)%nat then Sample.with_command (Raises Sample.timeout) Sample.healthy
          else Sample.rejecting).

(** A coordinator that has a stored snapshot and a given counter. *)
Definition polled (cometblue : AsyncCometBlue) (count : Z) : coordinator :=
  set_failed_update_count count (set_data Sample.stored (init cometblue)).

(** The local variables after a session in which every read answered. *)
Definition all_read : Eurotronic.locals :=
  {| Eurotronic.retrieved_temperatures := Sample.temperatures;
     Eurotronic.battery := VInt 80;
     Eurotronic.holiday := VDict [("temperature", VFloat 12%float)] |}.

Definition malformed_battery : attempt :=
  Sample.with_battery (Raises Sample.invalid_byte) Sample.healthy.

Definition temperature_timeout : attempt :=
  Sample.with_temperature (Raises Sample.timeout) Sample.healthy.

(** The battery read answers with [None]. *)
Definition no_battery_value : attempt := Sample.with_battery (Ok VNone) Sample.healthy.

(** The device has no operation of the name asked for: the lookup
    raises and nothing is called. *)
Definition without_operation : attempt :=
  {| aenter := None; connected := true;
     get_temperature_async := get_temperature_async Sample.healthy;
     get_battery_async := get_battery_async Sample.healthy;
     get_holiday_async := get_holiday_async Sample.healthy;
     command := λ _ _, Raises unknown_operation;
     fails_before_call := λ _ _, true;
     aexit := None |}.

(** The operation fails to decode what the device sent:
    [UnicodeDecodeError] is a subclass of [ValueError]. *)
Definition undecodable : exn :=
  Exn (OtherValueError "UnicodeDecodeError")
      "'utf-8' codec can't decode byte 0xff in position 0: invalid start byte" None.

Definition garbled : attempt := Sample.with_command (Raises undecodable) Sample.healthy.

(** The temperature read fails with an error of an unrelated class. *)
Definition temperature_key_error : attempt :=
  Sample.with_temperature (Raises key_error) Sample.healthy.

End Scenario.

(** The i-th session counted from a world one session later is the
    (i+1)-th counted from now. *)
Ltac shift_session w i :=
  match goal with
  | |- context [script _ ?n] =>
      replace n with (acquired w + S i)%nat by (simpl; lia)
  end.

(** * Properties *)

(** ** Sessions *)

Lemma acquired_emit ev w : acquired (emit ev w) = acquired w.
Proof. reflexivity. Qed.

Lemma async_with_acquired {S : Type} (a : attempt)
    (body : S -> world -> S * world * completion) (s : S) (w : world) :
  (∀ s w, acquired (body s w).1.2 = acquired w) →
  acquired (async_with a body s w).1.2 = Datatypes.S (acquired w).
Proof.
  intros Hbody. unfold async_with.
  destruct (aenter a); [reflexivity|].
  specialize (Hbody s (enter w)).
  destruct (body s (enter w)) as [[s' w'] c]; simpl in *.
  destruct (aexit a); simpl; rewrite Hbody; reflexivity.
Qed.

Lemma async_with_trace {S : Type} (a : attempt)
    (body : S -> world -> S * world * completion) (s : S) (w : world) :
  (∀ s w, ∃ tr, trace (body s w).1.2 = trace w ++ tr) →
  ∃ tr, trace (async_with a body s w).1.2 = trace w ++ EEnter :: tr.
Proof.
  intros Hbody. unfold async_with.
  destruct (aenter a); [exists []; reflexivity|].
  destruct (Hbody s (enter w)) as [tr Htr].
  destruct (body s (enter w)) as [[s' w'] c]; simpl in *.
  exists (tr ++ [EExit]).
  destruct (aexit a); simpl; rewrite Htr, <- !app_assoc; reflexivity.
Qed.

Section EurotronicPoll.

Variable CONF_ALL_TEMPERATURES : list string.
Variable str_dict : gmap string value -> string.

Import Eurotronic.

Lemma poll_body_acquired self a l w :
  acquired (poll_body self a l w).1.2 = acquired w.
Proof.
  unfold poll_body, optional_handler.
  repeat case_match; reflexivity.
Qed.

Lemma poll_session_acquired self a l w :
  acquired (async_with a (poll_body self a) l w).1.2 = S (acquired w).
Proof. apply async_with_acquired. intros. apply poll_body_acquired. Qed.

Lemma poll_body_trace self a l w :
  ∃ tr, trace (poll_body self a l w).1.2 = trace w ++ tr.
Proof.
  unfold poll_body, optional_handler.
  repeat case_match; simpl; rewrite <- ?app_assoc; eauto.
  exists []. by rewrite app_nil_r.
Qed.

Lemma poll_session_trace self a l w :
  ∃ tr, trace (async_with a (poll_body self a) l w).1.2 = trace w ++ EEnter :: tr.
Proof. apply async_with_trace. intros. apply poll_body_trace. Qed.

(** A session whose reads answer, or whose optional reads are only
    malformed, ends without an exception. *)
Lemma poll_session_normal self a l w :
  (reads_succeed a || optional_malformed a) = true →
  (async_with a (poll_body self a) l w).2 = Normal.
Proof.
  unfold reads_succeed, optional_malformed, battery_malformed, holiday_malformed,
    session_opens, async_with, poll_body, optional_handler.
  destruct (aenter a), (aexit a), (connected a); simpl; try discriminate;
    destruct (get_temperature_async a); simpl; try discriminate;
    destruct (get_battery_async a) as [b|eb]; simpl;
    destruct (get_holiday_async a) as [h|eh]; simpl;
    try destruct (is_InvalidByteValueError eb); simpl;
    try destruct (is_InvalidByteValueError eh); simpl;
    try discriminate; reflexivity.
Qed.

(** The loop cannot be left through its condition: [retry_count] is
    below the threshold whenever the condition is evaluated. *)
Lemma poll_loop_never_returns fuel self retry_count l w l' :
  retry_count < RETRY_COUNT →
  (poll_loop fuel self retry_count l w).1 ≠ Returns l'.
Proof.
  revert retry_count l w.
  induction fuel as [|fuel IH]; intros rc l w Hrc; simpl; [discriminate|].
  destruct (rc <? RETRY_COUNT) eqn:Hlt; [|apply Z.ltb_ge in Hlt; lia].
  destruct (async_with _ _ l w) as [[l1 w1] c].
  destruct c as [|v|ex]; try (apply IH; assumption).
  destruct (is_communication_error ex); [|discriminate].
  destruct (RETRY_COUNT <=? rc + 1) eqn:Hge; [discriminate|].
  apply IH. apply Z.leb_gt in Hge. assumption.
Qed.

(** *** What one session does *)

Lemma poll_session_fails self a l w :
  temperature_read_fails a = true →
  ∃ ex, get_temperature_async a = Raises ex ∧ is_communication_error ex = true ∧
        async_with a (poll_body self a) l w
        = (l, emit EExit (emit (ECall "get_temperature_async") (enter w)), Exc ex).
Proof.
  unfold temperature_read_fails, session_opens, async_with, poll_body.
  destruct (aenter a), (aexit a), (connected a); simpl; try discriminate.
  destruct (get_temperature_async a) as [t|ex]; [discriminate|].
  intros Hex. exists ex. auto.
Qed.

Lemma poll_session_not_connected self a l w :
  session_not_connected a = true →
  async_with a (poll_body self a) l w = (l, emit EExit (enter w), Exc (not_ready self)).
Proof.
  unfold session_not_connected, async_with, poll_body.
  destruct (aenter a), (aexit a), (connected a); simpl; try discriminate.
  reflexivity.
Qed.

(** With a malformed battery value the holiday read is not issued and
    the variables [battery] and [holiday] keep their values. *)
Lemma poll_session_battery_malformed self a l w :
  battery_malformed a = true →
  ∃ t ex, get_temperature_async a = Ok t ∧ get_battery_async a = Raises ex ∧
    async_with a (poll_body self a) l w
    = ({| retrieved_temperatures := t; battery := battery l; holiday := holiday l |},
       emit EExit
         (emit (ELog WARNING "Failed to retrieve optional data: %s (%s)"
                  [type_name ex; exn_str ex])
            (emit (ECall "get_battery_async")
               (emit (ECall "get_temperature_async") (enter w)))),
       Normal).
Proof.
  unfold battery_malformed, session_opens, async_with, poll_body, optional_handler.
  destruct (aenter a), (aexit a), (connected a); simpl; try discriminate.
  destruct (get_temperature_async a) as [t|?]; [|discriminate].
  destruct (get_battery_async a) as [?|ex]; [discriminate|].
  intros ->. exists t, ex. auto.
Qed.

(** *** The loop *)

(** While every session ends without an exception the loop goes on: it
    uses up any amount of fuel, one session per unit. *)
Lemma poll_loop_spins fuel self retry_count l w :
  retry_count < RETRY_COUNT →
  (∀ i, (reads_succeed (script (device self) (acquired w + i)%nat)
         || optional_malformed (script (device self) (acquired w + i)%nat)) = true) →
  (poll_loop fuel self retry_count l w).1 = OutOfFuel ∧
  acquired (poll_loop fuel self retry_count l w).2 = (acquired w + fuel)%nat.
Proof.
  intros Hrc. revert l w.
  induction fuel as [|fuel IH]; intros l w Hok; simpl.
  { split; [reflexivity|lia]. }
  apply Z.ltb_lt in Hrc as Hlt. rewrite Hlt.
  pose proof (Hok 0%nat) as H0. rewrite Nat.add_0_r in H0.
  pose proof (poll_session_normal self _ l w H0) as Hn.
  pose proof (poll_session_acquired self (script (device self) (acquired w)) l w) as Ha.
  destruct (async_with _ _ l w) as [[l1 w1] c]; simpl in *. subst c.
  destruct (IH l1 w1) as [Hr Hw].
  { intros i. rewrite Ha. shift_session w i. apply Hok. }
  split; [exact Hr|]. rewrite Hw, Ha. lia.
Qed.

(** [k] failed temperature reads below the threshold only move the
    point from which the loop spins. *)
Lemma poll_loop_fails_then_spins k : ∀ fuel self retry_count l w,
  retry_count + Z.of_nat k < RETRY_COUNT →
  (∀ i, (i < k)%nat →
        temperature_read_fails (script (device self) (acquired w + i)%nat) = true) →
  (∀ i, (k ≤ i)%nat →
        reads_succeed (script (device self) (acquired w + i)%nat) = true) →
  (poll_loop fuel self retry_count l w).1 = OutOfFuel ∧
  acquired (poll_loop fuel self retry_count l w).2 = (acquired w + fuel)%nat.
Proof.
  induction k as [|k IH]; intros fuel self rc l w Hrc Hfail Hok.
  { apply poll_loop_spins; [lia|]. intros i. rewrite Hok; [reflexivity|lia]. }
  destruct fuel as [|fuel]; simpl.
  { split; [reflexivity|lia]. }
  assert ((rc <? RETRY_COUNT) = true) as -> by (apply Z.ltb_lt; lia).
  pose proof (Hfail 0%nat ltac:(lia)) as H0. rewrite Nat.add_0_r in H0.
  destruct (poll_session_fails self _ l w H0) as (ex & _ & Hex & ->).
  rewrite Hex.
  assert ((RETRY_COUNT <=? rc + 1) = false) as -> by (apply Z.leb_gt; lia).
  match goal with |- context [poll_loop fuel self (rc + 1) l ?w1] =>
    destruct (IH fuel self (rc + 1) l w1) as [Hr Hw] end.
  - lia.
  - intros i Hi. shift_session w i. apply Hfail. lia.
  - intros i Hi. shift_session w i. apply Hok. lia.
  - split; [exact Hr|]. rewrite Hw. simpl. lia.
Qed.

(** The loop only adds to the trace and to the count of sessions. *)
Lemma poll_loop_trace fuel self retry_count l w :
  ∃ tr, trace (poll_loop fuel self retry_count l w).2 = trace w ++ tr.
Proof.
  revert retry_count l w.
  induction fuel as [|fuel IH]; intros rc l w; simpl.
  { exists []. by rewrite app_nil_r. }
  destruct (rc <? RETRY_COUNT); [|exists []; by rewrite app_nil_r].
  destruct (poll_session_trace self (script (device self) (acquired w)) l w) as [tr Htr].
  destruct (async_with _ _ l w) as [[l1 w1] c]; simpl in Htr.
  assert (∀ rc' w2, (∃ tr2, trace w2 = trace w1 ++ tr2) →
            ∃ tr', trace (poll_loop fuel self rc' l1 w2).2 = trace w ++ tr') as Hgo.
  { intros rc' w2 [tr2 H2]. destruct (IH rc' l1 w2) as [tr3 H3].
    exists ((EEnter :: tr) ++ tr2 ++ tr3). rewrite H3, H2, Htr, <- !app_assoc. reflexivity. }
  destruct c as [|v|ex].
  - apply Hgo. exists []. by rewrite app_nil_r.
  - apply Hgo. exists []. by rewrite app_nil_r.
  - destruct (is_communication_error ex); [|simpl; eauto].
    destruct (RETRY_COUNT <=? rc + 1); [simpl; eauto|].
    apply Hgo. simpl. eauto.
Qed.

Lemma poll_loop_acquired fuel self retry_count l w :
  (acquired w ≤ acquired (poll_loop fuel self retry_count l w).2)%nat.
Proof.
  revert retry_count l w.
  induction fuel as [|fuel IH]; intros rc l w; simpl; [lia|].
  destruct (rc <? RETRY_COUNT); [|simpl; lia].
  pose proof (poll_session_acquired self (script (device self) (acquired w)) l w) as Ha.
  destruct (async_with _ _ l w) as [[l1 w1] c]; simpl in Ha.
  destruct c as [|v|ex].
  - specialize (IH rc l1 w1). lia.
  - specialize (IH rc l1 w1). lia.
  - destruct (is_communication_error ex); [|simpl; lia].
    destruct (RETRY_COUNT <=? rc + 1); [simpl; lia|].
    match goal with |- context [poll_loop fuel self ?r l1 ?w2] =>
      specialize (IH r l1 w2) end.
    simpl in IH. lia.
Qed.

(** After a session that ended without an exception the loop condition
    still holds, so with fuel left a further session is entered. *)
Lemma poll_loop_after_normal fuel self retry_count l w :
  retry_count < RETRY_COUNT →
  (async_with (script (device self) (acquired w))
              (poll_body self (script (device self) (acquired w))) l w).2 = Normal →
  (acquired w + 2 ≤ acquired (poll_loop (S (S fuel)) self retry_count l w).2)%nat.
Proof.
  intros Hrc Hn.
  pose proof (proj2 (Z.ltb_lt _ _) Hrc) as Hlt.
  remember (S fuel) as fuel' eqn:Hfuel. simpl. rewrite Hlt.
  pose proof (poll_session_acquired self (script (device self) (acquired w)) l w) as Ha.
  destruct (async_with _ _ l w) as [[l1 w1] c]; simpl in *. subst c fuel'.
  simpl. rewrite Hlt.
  pose proof (poll_session_acquired self (script (device self) (acquired w1)) l1 w1) as Ha1.
  destruct (async_with _ _ l1 w1) as [[l2 w2] c]; simpl in Ha1.
  destruct c as [|v|ex].
  - pose proof (poll_loop_acquired fuel self retry_count l2 w2). lia.
  - pose proof (poll_loop_acquired fuel self retry_count l2 w2). lia.
  - destruct (is_communication_error ex); [|simpl; lia].
    destruct (RETRY_COUNT <=? retry_count + 1); [simpl; lia|].
    match goal with |- context [poll_loop fuel self ?r l2 ?w3] =>
      pose proof (poll_loop_acquired fuel self r l2 w3) as H3 end.
    simpl in H3. lia.
Qed.

Lemma async_update_data_out_of_fuel fuel self w :
  (poll_loop fuel self 0 initial_locals w).1 = OutOfFuel →
  _async_update_data CONF_ALL_TEMPERATURES str_dict fuel self w
  = (OutOfFuel, self, (poll_loop fuel self 0 initial_locals w).2).
Proof.
  unfold _async_update_data.
  destruct (poll_loop fuel self 0 initial_locals w) as [[l'|ex|] w']; simpl;
    intros; congruence.
Qed.

(** On a device that fails [k < 3] temperature reads and answers from
    then on, the call uses up any amount of fuel, one session per unit. *)
Lemma async_update_data_spins k fuel self w :
  (k < 3)%nat →
  (∀ i, (i < k)%nat →
        temperature_read_fails (script (device self) (acquired w + i)%nat) = true) →
  (∀ i, (k ≤ i)%nat →
        reads_succeed (script (device self) (acquired w + i)%nat) = true) →
  _async_update_data CONF_ALL_TEMPERATURES str_dict fuel self w
  = (OutOfFuel, self, (poll_loop fuel self 0 initial_locals w).2)
  ∧ acquired (poll_loop fuel self 0 initial_locals w).2 = (acquired w + fuel)%nat.
Proof.
  intros Hk Hfail Hok.
  destruct (poll_loop_fails_then_spins k fuel self 0 initial_locals w) as [Hr Hw];
    [unfold RETRY_COUNT; lia|exact Hfail|exact Hok|].
  split; [|exact Hw]. by apply async_update_data_out_of_fuel.
Qed.

(** No call of the poll path returns a snapshot, whatever the device
    does and however long the call is followed. *)
Lemma async_update_data_never_returns fuel self w snapshot :
  (_async_update_data CONF_ALL_TEMPERATURES str_dict fuel self w).1.1 ≠ Returns snapshot.
Proof.
  unfold _async_update_data.
  pose proof (poll_loop_never_returns fuel self 0 initial_locals w) as H.
  destruct (poll_loop fuel self 0 initial_locals w) as [[l'|ex|] w']; simpl in *;
    try discriminate.
  exfalso. apply (H l'); [reflexivity|reflexivity].
Qed.

(** On every path the call takes, its world is the one the loop left. *)
Lemma async_update_data_world fuel self w :
  (_async_update_data CONF_ALL_TEMPERATURES str_dict fuel self w).2
  = (poll_loop fuel self 0 initial_locals w).2.
Proof.
  unfold _async_update_data.
  pose proof (poll_loop_never_returns fuel self 0 initial_locals w) as H.
  destruct (poll_loop fuel self 0 initial_locals w) as [[l'|ex|] w']; simpl in *;
    try reflexivity.
  exfalso. apply (H l'); reflexivity.
Qed.

Lemma async_update_data_self fuel self w :
  (_async_update_data CONF_ALL_TEMPERATURES str_dict fuel self w).1.2 = self.
Proof.
  unfold _async_update_data.
  destruct (poll_loop fuel self 0 initial_locals w) as [[l'|ex|] w']; reflexivity.
Qed.

(** Whenever the loop condition is evaluated below the threshold with
    fuel left, one more session is entered. *)
Lemma poll_loop_enters fuel self retry_count l w :
  retry_count < RETRY_COUNT →
  ∃ tr, trace (poll_loop (S fuel) self retry_count l w).2 = trace w ++ EEnter :: tr.
Proof.
  intros Hrc. simpl. rewrite (proj2 (Z.ltb_lt _ _) Hrc).
  destruct (poll_session_trace self (script (device self) (acquired w)) l w) as [tr Htr].
  destruct (async_with _ _ l w) as [[l1 w1] c]; simpl in Htr.
  assert (∀ rc' w2, (∃ tr2, trace w2 = trace w1 ++ tr2) →
            ∃ tr', trace (poll_loop fuel self rc' l1 w2).2 = trace w ++ EEnter :: tr') as Hgo.
  { intros rc' w2 [tr2 H2].
    destruct (poll_loop_trace fuel self rc' l1 w2) as [tr3 H3].
    exists (tr ++ tr2 ++ tr3). rewrite H3, H2, Htr, <- !app_assoc. reflexivity. }
  destruct c as [|v|ex].
  - apply Hgo. exists []. by rewrite app_nil_r.
  - apply Hgo. exists []. by rewrite app_nil_r.
  - destruct (is_communication_error ex); [|simpl; eauto].
    destruct (RETRY_COUNT <=? retry_count + 1); [simpl; eauto|].
    apply Hgo. simpl. eauto.
Qed.

(** A failed temperature read below the threshold: log and go round
    again with one retry more. *)
Lemma poll_loop_retry_step fuel self retry_count l w :
  retry_count + 1 < RETRY_COUNT →
  temperature_read_fails (script (device self) (acquired w)) = true →
  ∃ ex, get_temperature_async (script (device self) (acquired w)) = Raises ex ∧
    poll_loop (S fuel) self retry_count l w
    = poll_loop fuel self (retry_count + 1) l
        (emit (ELog INFO "Retrying after %s (%s)" [type_name ex; exn_str ex])
           (emit EExit (emit (ECall "get_temperature_async") (enter w)))).
Proof.
  intros Hrc Hfail. simpl.
  rewrite (proj2 (Z.ltb_lt retry_count RETRY_COUNT)) by lia.
  destruct (poll_session_fails self _ l w Hfail) as (ex & Hg & Hex & ->).
  rewrite Hex, (proj2 (Z.leb_gt RETRY_COUNT (retry_count + 1))) by lia.
  eauto.
Qed.

(** A failed temperature read that reaches the threshold. *)
Lemma poll_loop_last_step fuel self retry_count l w :
  retry_count < RETRY_COUNT →
  RETRY_COUNT ≤ retry_count + 1 →
  temperature_read_fails (script (device self) (acquired w)) = true →
  ∃ ex, get_temperature_async (script (device self) (acquired w)) = Raises ex ∧
    poll_loop (S fuel) self retry_count l w
    = (Raise (raise_from UpdateFailed ("Error retrieving data: " +:+ exn_str ex) ex),
       emit EExit (emit (ECall "get_temperature_async") (enter w))).
Proof.
  intros Hrc Hlast Hfail. simpl.
  rewrite (proj2 (Z.ltb_lt retry_count RETRY_COUNT)) by lia.
  destruct (poll_session_fails self _ l w Hfail) as (ex & Hg & Hex & ->).
  rewrite Hex, (proj2 (Z.leb_le RETRY_COUNT (retry_count + 1))) by lia.
  eauto.
Qed.

(** [k] failed temperature reads, then a session that ends without an
    exception: at least [k + 2] sessions are entered. *)
Lemma poll_loop_fails_then_normal k : ∀ fuel self retry_count l w,
  retry_count + Z.of_nat k < RETRY_COUNT →
  (∀ i, (i < k)%nat →
        temperature_read_fails (script (device self) (acquired w + i)%nat) = true) →
  (reads_succeed (script (device self) (acquired w + k)%nat)
   || optional_malformed (script (device self) (acquired w + k)%nat)) = true →
  (acquired w + k + 2
   ≤ acquired (poll_loop (k + S (S fuel)) self retry_count l w).2)%nat.
Proof.
  induction k as [|k IH]; intros fuel self rc l w Hrc Hfail Hok.
  { rewrite Nat.add_0_r in *. simpl Nat.add.
    apply poll_loop_after_normal; [lia|].
    apply poll_session_normal. exact Hok. }
  change (S k + S (S fuel))%nat with (S (k + S (S fuel))).
  remember (k + S (S fuel))%nat as n eqn:Hn. simpl.
  rewrite (proj2 (Z.ltb_lt rc RETRY_COUNT)) by lia.
  pose proof (Hfail 0%nat ltac:(lia)) as H0. rewrite Nat.add_0_r in H0.
  destruct (poll_session_fails self _ l w H0) as (ex & _ & Hex & ->).
  rewrite Hex, (proj2 (Z.leb_gt RETRY_COUNT (rc + 1))) by lia.
  subst n.
  match goal with |- context [poll_loop _ self (rc + 1) l ?w1] =>
    pose proof (IH fuel self (rc + 1) l w1) as IH1 end.
  simpl acquired in IH1.
  replace (acquired w + S k + 2)%nat with (S (acquired w) + k + 2)%nat by lia.
  apply IH1.
  - lia.
  - intros i Hi. replace (S (acquired w) + i)%nat with (acquired w + S i)%nat by lia.
    apply Hfail. lia.
  - replace (S (acquired w) + k)%nat with (acquired w + S k)%nat by lia. exact Hok.
Qed.

(** Three failed temperature reads in a row end the call with
    [UpdateFailed] after exactly three sessions. *)
Lemma poll_retry_budget_exhausted fuel self w :
  (∀ i, (i < 3)%nat →
        temperature_read_fails (script (device self) (acquired w + i)%nat) = true) →
  ∃ ex,
    get_temperature_async (script (device self) (acquired w + 2)%nat) = Raises ex ∧
    (_async_update_data CONF_ALL_TEMPERATURES str_dict (3 + fuel) self w).1
    = (Raise (raise_from UpdateFailed ("Error retrieving data: " +:+ exn_str ex) ex), self) ∧
    acquired (_async_update_data CONF_ALL_TEMPERATURES str_dict (3 + fuel) self w).2
    = (acquired w + 3)%nat.
Proof.
  intros Hfail.
  pose proof (Hfail 0%nat ltac:(lia)) as H0. rewrite Nat.add_0_r in H0.
  pose proof (Hfail 1%nat ltac:(lia)) as H1.
  pose proof (Hfail 2%nat ltac:(lia)) as H2.
  unfold _async_update_data. change (3 + fuel)%nat with (S (S (S fuel))).
  destruct (poll_loop_retry_step (S (S fuel)) self 0 initial_locals w)
    as (e0 & _ & ->); [reflexivity|exact H0|].
  match goal with |- context [poll_loop _ self (0 + 1) initial_locals ?w1] =>
    destruct (poll_loop_retry_step (S fuel) self (0 + 1) initial_locals w1)
      as (e1 & _ & ->); [reflexivity| |] end.
  { simpl acquired. replace (S (acquired w)) with (acquired w + 1)%nat by lia. exact H1. }
  match goal with |- context [poll_loop _ self (0 + 1 + 1) initial_locals ?w2] =>
    destruct (poll_loop_last_step fuel self (0 + 1 + 1) initial_locals w2)
      as (e2 & Hg & ->); [reflexivity|reflexivity| |] end.
  { simpl acquired. replace (S (S (acquired w))) with (acquired w + 2)%nat by lia. exact H2. }
  simpl acquired in Hg.
  replace (S (S (acquired w))) with (acquired w + 2)%nat in Hg by lia.
  exists e2. repeat split; [exact Hg|simpl; lia].
Qed.

(** **** Claims *)

(** C1 (retry budget exactness of the polling path).  The claim says
    that after [k < 3] failed temperature reads and one successful
    session the call returns a snapshot, having entered [min (k+1) 3]
    sessions.  On the code the call does not return at that point: the
    loop has no exit after a successful session, so whatever the device
    does next no snapshot is ever returned and, followed for [k + 2]
    turns of the loop or more, the call has entered more than
    [min (k+1) 3] sessions. *)
Theorem C1_poll_goes_on_after_successful_read k fuel self w :
  (k < 3)%nat →
  (∀ i, (i < k)%nat →
        temperature_read_fails (script (device self) (acquired w + i)%nat) = true) →
  reads_succeed (script (device self) (acquired w + k)%nat) = true →
  (∀ snapshot,
     (_async_update_data CONF_ALL_TEMPERATURES str_dict (k + S (S fuel)) self w).1.1
     ≠ Returns snapshot) ∧
  (acquired w + Nat.min (k + 1) 3
   < acquired (_async_update_data CONF_ALL_TEMPERATURES str_dict (k + S (S fuel)) self w).2)%nat.
Proof.
  intros Hk Hfail Hok. split.
  - intros snapshot. apply async_update_data_never_returns.
  - rewrite async_update_data_world.
    pose proof (poll_loop_fails_then_normal k fuel self 0 initial_locals w) as H.
    rewrite Hok in H. specialize (H ltac:(unfold RETRY_COUNT; lia) Hfail eq_refl). lia.
Qed.

(** C4 (optional-field isolation).  A session in which the temperatures
    answer and battery or holiday is malformed ends without an
    exception and without a retry being counted, but the call does not
    succeed: no snapshot is returned, and with two turns of the loop or
    more a second session has been entered. *)
Theorem C4_optional_malformed_does_not_end_the_cycle fuel self w :
  optional_malformed (script (device self) (acquired w)) = true →
  (∀ snapshot,
     (_async_update_data CONF_ALL_TEMPERATURES str_dict (S (S fuel)) self w).1.1
     ≠ Returns snapshot) ∧
  (acquired w + 2
   ≤ acquired (_async_update_data CONF_ALL_TEMPERATURES str_dict (S (S fuel)) self w).2)%nat.
Proof.
  intros Hopt. split.
  - intros snapshot. apply async_update_data_never_returns.
  - rewrite async_update_data_world.
    apply poll_loop_after_normal; [reflexivity|].
    apply poll_session_normal. rewrite Hopt. apply orb_true_r.
Qed.

(** C10 (holiday read skipped after a malformed battery value).  In a
    session whose battery read is malformed the holiday read is not
    issued: the session consists of entering, the temperature read, the
    battery read, the warning and leaving.  The call does not succeed
    after it: the next event is the entry of a further session, and no
    snapshot is ever returned. *)
Theorem C10_battery_malformed_skips_holiday_but_cycle_goes_on fuel self w :
  battery_malformed (script (device self) (acquired w)) = true →
  ∃ ex rest,
    get_battery_async (script (device self) (acquired w)) = Raises ex ∧
    trace (_async_update_data CONF_ALL_TEMPERATURES str_dict (S (S fuel)) self w).2
    = trace w ++ [EEnter; ECall "get_temperature_async"; ECall "get_battery_async";
                  ELog WARNING "Failed to retrieve optional data: %s (%s)"
                    [type_name ex; exn_str ex];
                  EExit] ++ EEnter :: rest ∧
    ∀ snapshot,
      (_async_update_data CONF_ALL_TEMPERATURES str_dict (S (S fuel)) self w).1.1
      ≠ Returns snapshot.
Proof.
  intros Hb.
  destruct (poll_session_battery_malformed self _ initial_locals w Hb)
    as (t & ex & Ht & Hex & Hs).
  assert (∃ rest,
    trace (poll_loop (S (S fuel)) self 0 initial_locals w).2
    = trace w ++ [EEnter; ECall "get_temperature_async"; ECall "get_battery_async";
                  ELog WARNING "Failed to retrieve optional data: %s (%s)"
                    [type_name ex; exn_str ex];
                  EExit] ++ EEnter :: rest) as [rest Hrest].
  { remember (S fuel) as n eqn:Hn. simpl.
    rewrite Hs. subst n.
    match goal with |- context [poll_loop (S fuel) self 0 ?l1 ?w1] =>
      destruct (poll_loop_enters fuel self 0 l1 w1) as [rest Hrest]; [reflexivity|] end.
    exists rest. rewrite Hrest. simpl. rewrite <- !app_assoc. reflexivity. }
  exists ex, rest. split; [exact Hex|]. split.
  - rewrite async_update_data_world. exact Hrest.
  - intros snapshot. apply async_update_data_never_returns.
Qed.

End EurotronicPoll.

(** ** The merge of a cycle's reads with the stored snapshot *)

Section EurotronicMerge.

Variable CONF_ALL_TEMPERATURES : list string.

Import Eurotronic.

Lemma foldl_insert_lookup (f : string → value) (ks : list string) :
  ∀ (base : gmap string value) (k : string),
    foldl (λ d k, <[k := f k]> d) base ks !! k
    = if decide (k ∈ ks) then Some (f k) else base !! k.
Proof.
  induction ks as [|k0 ks IH]; intros base k.
  { rewrite decide_False; [reflexivity|apply not_elem_of_nil]. }
  change (foldl (λ d k, <[k := f k]> d) base (k0 :: ks))
    with (foldl (λ d k, <[k := f k]> d) (<[k0 := f k0]> base) ks).
  rewrite IH.
  destruct (decide (k ∈ ks)) as [Hin|Hin].
  - rewrite decide_True; [reflexivity|]. apply elem_of_cons. by right.
  - destruct (decide (k = k0)) as [->|Hne].
    + rewrite decide_True; [|apply elem_of_cons; by left]. apply lookup_insert_eq.
    + rewrite decide_False; [by apply lookup_insert_ne|].
      intros [?|?]%elem_of_cons; congruence.
Qed.

(** A temperature field of the snapshot is the value read, or the stored
    one when the value read is falsy. *)
Lemma merged_data_temperature self l k :
  k ∈ CONF_ALL_TEMPERATURES →
  merged_data CONF_ALL_TEMPERATURES self l !! k
  = Some (py_or (dict_get (retrieved_temperatures l) k) (dict_get (data self) k)).
Proof.
  intros Hin. unfold merged_data.
  rewrite (foldl_insert_lookup
             (λ k, py_or (dict_get (retrieved_temperatures l) k) (dict_get (data self) k))).
  by rewrite decide_True.
Qed.

Lemma merged_data_battery self l :
  "battery" ∉ CONF_ALL_TEMPERATURES →
  merged_data CONF_ALL_TEMPERATURES self l !! "battery"
  = Some (py_or (battery l) (dict_get (data self) "battery")).
Proof.
  intros Hin. unfold merged_data.
  rewrite (foldl_insert_lookup
             (λ k, py_or (dict_get (retrieved_temperatures l) k) (dict_get (data self) k))).
  rewrite decide_False by assumption.
  rewrite lookup_insert_ne by discriminate. apply lookup_insert_eq.
Qed.

Lemma merged_data_holiday self l :
  "holiday" ∉ CONF_ALL_TEMPERATURES →
  merged_data CONF_ALL_TEMPERATURES self l !! "holiday"
  = Some (py_or (holiday l) (dict_get (data self) "holiday")).
Proof.
  intros Hin. unfold merged_data.
  rewrite (foldl_insert_lookup
             (λ k, py_or (dict_get (retrieved_temperatures l) k) (dict_get (data self) k))).
  rewrite decide_False by assumption.
  apply lookup_insert_eq.
Qed.

Lemma py_or_falsy x y : truthy x = false → py_or x y = y.
Proof. unfold py_or. by intros ->. Qed.

Lemma py_or_keeps_truthy x y : truthy y = true → truthy (py_or x y) = true.
Proof. unfold py_or. destruct (truthy x) eqn:Hx; auto. Qed.

(** X26.  In the snapshot expression written after the loop, a tracked
    field whose read gave nothing truthy in this cycle is mapped to the
    value stored before the cycle; and a tracked field whose stored
    value is truthy is truthy in the snapshot, whatever was read. *)
Theorem merged_data_falsy_read_keeps_stored self l k :
  ((k ∈ CONF_ALL_TEMPERATURES ∧ truthy (dict_get (retrieved_temperatures l) k) = false)
   ∨ ((k ∉ CONF_ALL_TEMPERATURES) ∧ k = "battery" ∧ truthy (battery l) = false)
   ∨ ((k ∉ CONF_ALL_TEMPERATURES) ∧ k = "holiday" ∧ truthy (holiday l) = false) →
   merged_data CONF_ALL_TEMPERATURES self l !! k = Some (dict_get (data self) k))
  ∧ (k ∈ CONF_ALL_TEMPERATURES ∨ k = "battery" ∨ k = "holiday" →
     truthy (dict_get (data self) k) = true →
     truthy (dict_get (merged_data CONF_ALL_TEMPERATURES self l) k) = true).
Proof.
  split.
  - intros [[Hin Hf]|[(Hin & -> & Hf)|(Hin & -> & Hf)]].
    + rewrite merged_data_temperature by assumption. by rewrite py_or_falsy.
    + rewrite merged_data_battery by assumption. by rewrite py_or_falsy.
    + rewrite merged_data_holiday by assumption. by rewrite py_or_falsy.
  - intros Htracked Hstored. unfold dict_get at 1.
    destruct (decide (k ∈ CONF_ALL_TEMPERATURES)) as [Hin|Hin].
    { rewrite merged_data_temperature by assumption. simpl.
      by apply py_or_keeps_truthy. }
    destruct Htracked as [?|[->| ->]]; [done| |].
    + rewrite merged_data_battery by assumption. simpl. by apply py_or_keeps_truthy.
    + rewrite merged_data_holiday by assumption. simpl. by apply py_or_keeps_truthy.
Qed.

End EurotronicMerge.

(** ** The availability gate *)

(** C5 (availability gate).  [available] is true exactly when the failure
    counter is below 3 and the device is present, and false exactly when
    the counter is 3 or more or the device is absent.  It is a function
    from the coordinator to a boolean: it has no coordinator to give
    back. *)
Theorem C5_available_iff (self : coordinator) (async_address_present : string → bool) :
  (available self async_address_present = true
   ↔ failed_update_count self < 3 ∧ async_address_present (address self) = true)
  ∧ (available self async_address_present = false
     ↔ 3 ≤ failed_update_count self ∨ async_address_present (address self) = false).
Proof.
  unfold available, RETRY_COUNT. split.
  - rewrite andb_true_iff, Z.ltb_lt. reflexivity.
  - rewrite andb_false_iff, Z.ltb_ge. reflexivity.
Qed.

(** ** Command dispatch *)

Section EurotronicDispatch.

Variable str_dict : gmap string value -> string.

Import Eurotronic.

Lemma send_body_acquired self a function payload s w :
  acquired (send_body self a function payload s w).1.2 = acquired w.
Proof. unfold send_body. repeat case_match; reflexivity. Qed.

Lemma send_session_acquired self a function payload w :
  acquired (async_with a (send_body self a function payload) tt w).1.2 = S (acquired w).
Proof. apply async_with_acquired. intros. apply send_body_acquired. Qed.

Lemma send_session_raises self a function payload w ex :
  session_opens a = true →
  command a function payload = Raises ex →
  fails_before_call a function payload = false →
  async_with a (send_body self a function payload) tt w
  = (tt, emit EExit (emit (ECall function) (enter w)), Exc ex).
Proof.
  unfold session_opens, async_with, send_body.
  destruct (aenter a), (aexit a), (connected a); simpl; try discriminate.
  by intros _ -> ->.
Qed.

Lemma send_session_returns self a function payload w v :
  session_opens a = true →
  command a function payload = Ok v →
  async_with a (send_body self a function payload) tt w
  = (tt, emit EExit (emit (ECall function) (enter w)), Return v).
Proof.
  unfold session_opens, async_with, send_body.
  destruct (aenter a), (aexit a), (connected a); simpl; try discriminate.
  by intros _ ->.
Qed.

Lemma send_session_not_connected self a function payload w :
  session_not_connected a = true →
  async_with a (send_body self a function payload) tt w
  = (tt, emit EExit (enter w), Exc (not_ready self)).
Proof.
  unfold session_not_connected, async_with, send_body.
  destruct (aenter a), (aexit a), (connected a); simpl; try discriminate.
  reflexivity.
Qed.

(** The block either returns the result of the operation or raises. *)
Lemma send_session_inv self a function payload w s w' c :
  async_with a (send_body self a function payload) tt w = (s, w', c) →
  match c with
  | Normal => False
  | Return v => command a function payload = Ok v
  | Exc _ => True
  end.
Proof.
  unfold async_with, send_body.
  destruct (aenter a), (aexit a), (connected a), (command a function payload),
    (fails_before_call a function payload);
    simpl; intros [= <- <- <-]; auto.
Qed.

Lemma command_raises_inv a function payload p :
  command_raises a function payload p = true →
  session_opens a = true ∧ fails_before_call a function payload = false ∧
  ∃ ex, command a function payload = Raises ex ∧ p ex = true.
Proof.
  unfold command_raises. destruct (session_opens a); [|discriminate].
  destruct (fails_before_call a function payload); [discriminate|].
  destruct (command a function payload) as [|ex]; [discriminate|]. eauto.
Qed.

Lemma value_error_is_caught ex :
  is_ValueError ex = true → except_ValueError ex = true.
Proof.
  unfold is_ValueError, except_ValueError.
  destruct (exn_cls ex); simpl; congruence.
Qed.

Lemma value_error_not_communication ex :
  is_ValueError ex = true → is_communication_error ex = false.
Proof.
  unfold is_ValueError, is_communication_error, is_InvalidByteValueError,
    is_TimeoutError, is_BleakError.
  destruct (exn_cls ex); simpl; congruence.
Qed.

(** *** The loop, one turn at a time *)

Lemma send_loop_retry_step fuel self function payload caller retry_count w ex :
  retry_count + 1 < RETRY_COUNT →
  session_opens (script (device self) (acquired w)) = true →
  fails_before_call (script (device self) (acquired w)) function payload = false →
  command (script (device self) (acquired w)) function payload = Raises ex →
  is_communication_error ex = true →
  send_loop str_dict (S fuel) self function payload caller retry_count w
  = send_loop str_dict fuel self function payload caller (retry_count + 1)
      (emit (ELog INFO "Retrying command '%s' to '%s' after %s (%s)"
               [str_dict payload; caller; type_name ex; exn_str ex])
         (emit EExit (emit (ECall function) (enter w)))).
Proof.
  intros Hrc Hopen Hb Hcmd Hex. simpl.
  rewrite (proj2 (Z.ltb_lt retry_count RETRY_COUNT)) by lia.
  rewrite (send_session_raises self _ function payload w ex Hopen Hcmd Hb).
  rewrite Hex, (proj2 (Z.leb_gt RETRY_COUNT (retry_count + 1))) by lia.
  reflexivity.
Qed.

Lemma send_loop_last_step fuel self function payload caller retry_count w ex :
  retry_count < RETRY_COUNT →
  RETRY_COUNT ≤ retry_count + 1 →
  session_opens (script (device self) (acquired w)) = true →
  fails_before_call (script (device self) (acquired w)) function payload = false →
  command (script (device self) (acquired w)) function payload = Raises ex →
  is_communication_error ex = true →
  send_loop str_dict (S fuel) self function payload caller retry_count w
  = (Raise (raise_from HomeAssistantError
              ("Error sending command '" +:+ str_dict payload +:+ "' to '"
                 +:+ caller +:+ "': " +:+ exn_str ex) ex),
     emit EExit (emit (ECall function) (enter w))).
Proof.
  intros Hrc Hlast Hopen Hb Hcmd Hex. simpl.
  rewrite (proj2 (Z.ltb_lt retry_count RETRY_COUNT)) by lia.
  rewrite (send_session_raises self _ function payload w ex Hopen Hcmd Hb).
  rewrite Hex, (proj2 (Z.leb_le RETRY_COUNT (retry_count + 1))) by lia.
  reflexivity.
Qed.

(** A [ValueError] ends the call at once, whatever [retry_count] is. *)
Lemma send_loop_value_error fuel self function payload caller retry_count w ex :
  retry_count < RETRY_COUNT →
  session_opens (script (device self) (acquired w)) = true →
  fails_before_call (script (device self) (acquired w)) function payload = false →
  command (script (device self) (acquired w)) function payload = Raises ex →
  is_ValueError ex = true →
  send_loop str_dict (S fuel) self function payload caller retry_count w
  = (Raise (raise_from ServiceValidationError
              ("Invalid payload '" +:+ str_dict payload +:+ "' for '"
                 +:+ caller +:+ "': " +:+ exn_str ex) ex),
     emit EExit (emit (ECall function) (enter w))).
Proof.
  intros Hrc Hopen Hb Hcmd Hex. simpl.
  rewrite (proj2 (Z.ltb_lt retry_count RETRY_COUNT)) by lia.
  rewrite (send_session_raises self _ function payload w ex Hopen Hcmd Hb).
  rewrite (value_error_not_communication ex Hex), (value_error_is_caught ex Hex).
  reflexivity.
Qed.

Lemma send_loop_returns_step fuel self function payload caller retry_count w v :
  retry_count < RETRY_COUNT →
  session_opens (script (device self) (acquired w)) = true →
  command (script (device self) (acquired w)) function payload = Ok v →
  send_loop str_dict (S fuel) self function payload caller retry_count w
  = (Returns v, emit EExit (emit (ECall function) (enter w))).
Proof.
  intros Hrc Hopen Hcmd. simpl.
  rewrite (proj2 (Z.ltb_lt retry_count RETRY_COUNT)) by lia.
  rewrite (send_session_returns self _ function payload w v Hopen Hcmd).
  reflexivity.
Qed.

(** *** Termination: three turns of the loop are enough *)

Lemma send_loop_terminates fuel self function payload caller retry_count w :
  retry_count < RETRY_COUNT →
  (Z.to_nat (RETRY_COUNT - retry_count) ≤ fuel)%nat →
  (send_loop str_dict fuel self function payload caller retry_count w).1 ≠ OutOfFuel ∧
  (acquired (send_loop str_dict fuel self function payload caller retry_count w).2
   ≤ acquired w + Z.to_nat (RETRY_COUNT - retry_count))%nat.
Proof.
  revert retry_count w.
  induction fuel as [|fuel IH]; intros rc w Hrc Hfuel.
  { unfold RETRY_COUNT in *. lia. }
  simpl. rewrite (proj2 (Z.ltb_lt rc RETRY_COUNT)) by lia.
  pose proof (send_session_acquired self (script (device self) (acquired w))
                function payload w) as Ha.
  pose proof (send_session_inv self (script (device self) (acquired w))
                function payload w) as Hinv.
  destruct (async_with _ _ tt w) as [[s w1] c]; simpl in Ha.
  specialize (Hinv s w1 c eq_refl).
  destruct c as [|v|ex]; [done| |].
  - simpl. split; [discriminate|]. unfold RETRY_COUNT in *. lia.
  - destruct (is_communication_error ex).
    + destruct (Z.leb_spec RETRY_COUNT (rc + 1)) as [Hlast|Hmore].
      * simpl. split; [discriminate|]. unfold RETRY_COUNT in *. lia.
      * match goal with |- context [send_loop _ fuel self _ _ _ (rc + 1) ?w2] =>
          destruct (IH (rc + 1) w2) as [Hr Hw] end.
        { lia. } { unfold RETRY_COUNT in *. lia. }
        split; [exact Hr|]. simpl in Hw. unfold RETRY_COUNT in *. lia.
    + destruct (except_ValueError ex); simpl; (split; [discriminate|]);
        unfold RETRY_COUNT in *; lia.
Qed.

(** With three turns of the loop or more every dispatch ends, having
    entered at most three sessions. *)
Lemma send_command_terminates fuel function payload caller self w :
  (send_command str_dict (3 + fuel) function payload caller self w).1.1 ≠ OutOfFuel ∧
  (acquired (send_command str_dict (3 + fuel) function payload caller self w).2
   ≤ acquired w + 3)%nat.
Proof.
  unfold send_command.
  match goal with |- context [send_loop _ _ self _ _ _ 0 ?w1] =>
    pose proof (send_loop_terminates (3 + fuel) self function payload caller 0 w1) as H end.
  destruct (send_loop _ _ _ _ _ _ _ _) as [r w']; simpl in *.
  apply H; [reflexivity|]. unfold RETRY_COUNT. simpl. lia.
Qed.

Lemma send_command_self fuel function payload caller self w :
  (send_command str_dict fuel function payload caller self w).1.2 = self.
Proof.
  unfold send_command. destruct (send_loop _ _ _ _ _ _ _ _). reflexivity.
Qed.

End EurotronicDispatch.

Section EurotronicClaims.

Variable CONF_ALL_TEMPERATURES : list string.
Variable str_dict : gmap string value -> string.

Import Eurotronic.

(** C6 (dispatch communication retry).  When the operation raises a
    malformed-byte, timeout or transport error in three sessions in a
    row, the dispatch enters exactly these three sessions, one per
    attempt, writes an INFO record after the first and after the second
    failure, and raises [HomeAssistantError] from the third error, with
    the text of that error in its message. *)
Theorem C6_dispatch_retries_then_fails fuel function payload caller self w :
  (∀ i, (i < 3)%nat →
        command_raises (script (device self) (acquired w + i)%nat)
          function payload is_communication_error = true) →
  ∃ e0 e1 e2,
    command (script (device self) (acquired w)) function payload = Raises e0 ∧
    command (script (device self) (acquired w + 1)%nat) function payload = Raises e1 ∧
    command (script (device self) (acquired w + 2)%nat) function payload = Raises e2 ∧
    (send_command str_dict (3 + fuel) function payload caller self w).1
    = (Raise (raise_from HomeAssistantError
                ("Error sending command '" +:+ str_dict payload +:+ "' to '"
                   +:+ caller +:+ "': " +:+ exn_str e2) e2), self) ∧
    acquired (send_command str_dict (3 + fuel) function payload caller self w).2
    = (acquired w + 3)%nat ∧
    trace (send_command str_dict (3 + fuel) function payload caller self w).2
    = trace w ++
      [ELog DEBUG "Updating device with '%s' from '%s'" [caller; str_dict payload];
       EEnter; ECall function; EExit;
       ELog INFO "Retrying command '%s' to '%s' after %s (%s)"
         [str_dict payload; caller; type_name e0; exn_str e0];
       EEnter; ECall function; EExit;
       ELog INFO "Retrying command '%s' to '%s' after %s (%s)"
         [str_dict payload; caller; type_name e1; exn_str e1];
       EEnter; ECall function; EExit].
Proof.
  intros Hfail.
  pose proof (Hfail 0%nat ltac:(lia)) as H0. rewrite Nat.add_0_r in H0.
  apply command_raises_inv in H0 as (Ho0 & Hb0 & e0 & Hc0 & He0).
  pose proof (Hfail 1%nat ltac:(lia)) as H1.
  apply command_raises_inv in H1 as (Ho1 & Hb1 & e1 & Hc1 & He1).
  pose proof (Hfail 2%nat ltac:(lia)) as H2.
  apply command_raises_inv in H2 as (Ho2 & Hb2 & e2 & Hc2 & He2).
  exists e0, e1, e2. split; [exact Hc0|]. split; [exact Hc1|]. split; [exact Hc2|].
  unfold send_command. change (3 + fuel)%nat with (S (S (S fuel))).
  set (w0 := emit (ELog DEBUG "Updating device with '%s' from '%s'"
                   [caller; str_dict payload]) w).
  pose proof (send_loop_retry_step str_dict (S (S fuel)) self function payload caller
                0 w0 e0 eq_refl Ho0 Hb0 Hc0 He0) as E0.
  set (w1 := emit (ELog INFO "Retrying command '%s' to '%s' after %s (%s)"
                     [str_dict payload; caller; type_name e0; exn_str e0])
               (emit EExit (emit (ECall function) (enter w0)))) in E0.
  assert (acquired w1 = (acquired w + 1)%nat) as A1 by (simpl; lia).
  rewrite <- A1 in Ho1, Hb1, Hc1.
  pose proof (send_loop_retry_step str_dict (S fuel) self function payload caller
                (0 + 1) w1 e1 eq_refl Ho1 Hb1 Hc1 He1) as E1.
  set (w2 := emit (ELog INFO "Retrying command '%s' to '%s' after %s (%s)"
                     [str_dict payload; caller; type_name e1; exn_str e1])
               (emit EExit (emit (ECall function) (enter w1)))) in E1.
  assert (acquired w2 = (acquired w + 2)%nat) as A2 by (simpl; lia).
  rewrite <- A2 in Ho2, Hb2, Hc2.
  pose proof (send_loop_last_step str_dict fuel self function payload caller
                (0 + 1 + 1) w2 e2 eq_refl ltac:(reflexivity) Ho2 Hb2 Hc2 He2) as E2.
  rewrite E0, E1, E2. simpl. split; [reflexivity|]. split; [lia|].
  rewrite <- !app_assoc. reflexivity.
Qed.

(** Fewer than three such errors followed by an answer: the dispatch
    returns the answer, having entered one session per attempt. *)
Lemma send_loop_retries_then_returns j : ∀ fuel self function payload caller retry_count w v,
  0 ≤ retry_count →
  retry_count + Z.of_nat j < RETRY_COUNT →
  (∀ i, (i < j)%nat →
        command_raises (script (device self) (acquired w + i)%nat)
          function payload is_communication_error = true) →
  session_opens (script (device self) (acquired w + j)%nat) = true →
  command (script (device self) (acquired w + j)%nat) function payload = Ok v →
  (send_loop str_dict (j + S fuel) self function payload caller retry_count w).1 = Returns v
  ∧ acquired (send_loop str_dict (j + S fuel) self function payload caller retry_count w).2
    = (acquired w + j + 1)%nat
  ∧ count (is_ELog INFO)
      (trace (send_loop str_dict (j + S fuel) self function payload caller retry_count w).2)
    = (count (is_ELog INFO) (trace w) + j)%nat.
Proof.
  induction j as [|j IH]; intros fuel self function payload caller rc w v Hrc0 Hrc Hfail Ho Hc.
  - rewrite Nat.add_0_r in Ho, Hc. change (0 + S fuel)%nat with (S fuel).
    rewrite (send_loop_returns_step str_dict fuel self function payload caller rc w v);
      [|lia|exact Ho|exact Hc].
    simpl. unfold count. rewrite !List.filter_app, !length_app. simpl. split; [done|lia].
  - pose proof (Hfail 0%nat ltac:(lia)) as H0. rewrite Nat.add_0_r in H0.
    apply command_raises_inv in H0 as (Ho0 & Hb0 & e0 & Hc0 & He0).
    change (S j + S fuel)%nat with (S (j + S fuel)).
    rewrite (send_loop_retry_step str_dict _ self function payload caller rc w e0);
      [|lia|exact Ho0|exact Hb0|exact Hc0|exact He0].
    match goal with |- context [send_loop _ _ self _ _ _ (rc + 1) ?w1] =>
      destruct (IH fuel self function payload caller (rc + 1) w1 v) as (Hr & Ha & Hl) end.
    + lia.
    + lia.
    + intros i Hi. simpl acquired.
      replace (S (acquired w) + i)%nat with (acquired w + S i)%nat by lia.
      apply Hfail. lia.
    + simpl acquired.
      replace (S (acquired w) + j)%nat with (acquired w + S j)%nat by lia. exact Ho.
    + simpl acquired.
      replace (S (acquired w) + j)%nat with (acquired w + S j)%nat by lia. exact Hc.
    + split; [exact Hr|]. split; [rewrite Ha; simpl; lia|].
      rewrite Hl. simpl. unfold count. rewrite !List.filter_app, !length_app. simpl. lia.
Qed.

(** C7 (command validation short-circuit).  When the operation rejects
    the payload with a [ValueError], the dispatch raises
    [ServiceValidationError] from it after the one session in which the
    operation was called once: no retry record is written, no further
    session is entered, and the coordinator, its failure counter
    included, is as before. *)
Theorem C7_invalid_payload_fails_at_once fuel function payload caller self w :
  command_raises (script (device self) (acquired w)) function payload is_ValueError = true →
  ∃ ex,
    command (script (device self) (acquired w)) function payload = Raises ex ∧
    (send_command str_dict (S fuel) function payload caller self w).1
    = (Raise (raise_from ServiceValidationError
                ("Invalid payload '" +:+ str_dict payload +:+ "' for '"
                   +:+ caller +:+ "': " +:+ exn_str ex) ex), self) ∧
    failed_update_count (send_command str_dict (S fuel) function payload caller self w).1.2
    = failed_update_count self ∧
    acquired (send_command str_dict (S fuel) function payload caller self w).2
    = (acquired w + 1)%nat ∧
    trace (send_command str_dict (S fuel) function payload caller self w).2
    = trace w ++
      [ELog DEBUG "Updating device with '%s' from '%s'" [caller; str_dict payload];
       EEnter; ECall function; EExit].
Proof.
  intros (Hopen & Hcalled & ex & Hcmd & Hex)%command_raises_inv.
  exists ex. split; [exact Hcmd|].
  unfold send_command.
  rewrite (send_loop_value_error str_dict _ self function payload caller 0 _ ex);
    [|reflexivity|exact Hopen|exact Hcalled|exact Hcmd|exact Hex].
  simpl. repeat split; [lia|].
  rewrite <- !app_assoc. reflexivity.
Qed.

(** X27.  A dispatch of the variant with retries that returns gives
    back the value with which the operation answered in the last
    session it entered. *)
Theorem dispatch_returns_operation_result fuel function payload caller self w v :
  (send_command str_dict fuel function payload caller self w).1.1 = Returns v →
  ∃ n, (acquired w ≤ n)%nat ∧
       acquired (send_command str_dict fuel function payload caller self w).2 = S n ∧
       command (script (device self) n) function payload = Ok v.
Proof.
  unfold send_command.
  match goal with |- context [send_loop _ _ self _ _ _ 0 ?w1] =>
    change (acquired w) with (acquired w1); generalize w1 end.
  assert (0 < RETRY_COUNT) as Hrc by reflexivity. revert Hrc.
  generalize 0. clear w.
  induction fuel as [|fuel IH]; intros rc Hrc w; simpl; [discriminate|].
  rewrite (proj2 (Z.ltb_lt rc RETRY_COUNT)) by lia.
  pose proof (send_session_acquired self (script (device self) (acquired w))
                function payload w) as Ha.
  pose proof (send_session_inv self (script (device self) (acquired w))
                function payload w) as Hinv.
  destruct (async_with _ _ tt w) as [[s w1] c]; simpl in Ha.
  specialize (Hinv s w1 c eq_refl).
  destruct c as [|v'|ex]; [done| |].
  - simpl. intros [= ->]. exists (acquired w). auto.
  - destruct (is_communication_error ex).
    + destruct (Z.leb_spec RETRY_COUNT (rc + 1)) as [Hlast|Hmore]; [discriminate|].
      intros Hret.
      match type of Hret with context [send_loop _ fuel self _ _ _ (rc + 1) ?w2] =>
        destruct (IH (rc + 1) Hmore w2) as (n & Hn & Hacq & Hcmd) end.
      { destruct (send_loop _ _ _ _ _ _ _ _); exact Hret. }
      exists n. split; [simpl in Hn; lia|].
      destruct (send_loop _ _ _ _ _ _ _ _); auto.
    + destruct (except_ValueError ex); discriminate.
Qed.

(** A dispatch whose first session answers returns that answer. *)
Lemma send_command_returns fuel function payload caller self w v :
  session_opens (script (device self) (acquired w)) = true →
  command (script (device self) (acquired w)) function payload = Ok v →
  (send_command str_dict (S fuel) function payload caller self w).1 = (Returns v, self).
Proof.
  intros Hopen Hcmd. unfold send_command.
  rewrite (send_loop_returns_step str_dict _ self function payload caller 0 _ v);
    [reflexivity|reflexivity|exact Hopen|exact Hcmd].
Qed.

(** C8 (device not ready).  When the session opens but reports not
    connected, the dispatch raises [ConfigEntryNotReady] after that one
    session, while the poll raises [UpdateFailed]: its own
    [ConfigEntryNotReady] is caught by the handler for every other
    exception and becomes the cause of the [UpdateFailed].  Neither
    path retries. *)
Theorem C8_not_connected fuel function payload caller self w :
  session_not_connected (script (device self) (acquired w)) = true →
  send_command str_dict (S fuel) function payload caller self w
  = (Raise (not_ready self), self,
     emit EExit (enter (emit (ELog DEBUG "Updating device with '%s' from '%s'"
                                [caller; str_dict payload]) w)))
  ∧ _async_update_data CONF_ALL_TEMPERATURES str_dict (S fuel) self w
    = (Raise (raise_from UpdateFailed
                ("(ConfigEntryNotReady) " +:+ exn_str (not_ready self)) (not_ready self)),
       self, emit EExit (enter w))
  ∧ exn_cls (not_ready self) = ConfigEntryNotReady.
Proof.
  intros Hnc. split; [|split; [|reflexivity]].
  - unfold send_command. simpl send_loop.
    rewrite (send_session_not_connected self _ function payload _ Hnc).
    reflexivity.
  - unfold _async_update_data. simpl poll_loop.
    rewrite (poll_session_not_connected self _ initial_locals w Hnc).
    reflexivity.
Qed.

(** *** The failure counter *)

Lemma poll_loop_raises fuel self : ∀ retry_count l w e,
  (poll_loop fuel self retry_count l w).1 = Raise e →
  ∃ ex,
    (e = raise_from UpdateFailed ("Error retrieving data: " +:+ exn_str ex) ex
     ∧ is_communication_error ex = true)
    ∨ (e = raise_from UpdateFailed ("(" +:+ type_name ex +:+ ") " +:+ exn_str ex) ex
       ∧ is_communication_error ex = false).
Proof.
  induction fuel as [|fuel IH]; intros rc l w e; simpl; [discriminate|].
  destruct (rc <? RETRY_COUNT); [|discriminate].
  destruct (async_with _ _ l w) as [[l1 w1] c].
  destruct c as [|v|ex]; try apply IH.
  destruct (is_communication_error ex) eqn:Hex.
  - destruct (RETRY_COUNT <=? rc + 1); [|apply IH].
    simpl. intros [= <-]. eauto.
  - simpl. intros [= <-]. eauto.
Qed.

End EurotronicClaims.

(** ** The earlier variant *)

Section LegacyFacts.

Variable CONF_ALL_TEMPERATURES : list string.
Variable str_dict : gmap string value -> string.

(** The earlier dispatch binds the result of the operation to a local
    variable and gives [None]. *)
Lemma legacy_send_command_gives_none function payload caller self w v :
  session_opens (script (device self) (acquired w)) = true →
  command (script (device self) (acquired w)) function payload = Ok v →
  (Legacy.send_command str_dict function payload caller self w).1 = (Returns VNone, self).
Proof.
  unfold Legacy.send_command, Legacy.send_body, async_with, session_opens. simpl.
  set (a := script (device self) (acquired w)) in *.
  destruct (aenter a), (aexit a), (connected a); simpl; try discriminate.
  by intros _ ->.
Qed.

(** It makes one attempt: a timeout or transport error of the operation
    ends the call after one session. *)
Lemma legacy_send_command_one_attempt function payload caller self w ex :
  session_opens (script (device self) (acquired w)) = true →
  command (script (device self) (acquired w)) function payload = Raises ex →
  (is_BleakError ex || is_TimeoutError ex) = true →
  (Legacy.send_command str_dict function payload caller self w).1.1
  = Raise (raise_from HomeAssistantError
             ("Error sending command '" +:+ str_dict payload +:+ "' to '"
                +:+ caller +:+ "': " +:+ exn_str ex) ex)
  ∧ acquired (Legacy.send_command str_dict function payload caller self w).2
    = S (acquired w).
Proof.
  unfold Legacy.send_command, Legacy.send_body, async_with, session_opens. simpl.
  set (a := script (device self) (acquired w)) in *.
  destruct (aenter a), (aexit a), (connected a); simpl; try discriminate.
  intros _ -> Hex.
  assert (except_ValueError ex = false) as Hv.
  { revert Hex. unfold except_ValueError, is_ValueError, is_InvalidByteValueError,
      is_BleakError, is_TimeoutError.
    destruct (exn_cls ex); simpl; congruence. }
  destruct (fails_before_call a function payload); simpl; rewrite Hv, Hex; auto.
Qed.

(** The earlier poll returns after one session in which all reads
    answer, with the failure counter at 0. *)
Lemma legacy_poll_success self w :
  reads_succeed (script (device self) (acquired w)) = true →
  ∃ t b h,
    get_temperature_async (script (device self) (acquired w)) = Ok t ∧
    get_battery_async (script (device self) (acquired w)) = Ok b ∧
    get_holiday_async (script (device self) (acquired w)) = Ok h ∧
    (Legacy._async_update_data CONF_ALL_TEMPERATURES str_dict self w).1
    = (Returns (Legacy.new_data CONF_ALL_TEMPERATURES self t b h),
       set_failed_update_count 0 self) ∧
    acquired (Legacy._async_update_data CONF_ALL_TEMPERATURES str_dict self w).2
    = S (acquired w).
Proof.
  unfold reads_succeed, session_opens, Legacy._async_update_data, Legacy.poll_body,
    async_with. simpl.
  set (a := script (device self) (acquired w)) in *.
  destruct (aenter a), (aexit a), (connected a); simpl; try discriminate.
  destruct (get_temperature_async a) as [t|]; [|discriminate].
  destruct (get_battery_async a) as [b|]; [|discriminate].
  destruct (get_holiday_async a) as [h|]; [|discriminate].
  intros _. exists t, b, h. auto.
Qed.

(** A session that reports not connected: [UpdateFailed] from the
    [ConfigEntryNotReady], counter incremented. *)
Lemma legacy_poll_not_connected self w :
  session_not_connected (script (device self) (acquired w)) = true →
  (Legacy._async_update_data CONF_ALL_TEMPERATURES str_dict self w).1
  = (Raise (raise_from UpdateFailed
              ("(ConfigEntryNotReady) " +:+ exn_str (not_ready self)) (not_ready self)),
     set_failed_update_count (failed_update_count self + 1) self).
Proof.
  unfold session_not_connected, Legacy._async_update_data, Legacy.poll_body,
    async_with. simpl.
  set (a := script (device self) (acquired w)) in *.
  destruct (aenter a), (aexit a), (connected a); simpl; try discriminate.
  reflexivity.
Qed.

(** A malformed battery value is not isolated there: below the
    threshold and with a stored snapshot the call returns the stored
    snapshot and counts one failure. *)
Lemma legacy_poll_battery_malformed self w :
  battery_malformed (script (device self) (acquired w)) = true →
  failed_update_count self < RETRY_COUNT →
  data self ≠ ∅ →
  (Legacy._async_update_data CONF_ALL_TEMPERATURES str_dict self w).1
  = (Returns (data self), set_failed_update_count (failed_update_count self + 1) self).
Proof.
  unfold battery_malformed, session_opens, Legacy._async_update_data, Legacy.poll_body,
    async_with, dict_truthy. simpl.
  set (a := script (device self) (acquired w)) in *.
  destruct (aenter a), (aexit a), (connected a); simpl; try discriminate.
  destruct (get_temperature_async a) as [t|]; [|discriminate].
  destruct (get_battery_async a) as [|ex]; [discriminate|].
  intros -> Hlt Hdata. simpl.
  rewrite (proj2 (Z.ltb_lt _ _) Hlt), bool_decide_eq_false_2 by assumption.
  reflexivity.
Qed.

(** Battery and holiday are stored as read there, falsy or not. *)
Lemma legacy_new_data_battery self t b h :
  "battery" ∉ CONF_ALL_TEMPERATURES →
  Legacy.new_data CONF_ALL_TEMPERATURES self t b h !! "battery" = Some b.
Proof.
  intros Hin. unfold Legacy.new_data.
  rewrite (foldl_insert_lookup
             (λ k, py_or (dict_get t k) (dict_get (data self) k))).
  rewrite decide_False by assumption.
  rewrite lookup_insert_ne by discriminate. apply lookup_insert_eq.
Qed.

End LegacyFacts.

(** ** Instances on the sample devices *)

Lemma C1_goes_on_witness :
  (∀ snapshot,
     (Eurotronic._async_update_data Sample.CONF_ALL_TEMPERATURES Sample.str_dict
        (1 + 2) (init (Sample.fails_then_succeeds 1)) Sample.w0).1.1
     ≠ Returns snapshot)
  ∧ (acquired Sample.w0 + Nat.min (1 + 1) 3
     < acquired (Eurotronic._async_update_data Sample.CONF_ALL_TEMPERATURES Sample.str_dict
                   (1 + 2) (init (Sample.fails_then_succeeds 1)) Sample.w0).2)%nat.
Proof.
  apply (C1_poll_goes_on_after_successful_read
           Sample.CONF_ALL_TEMPERATURES Sample.str_dict 1 0
           (init (Sample.fails_then_succeeds 1)) Sample.w0).
  - lia.
  - intros i Hi. replace i with 0%nat by lia. reflexivity.
  - reflexivity.
Defined.

Lemma merged_data_falsy_read_keeps_stored_witness :
  Eurotronic.merged_data Sample.CONF_ALL_TEMPERATURES
    (Sample.with_data Sample.stored (init (Sample.always Sample.healthy)))
    Eurotronic.initial_locals !! "battery"
  = Some (dict_get (data (Sample.with_data Sample.stored (init (Sample.always Sample.healthy))))
            "battery").
Proof.
  apply (proj1 (merged_data_falsy_read_keeps_stored Sample.CONF_ALL_TEMPERATURES
                  (Sample.with_data Sample.stored (init (Sample.always Sample.healthy)))
                  Eurotronic.initial_locals "battery")).
  right. left. split; [|split; reflexivity].
  apply (bool_decide_unpack _). vm_compute. exact I.
Defined.

Lemma C4_does_not_end_witness :
  (∀ snapshot,
     (Eurotronic._async_update_data Sample.CONF_ALL_TEMPERATURES Sample.str_dict 2
        (init (Sample.always (Sample.with_battery (Raises Sample.invalid_byte) Sample.healthy)))
        Sample.w0).1.1
     ≠ Returns snapshot)
  ∧ (acquired Sample.w0 + 2
     ≤ acquired (Eurotronic._async_update_data Sample.CONF_ALL_TEMPERATURES Sample.str_dict 2
                   (init (Sample.always
                            (Sample.with_battery (Raises Sample.invalid_byte) Sample.healthy)))
                   Sample.w0).2)%nat.
Proof.
  apply (C4_optional_malformed_does_not_end_the_cycle
           Sample.CONF_ALL_TEMPERATURES Sample.str_dict 0
           (init (Sample.always (Sample.with_battery (Raises Sample.invalid_byte) Sample.healthy)))
           Sample.w0).
  reflexivity.
Defined.

Lemma C6_retries_witness :
  ∃ e0 e1 e2,
    command (Sample.with_command (Raises Sample.timeout) Sample.healthy)
      "set_temperature_async" ∅ = Raises e0 ∧
    command (Sample.with_command (Raises Sample.timeout) Sample.healthy)
      "set_temperature_async" ∅ = Raises e1 ∧
    command (Sample.with_command (Raises Sample.timeout) Sample.healthy)
      "set_temperature_async" ∅ = Raises e2 ∧
    (Eurotronic.send_command Sample.str_dict 3 "set_temperature_async" ∅ "climate.living"
       (init (Sample.always (Sample.with_command (Raises Sample.timeout) Sample.healthy)))
       Sample.w0).1
    = (Raise (raise_from HomeAssistantError
                ("Error sending command '" +:+ Sample.str_dict ∅ +:+ "' to '"
                   +:+ "climate.living" +:+ "': " +:+ exn_str e2) e2),
       init (Sample.always (Sample.with_command (Raises Sample.timeout) Sample.healthy))) ∧
    acquired (Eurotronic.send_command Sample.str_dict 3 "set_temperature_async" ∅
                "climate.living"
                (init (Sample.always (Sample.with_command (Raises Sample.timeout) Sample.healthy)))
                Sample.w0).2
    = 3%nat ∧
    trace (Eurotronic.send_command Sample.str_dict 3 "set_temperature_async" ∅
             "climate.living"
             (init (Sample.always (Sample.with_command (Raises Sample.timeout) Sample.healthy)))
             Sample.w0).2
    = [ELog DEBUG "Updating device with '%s' from '%s'" ["climate.living"; Sample.str_dict ∅];
       EEnter; ECall "set_temperature_async"; EExit;
       ELog INFO "Retrying command '%s' to '%s' after %s (%s)"
         [Sample.str_dict ∅; "climate.living"; type_name e0; exn_str e0];
       EEnter; ECall "set_temperature_async"; EExit;
       ELog INFO "Retrying command '%s' to '%s' after %s (%s)"
         [Sample.str_dict ∅; "climate.living"; type_name e1; exn_str e1];
       EEnter; ECall "set_temperature_async"; EExit].
Proof.
  apply (C6_dispatch_retries_then_fails Sample.str_dict 0 "set_temperature_async" ∅
           "climate.living"
           (init (Sample.always (Sample.with_command (Raises Sample.timeout) Sample.healthy)))
           Sample.w0).
  intros i Hi. reflexivity.
Defined.

Lemma C7_fails_at_once_witness :
  ∃ ex,
    command (Sample.with_command (Raises Sample.out_of_range) Sample.healthy)
      "set_temperature_async" Sample.payload = Raises ex ∧
    (Eurotronic.send_command Sample.str_dict 3 "set_temperature_async" Sample.payload
       "climate.living" (init (Sample.always Sample.rejecting)) Sample.w0).1
    = (Raise (raise_from ServiceValidationError
                ("Invalid payload '" +:+ Sample.str_dict Sample.payload +:+ "' for '"
                   +:+ "climate.living" +:+ "': " +:+ exn_str ex) ex),
       init (Sample.always Sample.rejecting)) ∧
    failed_update_count
      (Eurotronic.send_command Sample.str_dict 3 "set_temperature_async" Sample.payload
         "climate.living" (init (Sample.always Sample.rejecting)) Sample.w0).1.2
    = failed_update_count (init (Sample.always Sample.rejecting)) ∧
    acquired
      (Eurotronic.send_command Sample.str_dict 3 "set_temperature_async" Sample.payload
         "climate.living" (init (Sample.always Sample.rejecting)) Sample.w0).2
    = 1%nat ∧
    trace
      (Eurotronic.send_command Sample.str_dict 3 "set_temperature_async" Sample.payload
         "climate.living" (init (Sample.always Sample.rejecting)) Sample.w0).2
    = [ELog DEBUG "Updating device with '%s' from '%s'"
         ["climate.living"; Sample.str_dict Sample.payload];
       EEnter; ECall "set_temperature_async"; EExit].
Proof.
  apply (C7_invalid_payload_fails_at_once Sample.str_dict 2 "set_temperature_async"
           Sample.payload "climate.living" (init (Sample.always Sample.rejecting)) Sample.w0).
  reflexivity.
Defined.

Lemma C8_not_connected_witness :
  Eurotronic.send_command Sample.str_dict 3 "set_temperature_async" Sample.payload
    "climate.living" (init (Sample.always (Sample.disconnected Sample.healthy))) Sample.w0
  = (Raise (not_ready (init (Sample.always (Sample.disconnected Sample.healthy)))),
     init (Sample.always (Sample.disconnected Sample.healthy)),
     emit EExit (enter (emit (ELog DEBUG "Updating device with '%s' from '%s'"
                                ["climate.living"; Sample.str_dict Sample.payload])
                          Sample.w0)))
  ∧ Eurotronic._async_update_data Sample.CONF_ALL_TEMPERATURES Sample.str_dict 3
      (init (Sample.always (Sample.disconnected Sample.healthy))) Sample.w0
    = (Raise (raise_from UpdateFailed
                ("(ConfigEntryNotReady) "
                   +:+ exn_str (not_ready (init (Sample.always (Sample.disconnected Sample.healthy)))))
                (not_ready (init (Sample.always (Sample.disconnected Sample.healthy))))),
       init (Sample.always (Sample.disconnected Sample.healthy)),
       emit EExit (enter Sample.w0))
  ∧ exn_cls (not_ready (init (Sample.always (Sample.disconnected Sample.healthy))))
    = ConfigEntryNotReady.
Proof.
  apply (C8_not_connected Sample.CONF_ALL_TEMPERATURES Sample.str_dict 2
           "set_temperature_async" Sample.payload "climate.living"
           (init (Sample.always (Sample.disconnected Sample.healthy))) Sample.w0).
  reflexivity.
Defined.

Lemma dispatch_returns_operation_result_witness :
  ∃ n, (acquired Sample.w0 ≤ n)%nat ∧
       acquired (Eurotronic.send_command Sample.str_dict 3 "get_battery_async" ∅
                   "sensor.battery" (init (Sample.always Sample.answering)) Sample.w0).2
       = S n ∧
       command (script (device (init (Sample.always Sample.answering))) n)
         "get_battery_async" ∅ = Ok (VInt 80).
Proof.
  apply (dispatch_returns_operation_result Sample.str_dict 3 "get_battery_async" ∅
           "sensor.battery" (init (Sample.always Sample.answering)) Sample.w0 (VInt 80)).
  reflexivity.
Defined.

Lemma C10_skips_holiday_witness :
  ∃ ex rest,
    get_battery_async
      (script (device (init (Sample.always
                               (Sample.with_battery (Raises Sample.invalid_byte) Sample.healthy))))
         (acquired Sample.w0))
    = Raises ex ∧
    trace (Eurotronic._async_update_data Sample.CONF_ALL_TEMPERATURES Sample.str_dict 2
             (init (Sample.always
                      (Sample.with_battery (Raises Sample.invalid_byte) Sample.healthy)))
             Sample.w0).2
    = trace Sample.w0 ++
      [EEnter; ECall "get_temperature_async"; ECall "get_battery_async";
       ELog WARNING "Failed to retrieve optional data: %s (%s)" [type_name ex; exn_str ex];
       EExit] ++ EEnter :: rest ∧
    ∀ snapshot,
      (Eurotronic._async_update_data Sample.CONF_ALL_TEMPERATURES Sample.str_dict 2
         (init (Sample.always
                  (Sample.with_battery (Raises Sample.invalid_byte) Sample.healthy)))
         Sample.w0).1.1
      ≠ Returns snapshot.
Proof.
  apply (C10_battery_malformed_skips_holiday_but_cycle_goes_on
           Sample.CONF_ALL_TEMPERATURES Sample.str_dict 0
           (init (Sample.always
                    (Sample.with_battery (Raises Sample.invalid_byte) Sample.healthy)))
           Sample.w0).
  reflexivity.
Defined.

(** * Further properties of the variant with retries *)

(** ** The poll *)

Section EurotronicPollMore.

Variable CONF_ALL_TEMPERATURES : list string.
Variable str_dict : gmap string value -> string.

Import Eurotronic.

(** A session that ends with a communication error, one turn of the
    loop: below the threshold the error is logged and the loop goes
    round; at the threshold the call raises. *)
Lemma poll_loop_error_step fuel self retry_count l w l1 w1 ex :
  async_with (script (device self) (acquired w))
             (poll_body self (script (device self) (acquired w))) l w = (l1, w1, Exc ex) →
  is_communication_error ex = true →
  retry_count + 1 < RETRY_COUNT →
  poll_loop (S fuel) self retry_count l w
  = poll_loop fuel self (retry_count + 1) l1
      (emit (ELog INFO "Retrying after %s (%s)" [type_name ex; exn_str ex]) w1).
Proof.
  intros Hs Hex Hrc. simpl.
  rewrite (proj2 (Z.ltb_lt retry_count RETRY_COUNT)) by lia.
  rewrite Hs, Hex, (proj2 (Z.leb_gt RETRY_COUNT (retry_count + 1))) by lia.
  reflexivity.
Qed.

Lemma poll_loop_error_last fuel self retry_count l w l1 w1 ex :
  async_with (script (device self) (acquired w))
             (poll_body self (script (device self) (acquired w))) l w = (l1, w1, Exc ex) →
  is_communication_error ex = true →
  retry_count < RETRY_COUNT →
  RETRY_COUNT ≤ retry_count + 1 →
  poll_loop (S fuel) self retry_count l w
  = (Raise (raise_from UpdateFailed ("Error retrieving data: " +:+ exn_str ex) ex), w1).
Proof.
  intros Hs Hex Hrc Hlast. simpl.
  rewrite (proj2 (Z.ltb_lt retry_count RETRY_COUNT)) by lia.
  rewrite Hs, Hex, (proj2 (Z.leb_le RETRY_COUNT (retry_count + 1))) by lia.
  reflexivity.
Qed.

Lemma poll_loop_unexpected fuel self retry_count l w l1 w1 ex :
  async_with (script (device self) (acquired w))
             (poll_body self (script (device self) (acquired w))) l w = (l1, w1, Exc ex) →
  is_communication_error ex = false →
  retry_count < RETRY_COUNT →
  poll_loop (S fuel) self retry_count l w
  = (Raise (raise_from UpdateFailed ("(" +:+ type_name ex +:+ ") " +:+ exn_str ex) ex), w1).
Proof.
  intros Hs Hex Hrc. simpl.
  rewrite (proj2 (Z.ltb_lt retry_count RETRY_COUNT)) by lia.
  rewrite Hs, Hex. reflexivity.
Qed.

Lemma poll_session_connect_fails self a l w p :
  connect_fails a p = true →
  ∃ ex, aenter a = Some ex ∧ p ex = true ∧
        async_with a (poll_body self a) l w = (l, enter w, Exc ex).
Proof.
  unfold connect_fails, async_with.
  destruct (aenter a) as [ex|]; [|discriminate]. eauto.
Qed.

Lemma poll_session_temperature_raises self a l w p :
  temperature_read_raises a p = true →
  ∃ ex, get_temperature_async a = Raises ex ∧ p ex = true ∧
        async_with a (poll_body self a) l w
        = (l, emit EExit (emit (ECall "get_temperature_async") (enter w)), Exc ex).
Proof.
  unfold temperature_read_raises, session_opens, async_with, poll_body.
  destruct (aenter a), (aexit a), (connected a); simpl; try discriminate.
  destruct (get_temperature_async a) as [t|ex]; [discriminate|]. eauto.
Qed.

Lemma connection_error_is_communication ex :
  is_connection_error ex = true →
  is_communication_error ex = true ∧ is_InvalidByteValueError ex = false.
Proof.
  unfold is_connection_error, is_communication_error, is_InvalidByteValueError,
    is_TimeoutError, is_BleakError.
  destruct (exn_cls ex); simpl; auto; discriminate.
Qed.

Lemma poll_session_battery_raises self a l w :
  battery_read_raises a is_connection_error = true →
  ∃ t ex, get_temperature_async a = Ok t ∧ get_battery_async a = Raises ex ∧
          is_connection_error ex = true ∧
          async_with a (poll_body self a) l w
          = ({| retrieved_temperatures := t; battery := battery l; holiday := holiday l |},
             emit EExit (emit (ECall "get_battery_async")
                           (emit (ECall "get_temperature_async") (enter w))),
             Exc ex).
Proof.
  unfold battery_read_raises, session_opens, async_with, poll_body, optional_handler.
  destruct (aenter a), (aexit a), (connected a); simpl; try discriminate.
  destruct (get_temperature_async a) as [t|?]; [|discriminate].
  destruct (get_battery_async a) as [?|ex]; [discriminate|].
  intros Hex. exists t, ex.
  destruct (connection_error_is_communication ex Hex) as [_ ->]. auto.
Qed.

(** X1.  No call of the poll returns a snapshot: however long it is
    followed, a call has either raised [UpdateFailed] or is still going
    round its loop. *)
Theorem poll_ends_only_by_UpdateFailed fuel self w :
  match (_async_update_data CONF_ALL_TEMPERATURES str_dict fuel self w).1.1 with
  | Returns _ => False
  | Raise e => exn_cls e = UpdateFailed
  | OutOfFuel => True
  end.
Proof.
  pose proof (async_update_data_never_returns CONF_ALL_TEMPERATURES str_dict fuel self w) as Hn.
  unfold _async_update_data in *.
  pose proof (poll_loop_raises fuel self 0 initial_locals w) as Hr.
  destruct (poll_loop fuel self 0 initial_locals w) as [[l'|e|] w']; simpl in *; auto.
  - by apply (Hn (merged_data CONF_ALL_TEMPERATURES self l')).
  - destruct (Hr e eq_refl) as [ex [[-> _]|[-> _]]]; reflexivity.
Qed.

(** X2.  Three temperature reads in a row that raise a malformed-byte,
    timeout or transport error: the call raises [UpdateFailed] from the
    third error after exactly three sessions, with one INFO record after
    the first and one after the second; battery and holiday are never
    read. *)
Theorem poll_three_failed_reads fuel self w :
  (∀ i, (i < 3)%nat →
        temperature_read_raises (script (device self) (acquired w + i)%nat)
          is_communication_error = true) →
  ∃ e0 e1 e2,
    get_temperature_async (script (device self) (acquired w)) = Raises e0 ∧
    get_temperature_async (script (device self) (acquired w + 1)%nat) = Raises e1 ∧
    get_temperature_async (script (device self) (acquired w + 2)%nat) = Raises e2 ∧
    (_async_update_data CONF_ALL_TEMPERATURES str_dict (3 + fuel) self w).1
    = (Raise (raise_from UpdateFailed ("Error retrieving data: " +:+ exn_str e2) e2), self) ∧
    acquired (_async_update_data CONF_ALL_TEMPERATURES str_dict (3 + fuel) self w).2
    = (acquired w + 3)%nat ∧
    trace (_async_update_data CONF_ALL_TEMPERATURES str_dict (3 + fuel) self w).2
    = trace w ++
      [EEnter; ECall "get_temperature_async"; EExit;
       ELog INFO "Retrying after %s (%s)" [type_name e0; exn_str e0];
       EEnter; ECall "get_temperature_async"; EExit;
       ELog INFO "Retrying after %s (%s)" [type_name e1; exn_str e1];
       EEnter; ECall "get_temperature_async"; EExit].
Proof.
  intros Hfail.
  pose proof (Hfail 0%nat ltac:(lia)) as H0. rewrite Nat.add_0_r in H0.
  pose proof (Hfail 1%nat ltac:(lia)) as H1.
  pose proof (Hfail 2%nat ltac:(lia)) as H2.
  destruct (poll_session_temperature_raises self _ initial_locals w _ H0)
    as (e0 & Hg0 & He0 & Hs0).
  pose proof (poll_loop_error_step (S (S fuel)) self 0 initial_locals w _ _ e0
                Hs0 He0 eq_refl) as E0.
  set (w1 := emit (ELog INFO "Retrying after %s (%s)" [type_name e0; exn_str e0])
               (emit EExit (emit (ECall "get_temperature_async") (enter w)))) in E0.
  assert (acquired w1 = (acquired w + 1)%nat) as A1 by (simpl; lia).
  rewrite <- A1 in H1.
  destruct (poll_session_temperature_raises self _ initial_locals w1 _ H1)
    as (e1 & Hg1 & He1 & Hs1).
  pose proof (poll_loop_error_step (S fuel) self (0 + 1) initial_locals w1 _ _ e1
                Hs1 He1 eq_refl) as E1.
  set (w2 := emit (ELog INFO "Retrying after %s (%s)" [type_name e1; exn_str e1])
               (emit EExit (emit (ECall "get_temperature_async") (enter w1)))) in E1.
  assert (acquired w2 = (acquired w + 2)%nat) as A2 by (simpl; lia).
  rewrite <- A2 in H2.
  destruct (poll_session_temperature_raises self _ initial_locals w2 _ H2)
    as (e2 & Hg2 & He2 & Hs2).
  pose proof (poll_loop_error_last fuel self (0 + 1 + 1) initial_locals w2 _ _ e2
                Hs2 He2 eq_refl ltac:(reflexivity)) as E2.
  rewrite A1 in Hg1. rewrite A2 in Hg2.
  exists e0, e1, e2. split; [exact Hg0|]. split; [exact Hg1|]. split; [exact Hg2|].
  unfold _async_update_data. change (3 + fuel)%nat with (S (S (S fuel))).
  rewrite E0, E1, E2. simpl. split; [reflexivity|]. split; [lia|].
  rewrite <- !app_assoc. reflexivity.
Qed.

(** X3.  A temperature read that raises any other class of exception
    ends the call at once: [UpdateFailed] from that exception, with its
    class name and text in the message, after one session and without a
    retry record. *)
Theorem poll_unexpected_error_fails_at_once fuel self w :
  temperature_read_raises (script (device self) (acquired w)) is_unexpected = true →
  ∃ ex,
    get_temperature_async (script (device self) (acquired w)) = Raises ex ∧
    _async_update_data CONF_ALL_TEMPERATURES str_dict (S fuel) self w
    = (Raise (raise_from UpdateFailed ("(" +:+ type_name ex +:+ ") " +:+ exn_str ex) ex),
       self,
       emit EExit (emit (ECall "get_temperature_async") (enter w))).
Proof.
  intros H.
  destruct (poll_session_temperature_raises self _ initial_locals w _ H)
    as (ex & Hg & Hex & Hs).
  exists ex. split; [exact Hg|].
  unfold _async_update_data.
  rewrite (poll_loop_unexpected fuel self 0 initial_locals w _ _ ex Hs); [reflexivity| |reflexivity].
  unfold is_unexpected in Hex. by apply negb_true_iff in Hex.
Qed.

(** X4.  When connecting fails with a timeout or transport error three
    times in a row, the call raises [UpdateFailed] from the third error;
    each attempt counts against the retries and no read is issued. *)
Theorem poll_three_failed_connects fuel self w :
  (∀ i, (i < 3)%nat →
        connect_fails (script (device self) (acquired w + i)%nat)
          is_communication_error = true) →
  ∃ e0 e1 e2,
    aenter (script (device self) (acquired w)) = Some e0 ∧
    aenter (script (device self) (acquired w + 1)%nat) = Some e1 ∧
    aenter (script (device self) (acquired w + 2)%nat) = Some e2 ∧
    (_async_update_data CONF_ALL_TEMPERATURES str_dict (3 + fuel) self w).1
    = (Raise (raise_from UpdateFailed ("Error retrieving data: " +:+ exn_str e2) e2), self) ∧
    trace (_async_update_data CONF_ALL_TEMPERATURES str_dict (3 + fuel) self w).2
    = trace w ++
      [EEnter; ELog INFO "Retrying after %s (%s)" [type_name e0; exn_str e0];
       EEnter; ELog INFO "Retrying after %s (%s)" [type_name e1; exn_str e1];
       EEnter].
Proof.
  intros Hfail.
  pose proof (Hfail 0%nat ltac:(lia)) as H0. rewrite Nat.add_0_r in H0.
  pose proof (Hfail 1%nat ltac:(lia)) as H1.
  pose proof (Hfail 2%nat ltac:(lia)) as H2.
  destruct (poll_session_connect_fails self _ initial_locals w _ H0)
    as (e0 & Hg0 & He0 & Hs0).
  pose proof (poll_loop_error_step (S (S fuel)) self 0 initial_locals w _ _ e0
                Hs0 He0 eq_refl) as E0.
  set (w1 := emit (ELog INFO "Retrying after %s (%s)" [type_name e0; exn_str e0])
               (enter w)) in E0.
  assert (acquired w1 = (acquired w + 1)%nat) as A1 by (simpl; lia).
  rewrite <- A1 in H1.
  destruct (poll_session_connect_fails self _ initial_locals w1 _ H1)
    as (e1 & Hg1 & He1 & Hs1).
  pose proof (poll_loop_error_step (S fuel) self (0 + 1) initial_locals w1 _ _ e1
                Hs1 He1 eq_refl) as E1.
  set (w2 := emit (ELog INFO "Retrying after %s (%s)" [type_name e1; exn_str e1])
               (enter w1)) in E1.
  assert (acquired w2 = (acquired w + 2)%nat) as A2 by (simpl; lia).
  rewrite <- A2 in H2.
  destruct (poll_session_connect_fails self _ initial_locals w2 _ H2)
    as (e2 & Hg2 & He2 & Hs2).
  pose proof (poll_loop_error_last fuel self (0 + 1 + 1) initial_locals w2 _ _ e2
                Hs2 He2 eq_refl ltac:(reflexivity)) as E2.
  rewrite A1 in Hg1. rewrite A2 in Hg2.
  exists e0, e1, e2. split; [exact Hg0|]. split; [exact Hg1|]. split; [exact Hg2|].
  unfold _async_update_data. change (3 + fuel)%nat with (S (S (S fuel))).
  rewrite E0, E1, E2. simpl. split; [reflexivity|].
  rewrite <- !app_assoc. reflexivity.
Qed.

(** X5.  A timeout or transport error of the battery read is not
    swallowed like a malformed byte: it counts against the retries, and
    three of them in a row end the call with [UpdateFailed] although the
    temperatures were read each time. *)
Theorem poll_battery_connection_error_is_retried fuel self w :
  (∀ i, (i < 3)%nat →
        battery_read_raises (script (device self) (acquired w + i)%nat)
          is_connection_error = true) →
  ∃ e2,
    get_battery_async (script (device self) (acquired w + 2)%nat) = Raises e2 ∧
    (_async_update_data CONF_ALL_TEMPERATURES str_dict (3 + fuel) self w).1
    = (Raise (raise_from UpdateFailed ("Error retrieving data: " +:+ exn_str e2) e2), self) ∧
    acquired (_async_update_data CONF_ALL_TEMPERATURES str_dict (3 + fuel) self w).2
    = (acquired w + 3)%nat ∧
    count (is_ECall "get_temperature_async")
      (trace (_async_update_data CONF_ALL_TEMPERATURES str_dict (3 + fuel) self w).2)
    = (count (is_ECall "get_temperature_async") (trace w) + 3)%nat ∧
    count (is_ECall "get_holiday_async")
      (trace (_async_update_data CONF_ALL_TEMPERATURES str_dict (3 + fuel) self w).2)
    = count (is_ECall "get_holiday_async") (trace w).
Proof.
  intros Hfail.
  pose proof (Hfail 0%nat ltac:(lia)) as H0. rewrite Nat.add_0_r in H0.
  pose proof (Hfail 1%nat ltac:(lia)) as H1.
  pose proof (Hfail 2%nat ltac:(lia)) as H2.
  destruct (poll_session_battery_raises self _ initial_locals w H0)
    as (t0 & e0 & _ & Hg0 & He0 & Hs0).
  apply connection_error_is_communication in He0 as [He0 _].
  pose proof (poll_loop_error_step (S (S fuel)) self 0 initial_locals w _ _ e0
                Hs0 He0 eq_refl) as E0.
  match type of E0 with _ = poll_loop _ _ _ ?l ?w' => set (l1 := l) in *; set (w1 := w') in * end.
  assert (acquired w1 = (acquired w + 1)%nat) as A1 by (simpl; lia).
  rewrite <- A1 in H1.
  destruct (poll_session_battery_raises self _ l1 w1 H1)
    as (t1 & e1 & _ & Hg1 & He1 & Hs1).
  apply connection_error_is_communication in He1 as [He1 _].
  pose proof (poll_loop_error_step (S fuel) self (0 + 1) l1 w1 _ _ e1
                Hs1 He1 eq_refl) as E1.
  match type of E1 with _ = poll_loop _ _ _ ?l ?w' => set (l2 := l) in *; set (w2 := w') in * end.
  assert (acquired w2 = (acquired w + 2)%nat) as A2 by (simpl; lia).
  rewrite <- A2 in H2.
  destruct (poll_session_battery_raises self _ l2 w2 H2)
    as (t2 & e2 & _ & Hg2 & He2 & Hs2).
  apply connection_error_is_communication in He2 as [He2 _].
  pose proof (poll_loop_error_last fuel self (0 + 1 + 1) l2 w2 _ _ e2
                Hs2 He2 eq_refl ltac:(reflexivity)) as E2.
  rewrite A2 in Hg2.
  exists e2. split; [exact Hg2|].
  unfold _async_update_data. change (3 + fuel)%nat with (S (S (S fuel))).
  rewrite E0, E1, E2. simpl. split; [reflexivity|]. split; [lia|].
  unfold count. rewrite !List.filter_app, !length_app. simpl. split; lia.
Qed.

(** X6.  Availability does not follow the poll: whatever a call did,
    [available] answers afterwards as it answered before; on a
    coordinator as constructed it is the presence of the address. *)
Theorem poll_leaves_availability fuel (cometblue : AsyncCometBlue) self w
    (async_address_present : string → bool) :
  available (_async_update_data CONF_ALL_TEMPERATURES str_dict fuel self w).1.2
    async_address_present
  = available self async_address_present
  ∧ available (_async_update_data CONF_ALL_TEMPERATURES str_dict fuel (init cometblue) w).1.2
      async_address_present
    = async_address_present (device_address cometblue).
Proof.
  rewrite !async_update_data_self. split; reflexivity.
Qed.

End EurotronicPollMore.

(** ** The dispatch *)

Section EurotronicDispatchMore.

Variable str_dict : gmap string value -> string.

Import Eurotronic.

Lemma send_session_connect_fails self a function payload w p :
  connect_fails a p = true →
  ∃ ex, aenter a = Some ex ∧ p ex = true ∧
        async_with a (send_body self a function payload) tt w = (tt, enter w, Exc ex).
Proof.
  unfold connect_fails, async_with.
  destruct (aenter a) as [ex|]; [|discriminate]. eauto.
Qed.

Lemma send_session_exit_fails self a function payload w p :
  exit_fails a function payload p = true →
  ∃ ex, aexit a = Some ex ∧ p ex = true ∧
        async_with a (send_body self a function payload) tt w
        = (tt, emit EExit (emit (ECall function) (enter w)), Exc ex).
Proof.
  unfold exit_fails, async_with, send_body.
  destruct (aenter a); [discriminate|].
  destruct (aexit a) as [ex|]; [|discriminate].
  destruct (command a function payload); [|discriminate].
  destruct (connected a); [|discriminate]. simpl. eauto.
Qed.

(** One turn of the loop on a session that ends with an exception. *)
Lemma send_loop_error_step fuel self function payload caller retry_count w w1 ex :
  async_with (script (device self) (acquired w))
             (send_body self (script (device self) (acquired w)) function payload) tt w
  = (tt, w1, Exc ex) →
  is_communication_error ex = true →
  retry_count + 1 < RETRY_COUNT →
  send_loop str_dict (S fuel) self function payload caller retry_count w
  = send_loop str_dict fuel self function payload caller (retry_count + 1)
      (emit (ELog INFO "Retrying command '%s' to '%s' after %s (%s)"
               [str_dict payload; caller; type_name ex; exn_str ex]) w1).
Proof.
  intros Hs Hex Hrc. simpl.
  rewrite (proj2 (Z.ltb_lt retry_count RETRY_COUNT)) by lia.
  rewrite Hs, Hex, (proj2 (Z.leb_gt RETRY_COUNT (retry_count + 1))) by lia.
  reflexivity.
Qed.

Lemma send_loop_error_last fuel self function payload caller retry_count w w1 ex :
  async_with (script (device self) (acquired w))
             (send_body self (script (device self) (acquired w)) function payload) tt w
  = (tt, w1, Exc ex) →
  is_communication_error ex = true →
  retry_count < RETRY_COUNT →
  RETRY_COUNT ≤ retry_count + 1 →
  send_loop str_dict (S fuel) self function payload caller retry_count w
  = (Raise (raise_from HomeAssistantError
              ("Error sending command '" +:+ str_dict payload +:+ "' to '"
                 +:+ caller +:+ "': " +:+ exn_str ex) ex), w1).
Proof.
  intros Hs Hex Hrc Hlast. simpl.
  rewrite (proj2 (Z.ltb_lt retry_count RETRY_COUNT)) by lia.
  rewrite Hs, Hex, (proj2 (Z.leb_le RETRY_COUNT (retry_count + 1))) by lia.
  reflexivity.
Qed.

Lemma send_body_info self a function payload s w :
  count (is_ELog INFO) (trace (send_body self a function payload s w).1.2)
  = count (is_ELog INFO) (trace w).
Proof.
  unfold send_body, count.
  repeat case_match; simpl; rewrite ?List.filter_app, ?length_app; simpl; lia.
Qed.

Lemma send_session_info self a function payload w :
  count (is_ELog INFO) (trace (async_with a (send_body self a function payload) tt w).1.2)
  = count (is_ELog INFO) (trace w).
Proof.
  unfold async_with.
  destruct (aenter a).
  { simpl. unfold count. rewrite List.filter_app, length_app. simpl. lia. }
  pose proof (send_body_info self a function payload tt (enter w)) as Hb.
  destruct (send_body self a function payload tt (enter w)) as [[s w1] c]. simpl in Hb.
  assert (count (is_ELog INFO) (trace (emit EExit w1)) = count (is_ELog INFO) (trace w)) as H.
  { simpl. unfold count in *. rewrite List.filter_app, length_app. simpl.
    rewrite Hb. simpl. rewrite List.filter_app, length_app. simpl. lia. }
  destruct (aexit a); exact H.
Qed.

(** Sessions and retry records of a dispatch that has ended: one record
    less than sessions. *)
Lemma send_loop_sessions_and_records fuel self function payload caller :
  ∀ retry_count w,
    retry_count < RETRY_COUNT →
    (send_loop str_dict fuel self function payload caller retry_count w).1 ≠ OutOfFuel →
    (count (is_ELog INFO)
       (trace (send_loop str_dict fuel self function payload caller retry_count w).2)
     + 1 + acquired w
     = count (is_ELog INFO) (trace w)
       + acquired (send_loop str_dict fuel self function payload caller retry_count w).2)%nat.
Proof.
  induction fuel as [|fuel IH]; intros rc w Hrc; simpl; [done|].
  rewrite (proj2 (Z.ltb_lt rc RETRY_COUNT)) by lia.
  pose proof (send_session_acquired self (script (device self) (acquired w))
                function payload w) as Ha.
  pose proof (send_session_info self (script (device self) (acquired w))
                function payload w) as Hi.
  pose proof (send_session_inv self (script (device self) (acquired w))
                function payload w) as Hinv.
  destruct (async_with _ _ tt w) as [[s w1] c]; simpl in Ha, Hi.
  specialize (Hinv s w1 c eq_refl).
  destruct c as [|v|ex]; [done| |].
  - simpl. intros _. lia.
  - destruct (is_communication_error ex).
    + destruct (Z.leb_spec RETRY_COUNT (rc + 1)) as [Hlast|Hmore]; [simpl; intros _; lia|].
      intros Hend.
      match type of Hend with context [send_loop _ fuel self _ _ _ (rc + 1) ?w2] =>
        pose proof (IH (rc + 1) w2 Hmore Hend) as IH2;
        assert (count (is_ELog INFO) (trace w2) = S (count (is_ELog INFO) (trace w1))) as H2
          by (simpl; unfold count; rewrite List.filter_app, length_app; simpl; lia);
        assert (acquired w2 = acquired w1) as A2 by reflexivity
      end.
      lia.
    + destruct (except_ValueError ex); simpl; intros _; lia.
Qed.

Lemma send_loop_acquired fuel self function payload caller :
  ∀ retry_count w,
    (acquired w
     ≤ acquired (send_loop str_dict fuel self function payload caller retry_count w).2)%nat.
Proof.
  induction fuel as [|fuel IH]; intros rc w; simpl; [lia|].
  destruct (rc <? RETRY_COUNT); [|simpl; lia].
  pose proof (send_session_acquired self (script (device self) (acquired w))
                function payload w) as Ha.
  destruct (async_with _ _ tt w) as [[s w1] c]; simpl in Ha.
  destruct c as [|v|ex].
  - specialize (IH rc w1). lia.
  - simpl. lia.
  - destruct (is_communication_error ex).
    + destruct (RETRY_COUNT <=? rc + 1); [simpl; lia|].
      match goal with |- context [send_loop _ fuel self _ _ _ ?r ?w2] =>
        specialize (IH r w2) end.
      simpl in IH. lia.
    + destruct (except_ValueError ex); simpl; lia.
Qed.

Lemma send_loop_enters fuel self function payload caller retry_count w :
  retry_count < RETRY_COUNT →
  (S (acquired w)
   ≤ acquired (send_loop str_dict (S fuel) self function payload caller retry_count w).2)%nat.
Proof.
  intros Hrc. simpl. rewrite (proj2 (Z.ltb_lt retry_count RETRY_COUNT)) by lia.
  pose proof (send_session_acquired self (script (device self) (acquired w))
                function payload w) as Ha.
  destruct (async_with _ _ tt w) as [[s w1] c]; simpl in Ha.
  destruct c as [|v|ex].
  - pose proof (send_loop_acquired fuel self function payload caller retry_count w1). lia.
  - simpl. lia.
  - destruct (is_communication_error ex).
    + destruct (RETRY_COUNT <=? retry_count + 1); [simpl; lia|].
      match goal with |- context [send_loop _ fuel self _ _ _ ?r ?w2] =>
        pose proof (send_loop_acquired fuel self function payload caller r w2) as H2 end.
      simpl in H2. lia.
    + destruct (except_ValueError ex); simpl; lia.
Qed.

(** X7.  Every dispatch ends within three sessions, whatever the device
    does: with three turns of the loop or more it has returned or
    raised, having entered at least one and at most three sessions, and
    it has written exactly one retry record less than it entered
    sessions. *)
Theorem dispatch_ends_within_three_sessions fuel function payload caller self w :
  (send_command str_dict (3 + fuel) function payload caller self w).1.1 ≠ OutOfFuel
  ∧ (acquired w + 1
     ≤ acquired (send_command str_dict (3 + fuel) function payload caller self w).2
     ≤ acquired w + 3)%nat
  ∧ (count (is_ELog INFO)
       (trace (send_command str_dict (3 + fuel) function payload caller self w).2)
     + 1 + acquired w
     = count (is_ELog INFO) (trace w)
       + acquired (send_command str_dict (3 + fuel) function payload caller self w).2)%nat.
Proof.
  destruct (send_command_terminates str_dict fuel function payload caller self w) as [Hend Hle].
  unfold send_command in *.
  match goal with |- context [send_loop _ _ self _ _ _ 0 ?w1] =>
    pose proof (send_loop_sessions_and_records (3 + fuel) self function payload caller 0 w1
                  eq_refl) as Hrec;
    pose proof (send_loop_enters (2 + fuel) self function payload caller 0 w1 eq_refl) as Hlo;
    assert (count (is_ELog INFO) (trace w1) = count (is_ELog INFO) (trace w)) as Hd
      by (simpl; unfold count; rewrite List.filter_app, length_app; simpl; lia);
    assert (acquired w1 = acquired w) as Hq by reflexivity
  end.
  change (S (2 + fuel)) with (3 + fuel)%nat in Hlo.
  destruct (send_loop _ _ _ _ _ _ _ _) as [r w']. cbn [fst snd] in *.
  specialize (Hrec Hend). split; [exact Hend|]. split; lia.
Qed.

(** X8.  Fewer than three communication errors of the operation followed
    by an answer: the dispatch returns that answer, having entered one
    session per attempt and written one retry record per failed
    attempt. *)
Theorem dispatch_retries_then_returns j fuel function payload caller self w v :
  (j < 3)%nat →
  (∀ i, (i < j)%nat →
        command_raises (script (device self) (acquired w + i)%nat)
          function payload is_communication_error = true) →
  session_opens (script (device self) (acquired w + j)%nat) = true →
  command (script (device self) (acquired w + j)%nat) function payload = Ok v →
  (send_command str_dict (j + S fuel) function payload caller self w).1 = (Returns v, self)
  ∧ acquired (send_command str_dict (j + S fuel) function payload caller self w).2
    = (acquired w + j + 1)%nat
  ∧ count (is_ELog INFO)
      (trace (send_command str_dict (j + S fuel) function payload caller self w).2)
    = (count (is_ELog INFO) (trace w) + j)%nat.
Proof.
  intros Hj Hfail Ho Hc. unfold send_command.
  match goal with |- context [send_loop _ _ self _ _ _ 0 ?w1] =>
    destruct (send_loop_retries_then_returns str_dict j fuel self function payload caller
                0 w1 v) as (Hr & Ha & Hl);
      [lia|unfold RETRY_COUNT; lia|exact Hfail|exact Ho|exact Hc|]
  end.
  destruct (send_loop _ _ _ _ _ _ _ _) as [r w']; simpl in *. subst r.
  split; [reflexivity|]. split; [exact Ha|].
  rewrite Hl. unfold count. rewrite List.filter_app, length_app. simpl. lia.
Qed.

Lemma unhandled_inv ex :
  is_unhandled_by_dispatch ex = true →
  is_communication_error ex = false ∧ except_ValueError ex = false.
Proof.
  unfold is_unhandled_by_dispatch, except_ValueError, is_communication_error.
  intros [H1 H2]%andb_true_iff.
  apply negb_true_iff in H1, H2. rewrite H2. split; [exact H1|].
  by destruct (is_InvalidByteValueError ex).
Qed.

(** X9.  An exception of the dispatched expression whose class is
    unrelated to the handled ones leaves the dispatch as it is, after
    one session and with no retry.  When it comes from the lookup of the
    operation name or from the binding of the payload (an unknown
    operation, a wrong keyword argument), nothing was called on the
    device; otherwise the operation was called once. *)
Theorem dispatch_other_error_propagates fuel function payload caller self w ex :
  session_opens (script (device self) (acquired w)) = true →
  command (script (device self) (acquired w)) function payload = Raises ex →
  is_unhandled_by_dispatch ex = true →
  send_command str_dict (S fuel) function payload caller self w
  = (Raise ex, self,
     emit EExit
       (if fails_before_call (script (device self) (acquired w)) function payload
        then enter (emit (ELog DEBUG "Updating device with '%s' from '%s'"
                            [caller; str_dict payload]) w)
        else emit (ECall function)
               (enter (emit (ELog DEBUG "Updating device with '%s' from '%s'"
                               [caller; str_dict payload]) w)))).
Proof.
  intros Hopen Hcmd Hex.
  destruct (unhandled_inv ex Hex) as [Hc Hv].
  unfold send_command, session_opens in *. simpl send_loop.
  unfold async_with, send_body. simpl acquired.
  set (a := script (device self) (acquired w)) in *.
  destruct (aenter a), (aexit a), (connected a); simpl in Hopen; try discriminate.
  simpl. rewrite Hcmd.
  destruct (fails_before_call a function payload); simpl; rewrite Hc, Hv; reflexivity.
Qed.

(** X28.  The second handler of the dispatch catches [ValueError] with
    its subclasses: an exception of the dispatched expression that is a
    [ValueError] or an instance of a subclass of it, and not the
    malformed-byte error, is turned into [ServiceValidationError] after
    the one session, with no retry, whether or not the operation was
    reached. *)
Theorem dispatch_value_error_subclass_rejected fuel function payload caller self w ex :
  session_opens (script (device self) (acquired w)) = true →
  command (script (device self) (acquired w)) function payload = Raises ex →
  except_ValueError ex = true →
  is_communication_error ex = false →
  (send_command str_dict (S fuel) function payload caller self w).1
  = (Raise (raise_from ServiceValidationError
              ("Invalid payload '" +:+ str_dict payload +:+ "' for '"
                 +:+ caller +:+ "': " +:+ exn_str ex) ex), self)
  ∧ acquired (send_command str_dict (S fuel) function payload caller self w).2
    = (acquired w + 1)%nat
  ∧ count (is_ELog INFO)
      (trace (send_command str_dict (S fuel) function payload caller self w).2)
    = count (is_ELog INFO) (trace w).
Proof.
  intros Hopen Hcmd Hv Hc.
  unfold send_command, session_opens in *. simpl send_loop.
  unfold async_with, send_body. simpl acquired.
  set (a := script (device self) (acquired w)) in *.
  destruct (aenter a), (aexit a), (connected a); simpl in Hopen; try discriminate.
  simpl. rewrite Hcmd.
  destruct (fails_before_call a function payload); simpl; rewrite Hc, Hv; simpl;
    (split; [reflexivity|]; split; [lia|]);
    unfold count; rewrite !List.filter_app, !length_app; simpl; lia.
Qed.

(** X10.  When the operation has answered and leaving the session then
    fails with a communication error, the answer is dropped and the
    operation is called again in a new session: a command can reach the
    device twice in one dispatch. *)
Theorem dispatch_exit_error_repeats_operation fuel function payload caller self w v :
  exit_fails (script (device self) (acquired w)) function payload
    is_communication_error = true →
  session_opens (script (device self) (S (acquired w))) = true →
  command (script (device self) (S (acquired w))) function payload = Ok v →
  ∃ ex,
    aexit (script (device self) (acquired w)) = Some ex ∧
    (send_command str_dict (S (S fuel)) function payload caller self w).1 = (Returns v, self) ∧
    trace (send_command str_dict (S (S fuel)) function payload caller self w).2
    = trace w ++
      [ELog DEBUG "Updating device with '%s' from '%s'" [caller; str_dict payload];
       EEnter; ECall function; EExit;
       ELog INFO "Retrying command '%s' to '%s' after %s (%s)"
         [str_dict payload; caller; type_name ex; exn_str ex];
       EEnter; ECall function; EExit].
Proof.
  intros Hexit Ho Hc.
  set (w0 := emit (ELog DEBUG "Updating device with '%s' from '%s'"
                     [caller; str_dict payload]) w).
  destruct (send_session_exit_fails self (script (device self) (acquired w0))
              function payload w0 _ Hexit) as (ex & Hx & Hex & Hs).
  exists ex. split; [exact Hx|].
  pose proof (send_loop_error_step (S fuel) self function payload caller 0 w0 _ ex
                Hs Hex eq_refl) as E0.
  match type of E0 with _ = send_loop _ _ _ _ _ _ _ ?w' => set (w1 := w') in * end.
  assert (acquired w1 = S (acquired w)) as A1 by reflexivity.
  rewrite <- A1 in Ho, Hc.
  pose proof (send_loop_returns_step str_dict fuel self function payload caller (0 + 1) w1 v
                eq_refl Ho Hc) as E1.
  unfold send_command. fold w0. rewrite E0, E1. simpl. split; [reflexivity|].
  rewrite <- !app_assoc. reflexivity.
Qed.

Lemma send_loop_retries_then_rejects j : ∀ fuel self function payload caller retry_count w ex,
  0 ≤ retry_count →
  retry_count + Z.of_nat j < RETRY_COUNT →
  (∀ i, (i < j)%nat →
        command_raises (script (device self) (acquired w + i)%nat)
          function payload is_communication_error = true) →
  session_opens (script (device self) (acquired w + j)%nat) = true →
  fails_before_call (script (device self) (acquired w + j)%nat) function payload = false →
  command (script (device self) (acquired w + j)%nat) function payload = Raises ex →
  is_ValueError ex = true →
  (send_loop str_dict (j + S fuel) self function payload caller retry_count w).1
  = Raise (raise_from ServiceValidationError
             ("Invalid payload '" +:+ str_dict payload +:+ "' for '"
                +:+ caller +:+ "': " +:+ exn_str ex) ex)
  ∧ acquired (send_loop str_dict (j + S fuel) self function payload caller retry_count w).2
    = (acquired w + j + 1)%nat.
Proof.
  induction j as [|j IH];
    intros fuel self function payload caller rc w ex Hrc0 Hrc Hfail Ho Hb Hc Hex.
  - rewrite Nat.add_0_r in Ho, Hb, Hc. change (0 + S fuel)%nat with (S fuel).
    rewrite (send_loop_value_error str_dict fuel self function payload caller rc w ex);
      [|lia|exact Ho|exact Hb|exact Hc|exact Hex].
    simpl. split; [reflexivity|lia].
  - pose proof (Hfail 0%nat ltac:(lia)) as H0. rewrite Nat.add_0_r in H0.
    apply command_raises_inv in H0 as (Ho0 & Hb0 & e0 & Hc0 & He0).
    change (S j + S fuel)%nat with (S (j + S fuel)).
    rewrite (send_loop_retry_step str_dict _ self function payload caller rc w e0);
      [|lia|exact Ho0|exact Hb0|exact Hc0|exact He0].
    match goal with |- context [send_loop _ _ self _ _ _ (rc + 1) ?w1] =>
      destruct (IH fuel self function payload caller (rc + 1) w1 ex) as [Hr Ha] end.
    + lia.
    + lia.
    + intros i Hi. simpl acquired.
      replace (S (acquired w) + i)%nat with (acquired w + S i)%nat by lia.
      apply Hfail. lia.
    + simpl acquired.
      replace (S (acquired w) + j)%nat with (acquired w + S j)%nat by lia. exact Ho.
    + simpl acquired.
      replace (S (acquired w) + j)%nat with (acquired w + S j)%nat by lia. exact Hb.
    + simpl acquired.
      replace (S (acquired w) + j)%nat with (acquired w + S j)%nat by lia. exact Hc.
    + exact Hex.
    + split; [exact Hr|]. rewrite Ha. simpl. lia.
Qed.

(** X11.  A [ValueError] is not retried after earlier retries either:
    fewer than three communication errors followed by a rejected payload
    end the dispatch with [ServiceValidationError] in the session of the
    rejection. *)
Theorem dispatch_value_error_after_retries j fuel function payload caller self w :
  (j < 3)%nat →
  (∀ i, (i < j)%nat →
        command_raises (script (device self) (acquired w + i)%nat)
          function payload is_communication_error = true) →
  command_raises (script (device self) (acquired w + j)%nat) function payload
    is_ValueError = true →
  ∃ ex,
    command (script (device self) (acquired w + j)%nat) function payload = Raises ex ∧
    (send_command str_dict (j + S fuel) function payload caller self w).1
    = (Raise (raise_from ServiceValidationError
                ("Invalid payload '" +:+ str_dict payload +:+ "' for '"
                   +:+ caller +:+ "': " +:+ exn_str ex) ex), self) ∧
    acquired (send_command str_dict (j + S fuel) function payload caller self w).2
    = (acquired w + j + 1)%nat.
Proof.
  intros Hj Hfail Hrej.
  apply command_raises_inv in Hrej as (Ho & Hb & ex & Hc & Hex).
  exists ex. split; [exact Hc|].
  unfold send_command.
  match goal with |- context [send_loop _ _ self _ _ _ 0 ?w1] =>
    destruct (send_loop_retries_then_rejects j fuel self function payload caller 0 w1 ex)
      as [Hr Ha];
      [lia|unfold RETRY_COUNT; lia|exact Hfail|exact Ho|exact Hb|exact Hc|exact Hex|]
  end.
  destruct (send_loop _ _ _ _ _ _ _ _) as [r w']; simpl in *. subst r.
  split; [reflexivity|exact Ha].
Qed.

(** X12.  When connecting fails with a communication error three times
    in a row, the dispatch raises [HomeAssistantError] from the third
    error and the operation is never called. *)
Theorem dispatch_three_failed_connects fuel function payload caller self w :
  (∀ i, (i < 3)%nat →
        connect_fails (script (device self) (acquired w + i)%nat)
          is_communication_error = true) →
  ∃ e0 e1 e2,
    aenter (script (device self) (acquired w)) = Some e0 ∧
    aenter (script (device self) (acquired w + 1)%nat) = Some e1 ∧
    aenter (script (device self) (acquired w + 2)%nat) = Some e2 ∧
    (send_command str_dict (3 + fuel) function payload caller self w).1
    = (Raise (raise_from HomeAssistantError
                ("Error sending command '" +:+ str_dict payload +:+ "' to '"
                   +:+ caller +:+ "': " +:+ exn_str e2) e2), self) ∧
    trace (send_command str_dict (3 + fuel) function payload caller self w).2
    = trace w ++
      [ELog DEBUG "Updating device with '%s' from '%s'" [caller; str_dict payload];
       EEnter;
       ELog INFO "Retrying command '%s' to '%s' after %s (%s)"
         [str_dict payload; caller; type_name e0; exn_str e0];
       EEnter;
       ELog INFO "Retrying command '%s' to '%s' after %s (%s)"
         [str_dict payload; caller; type_name e1; exn_str e1];
       EEnter].
Proof.
  intros Hfail.
  pose proof (Hfail 0%nat ltac:(lia)) as H0. rewrite Nat.add_0_r in H0.
  pose proof (Hfail 1%nat ltac:(lia)) as H1.
  pose proof (Hfail 2%nat ltac:(lia)) as H2.
  set (w0 := emit (ELog DEBUG "Updating device with '%s' from '%s'"
                     [caller; str_dict payload]) w).
  destruct (send_session_connect_fails self (script (device self) (acquired w0))
              function payload w0 _ H0) as (e0 & Hg0 & He0 & Hs0).
  pose proof (send_loop_error_step (S (S fuel)) self function payload caller 0 w0 _ e0
                Hs0 He0 eq_refl) as E0.
  match type of E0 with _ = send_loop _ _ _ _ _ _ _ ?w' => set (w1 := w') in * end.
  assert (acquired w1 = (acquired w + 1)%nat) as A1 by (simpl; lia).
  rewrite <- A1 in H1.
  destruct (send_session_connect_fails self _ function payload w1 _ H1)
    as (e1 & Hg1 & He1 & Hs1).
  pose proof (send_loop_error_step (S fuel) self function payload caller (0 + 1) w1 _ e1
                Hs1 He1 eq_refl) as E1.
  match type of E1 with _ = send_loop _ _ _ _ _ _ _ ?w' => set (w2 := w') in * end.
  assert (acquired w2 = (acquired w + 2)%nat) as A2 by (simpl; lia).
  rewrite <- A2 in H2.
  destruct (send_session_connect_fails self _ function payload w2 _ H2)
    as (e2 & Hg2 & He2 & Hs2).
  pose proof (send_loop_error_last fuel self function payload caller (0 + 1 + 1) w2 _ e2
                Hs2 He2 eq_refl ltac:(reflexivity)) as E2.
  rewrite A1 in Hg1. rewrite A2 in Hg2.
  exists e0, e1, e2. split; [exact Hg0|]. split; [exact Hg1|]. split; [exact Hg2|].
  unfold send_command. fold w0. change (3 + fuel)%nat with (S (S (S fuel))).
  rewrite E0, E1, E2. simpl. split; [reflexivity|].
  rewrite <- !app_assoc. reflexivity.
Qed.

End EurotronicDispatchMore.

(** ** The snapshot *)

Section EurotronicMergeMore.

Variable CONF_ALL_TEMPERATURES : list string.

Import Eurotronic.

(** Every key of the snapshot, in one formula. *)
Lemma merged_data_lookup self l k :
  merged_data CONF_ALL_TEMPERATURES self l !! k
  = if decide (k ∈ CONF_ALL_TEMPERATURES) then
      Some (py_or (dict_get (retrieved_temperatures l) k) (dict_get (data self) k))
    else if decide (k = "holiday") then
      Some (py_or (holiday l) (dict_get (data self) "holiday"))
    else if decide (k = "battery") then
      Some (py_or (battery l) (dict_get (data self) "battery"))
    else None.
Proof.
  unfold merged_data.
  rewrite (foldl_insert_lookup
             (λ k, py_or (dict_get (retrieved_temperatures l) k) (dict_get (data self) k))).
  destruct (decide (k ∈ CONF_ALL_TEMPERATURES)); [reflexivity|].
  destruct (decide (k = "holiday")) as [->|Hh]; [apply lookup_insert_eq|].
  rewrite lookup_insert_ne by congruence.
  destruct (decide (k = "battery")) as [->|Hb]; [apply lookup_insert_eq|].
  rewrite lookup_insert_ne by congruence. apply lookup_empty.
Qed.

(** X13.  A read that gave a truthy value wins over the stored value:
    the snapshot holds the value read, for a temperature field, for the
    battery and for the holiday. *)
Theorem merged_data_truthy_read_wins self l k :
  (k ∈ CONF_ALL_TEMPERATURES →
   truthy (dict_get (retrieved_temperatures l) k) = true →
   merged_data CONF_ALL_TEMPERATURES self l !! k
   = Some (dict_get (retrieved_temperatures l) k))
  ∧ ("battery" ∉ CONF_ALL_TEMPERATURES →
     truthy (battery l) = true →
     merged_data CONF_ALL_TEMPERATURES self l !! "battery" = Some (battery l))
  ∧ ("holiday" ∉ CONF_ALL_TEMPERATURES →
     truthy (holiday l) = true →
     merged_data CONF_ALL_TEMPERATURES self l !! "holiday" = Some (holiday l)).
Proof.
  repeat split; intros Hk Ht; rewrite merged_data_lookup.
  - rewrite decide_True by assumption. unfold py_or. by rewrite Ht.
  - rewrite decide_False by assumption. simpl. unfold py_or. by rewrite Ht.
  - rewrite decide_False by assumption. simpl. unfold py_or. by rewrite Ht.
Qed.

(** X14.  The keys of the snapshot are the temperature fields, "battery"
    and "holiday", no more and no less: a stored key outside them is
    dropped, and a field that was neither read nor stored is present with
    the value [None]. *)
Theorem merged_data_keys self l k :
  (is_Some (merged_data CONF_ALL_TEMPERATURES self l !! k)
   ↔ k ∈ CONF_ALL_TEMPERATURES ∨ k = "battery" ∨ k = "holiday")
  ∧ (k ∈ CONF_ALL_TEMPERATURES →
     retrieved_temperatures l !! k = None →
     data self !! k = None →
     merged_data CONF_ALL_TEMPERATURES self l !! k = Some VNone).
Proof.
  split.
  - rewrite merged_data_lookup.
    destruct (decide (k ∈ CONF_ALL_TEMPERATURES)); [by split; eauto|].
    destruct (decide (k = "holiday")); [by split; eauto|].
    destruct (decide (k = "battery")); [by split; eauto|].
    split; [by intros [? ?]|]. intros [?|[?|?]]; done.
  - intros Hk Hr Hd. rewrite merged_data_lookup, decide_True by assumption.
    unfold dict_get. rewrite Hr, Hd. reflexivity.
Qed.

(** X15.  A cycle that read nothing reproduces the snapshot before it:
    when the stored snapshot is one the merge built and the local
    variables still have their initial values, the merge gives the
    stored snapshot again. *)
Theorem merged_data_nothing_read self l :
  merged_data CONF_ALL_TEMPERATURES
    (set_data (merged_data CONF_ALL_TEMPERATURES self l) self) initial_locals
  = merged_data CONF_ALL_TEMPERATURES self l.
Proof.
  apply map_eq. intros k.
  rewrite (merged_data_lookup (set_data _ self) initial_locals k).
  pose proof (merged_data_lookup self l k) as Hk.
  pose proof (merged_data_lookup self l "holiday") as Hh.
  pose proof (merged_data_lookup self l "battery") as Hb.
  simpl data. simpl retrieved_temperatures. simpl holiday. simpl battery.
  unfold py_or at 1 2 3. unfold dict_get at 1. rewrite lookup_empty. simpl.
  destruct (decide (k ∈ CONF_ALL_TEMPERATURES)) as [Hin|Hin].
  { rewrite Hk. unfold dict_get at 1. rewrite Hk. reflexivity. }
  destruct (decide (k = "holiday")) as [->|Hne].
  { rewrite Hh. unfold dict_get at 1. rewrite Hh.
    rewrite decide_False by assumption. reflexivity. }
  destruct (decide (k = "battery")) as [->|Hne'].
  { rewrite Hb. unfold dict_get at 1. rewrite Hb.
    rewrite decide_False by assumption. reflexivity. }
  by rewrite Hk.
Qed.

End EurotronicMergeMore.

(** * Further properties of the earlier variant *)

Section LegacyMore.

Variable CONF_ALL_TEMPERATURES : list string.
Variable str_dict : gmap string value -> string.

Lemma legacy_poll_body_acquired a s w :
  acquired (Legacy.poll_body CONF_ALL_TEMPERATURES a s w).1.2 = acquired w.
Proof. unfold Legacy.poll_body. repeat case_match; reflexivity. Qed.

Lemma legacy_call_acquired self w :
  acquired (Legacy._async_update_data CONF_ALL_TEMPERATURES str_dict self w).2
  = S (acquired w).
Proof.
  unfold Legacy._async_update_data.
  pose proof (async_with_acquired (script (device self) (acquired w))
                (Legacy.poll_body CONF_ALL_TEMPERATURES (script (device self) (acquired w)))
                (self, ∅) w
                (legacy_poll_body_acquired (script (device self) (acquired w)))) as Ha.
  destruct (async_with _ _ _ w) as [[[self1 d1] w1] c]; simpl in Ha.
  destruct c as [|v|ex]; simpl; [done..|].
  destruct (is_InvalidByteValueError ex); [|done].
  by destruct (_ && _).
Qed.

(** X16.  The earlier poll makes one attempt: whatever the device does
    and however the call ends, it has entered exactly one session; a
    failed read is never followed by a second attempt in the same
    call. *)
Theorem legacy_poll_one_session self w :
  acquired (Legacy._async_update_data CONF_ALL_TEMPERATURES str_dict self w).2
  = S (acquired w)
  ∧ count is_EEnter
      (trace (Legacy._async_update_data CONF_ALL_TEMPERATURES str_dict self w).2)
    = S (count is_EEnter (trace w)).
Proof.
  split; [apply legacy_call_acquired|].
  unfold Legacy._async_update_data.
  assert (count is_EEnter
            (trace (async_with (script (device self) (acquired w))
                      (Legacy.poll_body CONF_ALL_TEMPERATURES
                         (script (device self) (acquired w))) (self, ∅) w).1.2)
          = S (count is_EEnter (trace w))) as Ht.
  { unfold async_with, Legacy.poll_body, count.
    repeat case_match; simplify_eq; simpl;
      rewrite ?List.filter_app, ?length_app; simpl; lia. }
  destruct (async_with _ _ _ w) as [[[self1 d1] w1] c]; simpl in Ht.
  assert (∀ ev, is_EEnter ev = false →
                count is_EEnter (trace (emit ev w1)) = S (count is_EEnter (trace w))) as He.
  { intros ev Hev. simpl. unfold count in *.
    rewrite List.filter_app, length_app. simpl. rewrite Hev. simpl. lia. }
  destruct c as [|v|ex]; simpl; try (apply He; reflexivity).
  destruct (is_InvalidByteValueError ex); [|exact Ht].
  destruct (_ && _); exact Ht.
Qed.

(** What a session with a malformed read leaves. *)
Lemma legacy_session_malformed self a w :
  some_read_malformed a = true →
  ∃ ex w1,
    is_InvalidByteValueError ex = true ∧ acquired w1 = S (acquired w) ∧
    async_with a (Legacy.poll_body CONF_ALL_TEMPERATURES a) (self, ∅) w
    = ((self, ∅), w1, Exc ex).
Proof.
  unfold some_read_malformed, session_opens, async_with, Legacy.poll_body.
  destruct (aenter a), (aexit a), (connected a); simpl; try discriminate.
  destruct (get_temperature_async a) as [t|ex].
  2: { intros Hex. exists ex. eexists. split; [exact Hex|]. split; [|reflexivity]. reflexivity. }
  destruct (get_battery_async a) as [b|ex].
  2: { intros Hex. exists ex. eexists. split; [exact Hex|]. split; [|reflexivity]. reflexivity. }
  destruct (get_holiday_async a) as [h|ex]; [discriminate|].
  intros Hex. exists ex. eexists. split; [exact Hex|]. split; [|reflexivity]. reflexivity.
Qed.

(** X17.  A malformed byte in any of the three reads is tolerated while
    the failure counter is below 3 and a snapshot is stored: the call
    returns the stored snapshot unchanged, raises nothing, and counts one
    failure. *)
Theorem legacy_poll_malformed_tolerated self w :
  some_read_malformed (script (device self) (acquired w)) = true →
  failed_update_count self < RETRY_COUNT →
  data self ≠ ∅ →
  (Legacy._async_update_data CONF_ALL_TEMPERATURES str_dict self w).1
  = (Returns (data self), set_failed_update_count (failed_update_count self + 1) self).
Proof.
  intros Hm Hlt Hdata. unfold Legacy._async_update_data.
  destruct (legacy_session_malformed self _ w Hm) as (ex & w1 & Hex & _ & ->).
  rewrite Hex. unfold dict_truthy.
  rewrite (proj2 (Z.ltb_lt _ _) Hlt), bool_decide_eq_false_2 by assumption.
  reflexivity.
Qed.

(** X18.  The same malformed byte is fatal when nothing is stored yet or
    the counter has reached 3: the call raises [UpdateFailed] from the
    error and leaves the counter as it is. *)
Theorem legacy_poll_malformed_fatal self w :
  some_read_malformed (script (device self) (acquired w)) = true →
  RETRY_COUNT ≤ failed_update_count self ∨ data self = ∅ →
  ∃ ex,
    is_InvalidByteValueError ex = true ∧
    (Legacy._async_update_data CONF_ALL_TEMPERATURES str_dict self w).1
    = (Raise (raise_from UpdateFailed ("Error in device response: " +:+ exn_str ex) ex), self).
Proof.
  intros Hm Hcase. unfold Legacy._async_update_data.
  destruct (legacy_session_malformed self _ w Hm) as (ex & w1 & Hex & _ & ->).
  exists ex. split; [exact Hex|]. rewrite Hex.
  assert ((failed_update_count self <? RETRY_COUNT) && dict_truthy (data self) = false) as ->.
  { apply andb_false_iff. destruct Hcase as [Hge| ->].
    - left. by apply Z.ltb_ge.
    - right. unfold dict_truthy. by rewrite bool_decide_eq_true_2. }
  reflexivity.
Qed.

(** What a session whose temperature read raises leaves. *)
Lemma legacy_session_temperature_raises self a w p :
  temperature_read_raises a p = true →
  ∃ ex,
    get_temperature_async a = Raises ex ∧ p ex = true ∧
    async_with a (Legacy.poll_body CONF_ALL_TEMPERATURES a) (self, ∅) w
    = ((self, ∅), emit EExit (emit (ECall "get_temperature_async") (enter w)), Exc ex).
Proof.
  unfold temperature_read_raises, session_opens, async_with, Legacy.poll_body.
  destruct (aenter a), (aexit a), (connected a); simpl; try discriminate.
  destruct (get_temperature_async a) as [t|ex]; [discriminate|]. eauto.
Qed.

(** X19.  Any other exception of the temperature read, a timeout or
    transport error included, ends the earlier poll at once:
    [UpdateFailed] from it with its class name in the message, one
    failure counted, no second attempt. *)
Theorem legacy_poll_other_error self w :
  temperature_read_raises (script (device self) (acquired w))
    (λ ex, negb (is_InvalidByteValueError ex)) = true →
  ∃ ex,
    get_temperature_async (script (device self) (acquired w)) = Raises ex ∧
    Legacy._async_update_data CONF_ALL_TEMPERATURES str_dict self w
    = (Raise (raise_from UpdateFailed ("(" +:+ type_name ex +:+ ") " +:+ exn_str ex) ex),
       set_failed_update_count (failed_update_count self + 1) self,
       emit EExit (emit (ECall "get_temperature_async") (enter w))).
Proof.
  intros H. unfold Legacy._async_update_data.
  destruct (legacy_session_temperature_raises self _ w _ H) as (ex & Hg & Hex & ->).
  exists ex. split; [exact Hg|].
  apply negb_true_iff in Hex. rewrite Hex. reflexivity.
Qed.

(** X20.  A poll in which all reads answer returns the new snapshot and
    sets the failure counter to 0 whatever it was, so that the entity is
    available again whenever the address is present. *)
Theorem legacy_poll_success_resets self w (async_address_present : string → bool) :
  reads_succeed (script (device self) (acquired w)) = true →
  ∃ t b h,
    get_temperature_async (script (device self) (acquired w)) = Ok t ∧
    get_battery_async (script (device self) (acquired w)) = Ok b ∧
    get_holiday_async (script (device self) (acquired w)) = Ok h ∧
    (Legacy._async_update_data CONF_ALL_TEMPERATURES str_dict self w).1.1
    = Returns (Legacy.new_data CONF_ALL_TEMPERATURES self t b h) ∧
    failed_update_count
      (Legacy._async_update_data CONF_ALL_TEMPERATURES str_dict self w).1.2 = 0 ∧
    available (Legacy._async_update_data CONF_ALL_TEMPERATURES str_dict self w).1.2
      async_address_present
    = async_address_present (address self).
Proof.
  intros Hok.
  destruct (legacy_poll_success CONF_ALL_TEMPERATURES str_dict self w Hok)
    as (t & b & h & Ht & Hb & Hh & Hr & _).
  exists t, b, h. rewrite Hr.
  split; [exact Ht|]. split; [exact Hb|]. split; [exact Hh|].
  split; [reflexivity|]. split; reflexivity.
Qed.

(** X21.  In the earlier variant battery and holiday are stored as read:
    a read that answers with a falsy value ([None], 0, an empty mapping)
    replaces the stored value, where a temperature field keeps it. *)
Theorem legacy_poll_stores_battery_as_read self w :
  reads_succeed (script (device self) (acquired w)) = true →
  "battery" ∉ CONF_ALL_TEMPERATURES →
  "holiday" ∉ CONF_ALL_TEMPERATURES →
  ∃ snapshot b h,
    get_battery_async (script (device self) (acquired w)) = Ok b ∧
    get_holiday_async (script (device self) (acquired w)) = Ok h ∧
    (Legacy._async_update_data CONF_ALL_TEMPERATURES str_dict self w).1.1 = Returns snapshot ∧
    snapshot !! "battery" = Some b ∧
    snapshot !! "holiday" = Some h.
Proof.
  intros Hok Hnb Hnh.
  destruct (legacy_poll_success CONF_ALL_TEMPERATURES str_dict self w Hok)
    as (t & b & h & Ht & Hb & Hh & Hr & _).
  exists (Legacy.new_data CONF_ALL_TEMPERATURES self t b h), b, h.
  rewrite Hr. repeat split; try assumption.
  - by apply legacy_new_data_battery.
  - unfold Legacy.new_data.
    rewrite (foldl_insert_lookup (λ k, py_or (dict_get t k) (dict_get (data self) k))).
    rewrite decide_False by assumption. apply lookup_insert_eq.
Qed.

(** *** Calls in a row *)

(** The coordinator a call leaves on a session with a malformed read:
    only the counter may change, by one and not beyond 3. *)
Lemma legacy_call_on_malformed self w :
  some_read_malformed (script (device self) (acquired w)) = true →
  data self ≠ ∅ →
  0 ≤ failed_update_count self ≤ RETRY_COUNT →
  (Legacy._async_update_data CONF_ALL_TEMPERATURES str_dict self w).1.2
  = set_failed_update_count (Z.min (failed_update_count self + 1) RETRY_COUNT) self.
Proof.
  intros Hm Hdata Hc. unfold Legacy._async_update_data.
  destruct (legacy_session_malformed self _ w Hm) as (ex & w1 & Hex & _ & ->).
  rewrite Hex. unfold dict_truthy. rewrite bool_decide_eq_false_2 by assumption.
  destruct (Z.ltb_spec (failed_update_count self) RETRY_COUNT) as [Hlt|Hge]; simpl.
  - f_equal. lia.
  - replace (Z.min (failed_update_count self + 1) RETRY_COUNT)
      with (failed_update_count self) by lia.
    by destruct self.
Qed.

(** The coordinator a call leaves when the temperature read raises
    another exception: one failure more. *)
Lemma legacy_call_on_failed_read self w :
  temperature_read_raises (script (device self) (acquired w))
    (λ ex, negb (is_InvalidByteValueError ex)) = true →
  (Legacy._async_update_data CONF_ALL_TEMPERATURES str_dict self w).1.2
  = set_failed_update_count (failed_update_count self + 1) self.
Proof.
  intros H. unfold Legacy._async_update_data.
  destruct (legacy_session_temperature_raises self _ w _ H) as (ex & _ & Hex & ->).
  apply negb_true_iff in Hex. rewrite Hex. reflexivity.
Qed.

Lemma legacy_polls_S n self w :
  legacy_polls CONF_ALL_TEMPERATURES str_dict (S n) self w
  = legacy_polls CONF_ALL_TEMPERATURES str_dict n
      (Legacy._async_update_data CONF_ALL_TEMPERATURES str_dict self w).1.2
      (Legacy._async_update_data CONF_ALL_TEMPERATURES str_dict self w).2.
Proof. reflexivity. Qed.

(** X22.  On a device that keeps answering with malformed bytes the
    counter rises by one per call up to 3 and stays there: after [n]
    calls from a counter [c ≤ 3] it is [min (c + n) 3], and the stored
    snapshot is as before. *)
Theorem legacy_malformed_polls_saturate n : ∀ self w,
  (∀ i, some_read_malformed (script (device self) (acquired w + i)%nat) = true) →
  data self ≠ ∅ →
  0 ≤ failed_update_count self ≤ RETRY_COUNT →
  failed_update_count (legacy_polls CONF_ALL_TEMPERATURES str_dict n self w).1
  = Z.min (failed_update_count self + Z.of_nat n) RETRY_COUNT
  ∧ data (legacy_polls CONF_ALL_TEMPERATURES str_dict n self w).1 = data self.
Proof.
  induction n as [|n IH]; intros self w Hm Hdata Hc.
  { simpl. split; [lia|reflexivity]. }
  rewrite legacy_polls_S.
  pose proof (Hm 0%nat) as H0. rewrite Nat.add_0_r in H0.
  pose proof (legacy_call_acquired self w) as Ha.
  pose proof (legacy_call_on_malformed self w H0 Hdata Hc) as Hs.
  set (c' := Z.min (failed_update_count self + 1) RETRY_COUNT) in Hs.
  rewrite Hs.
  destruct (IH (set_failed_update_count c' self)
              (Legacy._async_update_data CONF_ALL_TEMPERATURES str_dict self w).2)
    as [IHc IHd].
  - intros i. rewrite Ha. simpl device.
    replace (S (acquired w) + i)%nat with (acquired w + S i)%nat by lia. apply Hm.
  - exact Hdata.
  - subst c'. simpl. lia.
  - split; [|exact IHd]. rewrite IHc. subst c'. simpl. lia.
Qed.

(** X23.  On a device whose temperature read keeps timing out the
    counter rises by one per call without bound: after [n] calls it is
    [c + n], so that the entity is unavailable from the call that brings
    it to 3. *)
Theorem legacy_failing_polls_count n : ∀ self w (async_address_present : string → bool),
  (∀ i, temperature_read_raises (script (device self) (acquired w + i)%nat)
          (λ ex, negb (is_InvalidByteValueError ex)) = true) →
  failed_update_count (legacy_polls CONF_ALL_TEMPERATURES str_dict n self w).1
  = failed_update_count self + Z.of_nat n
  ∧ (RETRY_COUNT ≤ failed_update_count self + Z.of_nat n →
     available (legacy_polls CONF_ALL_TEMPERATURES str_dict n self w).1
       async_address_present = false).
Proof.
  intros self w present Hfail.
  assert (failed_update_count (legacy_polls CONF_ALL_TEMPERATURES str_dict n self w).1
          = failed_update_count self + Z.of_nat n) as Hc.
  { revert self w Hfail.
    induction n as [|n IH]; intros self w Hfail; [simpl; lia|].
    rewrite legacy_polls_S.
    pose proof (Hfail 0%nat) as H0. rewrite Nat.add_0_r in H0.
    rewrite (legacy_call_on_failed_read self w H0), IH.
    - simpl. lia.
    - intros i. rewrite legacy_call_acquired. simpl device.
      replace (S (acquired w) + i)%nat with (acquired w + S i)%nat by lia. apply Hfail. }
  split; [exact Hc|].
  intros Hge. unfold available. rewrite Hc.
  by rewrite (proj2 (Z.ltb_ge _ _) Hge).
Qed.

(** *** The dispatch *)

(** X24.  The earlier dispatch throws the answer of the operation away:
    when the operation answers, whatever it answers, the call gives
    [None], after one session in which the operation was called once. *)
Theorem legacy_dispatch_gives_None function payload caller self w v :
  session_opens (script (device self) (acquired w)) = true →
  command (script (device self) (acquired w)) function payload = Ok v →
  Legacy.send_command str_dict function payload caller self w
  = (Returns VNone, self,
     emit EExit (emit (ECall function)
                   (enter (emit (ELog DEBUG "Updating device with '%s' from '%s'"
                                   [caller; str_dict payload]) w)))).
Proof.
  unfold Legacy.send_command, Legacy.send_body, async_with, session_opens. simpl.
  set (a := script (device self) (acquired w)) in *.
  destruct (aenter a), (aexit a), (connected a); simpl; try discriminate.
  by intros _ ->.
Qed.

(** X25.  The earlier dispatch makes one attempt and sorts the error of
    the operation by class: a [ValueError] becomes
    [ServiceValidationError], a timeout or transport error becomes
    [HomeAssistantError], each raised from the error after the one
    session, with no retry. *)
Theorem legacy_dispatch_one_attempt function payload caller self w :
  command_raises (script (device self) (acquired w)) function payload
    (λ ex, is_ValueError ex || is_connection_error ex) = true →
  ∃ ex,
    command (script (device self) (acquired w)) function payload = Raises ex ∧
    Legacy.send_command str_dict function payload caller self w
    = (Raise (if is_ValueError ex then
                raise_from ServiceValidationError
                  ("Invalid payload '" +:+ str_dict payload +:+ "' for '"
                     +:+ caller +:+ "': " +:+ exn_str ex) ex
              else
                raise_from HomeAssistantError
                  ("Error sending command '" +:+ str_dict payload +:+ "' to '"
                     +:+ caller +:+ "': " +:+ exn_str ex) ex),
       self,
       emit EExit (emit (ECall function)
                     (enter (emit (ELog DEBUG "Updating device with '%s' from '%s'"
                                     [caller; str_dict payload]) w)))).
Proof.
  intros (Hopen & Hcalled & ex & Hcmd & Hex)%command_raises_inv.
  exists ex. split; [exact Hcmd|].
  unfold Legacy.send_command, Legacy.send_body, async_with, session_opens in *.
  simpl acquired.
  set (a := script (device self) (acquired w)) in *.
  destruct (aenter a), (aexit a), (connected a); simpl in Hopen; try discriminate.
  simpl. rewrite Hcmd, Hcalled.
  destruct (is_ValueError ex) eqn:Hv.
  { by rewrite (value_error_is_caught ex Hv). }
  simpl in Hex.
  assert (except_ValueError ex = false) as ->.
  { unfold is_connection_error, is_TimeoutError, is_BleakError, except_ValueError in *.
    destruct (exn_cls ex); simpl in *; congruence. }
  unfold is_connection_error in Hex. rewrite orb_comm in Hex. simpl. rewrite Hex.
  reflexivity.
Qed.

End LegacyMore.

(** * The claims that both variants decide *)

Section BothVariants.

Variable CONF_ALL_TEMPERATURES : list string.
Variable str_dict : gmap string value -> string.

(** C2 (merge never regresses).  A coordinator holds a battery value
    from an earlier cycle; in the current cycle every read answers and
    the battery read answers with a falsy value.  The claim says that
    the snapshot returned by the cycle still maps the battery to the
    stored value.  In the variant with retries no snapshot is returned:
    the loop has no exit after the session and goes on to a second one.
    In the earlier variant a snapshot is returned, and it maps the
    battery to the falsy value read, not to the stored one. *)
Theorem C2_stored_value_is_not_carried_forward fuel self w b :
  reads_succeed (script (device self) (acquired w)) = true →
  get_battery_async (script (device self) (acquired w)) = Ok b →
  truthy b = false →
  truthy (dict_get (data self) "battery") = true →
  (∀ snapshot,
     (Eurotronic._async_update_data CONF_ALL_TEMPERATURES str_dict (S (S fuel)) self w).1.1
     ≠ Returns snapshot)
  ∧ (acquired w + 2
     ≤ acquired
         (Eurotronic._async_update_data CONF_ALL_TEMPERATURES str_dict (S (S fuel)) self w).2)%nat
  ∧ ("battery" ∉ CONF_ALL_TEMPERATURES →
     ∃ snapshot,
       (Legacy._async_update_data CONF_ALL_TEMPERATURES str_dict self w).1.1
       = Returns snapshot
       ∧ snapshot !! "battery" = Some b
       ∧ b ≠ dict_get (data self) "battery").
Proof.
  intros Hok Hb Hfalsy Hstored. split; [|split].
  - intros snapshot. apply async_update_data_never_returns.
  - rewrite async_update_data_world.
    apply poll_loop_after_normal; [reflexivity|].
    apply poll_session_normal. rewrite Hok. reflexivity.
  - intros Hnb.
    destruct (legacy_poll_success CONF_ALL_TEMPERATURES str_dict self w Hok)
      as (t & b' & h & _ & Hb' & _ & Hr & _).
    assert (b' = b) as -> by congruence.
    exists (Legacy.new_data CONF_ALL_TEMPERATURES self t b h).
    rewrite Hr. split; [reflexivity|]. split.
    + by apply legacy_new_data_battery.
    + intros ->. congruence.
Qed.

(** C3 (failure counter).  The claim says that a failed poll cycle
    increments the failure counter and raises an update failure naming
    the cause.  The variant with retries raises as claimed, from the
    third of three malformed-byte, timeout or transport errors of the
    temperature read after exactly three sessions, and at once from an
    error of another class; but it never writes the counter, which has
    after the failed cycle the value it had before, so that [available]
    answers as before. *)
Theorem C3_failed_cycle_raises_without_counting fuel self w :
  ((∀ i, (i < 3)%nat →
         temperature_read_fails (script (device self) (acquired w + i)%nat) = true) →
   ∃ ex,
     get_temperature_async (script (device self) (acquired w + 2)%nat) = Raises ex ∧
     (Eurotronic._async_update_data CONF_ALL_TEMPERATURES str_dict (3 + fuel) self w).1.1
     = Raise (raise_from UpdateFailed ("Error retrieving data: " +:+ exn_str ex) ex) ∧
     acquired
       (Eurotronic._async_update_data CONF_ALL_TEMPERATURES str_dict (3 + fuel) self w).2
     = (acquired w + 3)%nat ∧
     failed_update_count
       (Eurotronic._async_update_data CONF_ALL_TEMPERATURES str_dict (3 + fuel) self w).1.2
     = failed_update_count self ∧
     ∀ async_address_present,
       available
         (Eurotronic._async_update_data CONF_ALL_TEMPERATURES str_dict (3 + fuel) self w).1.2
         async_address_present
       = available self async_address_present)
  ∧ (temperature_read_raises (script (device self) (acquired w)) is_unexpected = true →
     ∃ ex,
       get_temperature_async (script (device self) (acquired w)) = Raises ex ∧
       (Eurotronic._async_update_data CONF_ALL_TEMPERATURES str_dict (S fuel) self w).1.1
       = Raise (raise_from UpdateFailed ("(" +:+ type_name ex +:+ ") " +:+ exn_str ex) ex) ∧
       acquired
         (Eurotronic._async_update_data CONF_ALL_TEMPERATURES str_dict (S fuel) self w).2
       = (acquired w + 1)%nat ∧
       failed_update_count
         (Eurotronic._async_update_data CONF_ALL_TEMPERATURES str_dict (S fuel) self w).1.2
       = failed_update_count self).
Proof.
  split.
  - intros Hfail.
    destruct (poll_retry_budget_exhausted CONF_ALL_TEMPERATURES str_dict fuel self w Hfail)
      as (ex & Hg & Hr & Ha).
    exists ex. split; [exact Hg|]. rewrite Hr. split; [reflexivity|]. split; [exact Ha|].
    split; reflexivity.
  - intros Hraise.
    destruct (poll_session_temperature_raises self _ Eurotronic.initial_locals w _ Hraise)
      as (ex & Hg & Hex & Hs).
    exists ex. split; [exact Hg|].
    unfold Eurotronic._async_update_data.
    rewrite (poll_loop_unexpected fuel self 0 Eurotronic.initial_locals w _ _ ex Hs);
      [|unfold is_unexpected in Hex; by apply negb_true_iff in Hex|reflexivity].
    simpl. split; [reflexivity|]. split; [lia|reflexivity].
Qed.

(** C9 (dispatch returns its result).  The operation answers with a
    value in the first session.  The claim says that the dispatch gives
    that value back.  The variant with retries does; the earlier variant
    binds the value to a local variable and ends, so that the caller
    gets [None] whatever the operation answered. *)
Theorem C9_earlier_dispatch_discards_the_result fuel function payload caller self w v :
  session_opens (script (device self) (acquired w)) = true →
  command (script (device self) (acquired w)) function payload = Ok v →
  (Legacy.send_command str_dict function payload caller self w).1.1 = Returns VNone
  ∧ (Eurotronic.send_command str_dict (S fuel) function payload caller self w).1.1
    = Returns v.
Proof.
  intros Hopen Hcmd. split.
  - by rewrite (legacy_send_command_gives_none str_dict function payload caller self w v).
  - by rewrite (send_command_returns str_dict fuel function payload caller self w v).
Qed.

End BothVariants.

(** * Instances of the further properties on sample devices *)

Lemma poll_three_failed_reads_witness :
  ∃ e0 e1 e2 : exn,
    get_temperature_async
      (script (device (init (Sample.always Scenario.temperature_timeout)))
         (acquired Sample.w0)) =
    Raises e0
    ∧ get_temperature_async
        (script (device (init (Sample.always Scenario.temperature_timeout)))
           (acquired Sample.w0 + 1)) =
      Raises e1
      ∧ get_temperature_async
          (script (device (init (Sample.always Scenario.temperature_timeout)))
             (acquired Sample.w0 + 2)) =
        Raises e2
        ∧ (Eurotronic._async_update_data Sample.CONF_ALL_TEMPERATURES Sample.str_dict
             (3 + 0) (init (Sample.always Scenario.temperature_timeout)) Sample.w0).1 =
          (Raise (raise_from UpdateFailed ("Error retrieving data: " +:+ exn_str e2) e2),
           init (Sample.always Scenario.temperature_timeout))
          ∧ acquired
              (Eurotronic._async_update_data Sample.CONF_ALL_TEMPERATURES Sample.str_dict
                 (3 + 0) (init (Sample.always Scenario.temperature_timeout)) Sample.w0).2 =
            (acquired Sample.w0 + 3)%nat
            ∧ trace
                (Eurotronic._async_update_data Sample.CONF_ALL_TEMPERATURES Sample.str_dict
                   (3 + 0) (init (Sample.always Scenario.temperature_timeout)) Sample.w0).2 =
              trace Sample.w0 ++
              [EEnter; ECall "get_temperature_async"; EExit;
               ELog INFO "Retrying after %s (%s)" [type_name e0; exn_str e0]; EEnter;
               ECall "get_temperature_async"; EExit;
               ELog INFO "Retrying after %s (%s)" [type_name e1; exn_str e1]; EEnter;
               ECall "get_temperature_async"; EExit].
Proof.
  apply (poll_three_failed_reads Sample.CONF_ALL_TEMPERATURES Sample.str_dict 0
           (init (Sample.always Scenario.temperature_timeout)) Sample.w0).
  intros; reflexivity.
Defined.

Lemma poll_unexpected_error_fails_at_once_witness :
  ∃ ex : exn,
    get_temperature_async
      (script
         (device
            (init
               (Sample.always
                  (Sample.with_temperature (Raises Scenario.key_error) Sample.healthy))))
         (acquired Sample.w0)) =
    Raises ex
    ∧ Eurotronic._async_update_data Sample.CONF_ALL_TEMPERATURES Sample.str_dict 3
        (init
           (Sample.always
              (Sample.with_temperature (Raises Scenario.key_error) Sample.healthy)))
        Sample.w0 =
      (Raise (raise_from UpdateFailed ("(" +:+ type_name ex +:+ ") " +:+ exn_str ex) ex),
       init
         (Sample.always (Sample.with_temperature (Raises Scenario.key_error) Sample.healthy)),
       emit EExit (emit (ECall "get_temperature_async") (enter Sample.w0))).
Proof.
  apply (poll_unexpected_error_fails_at_once Sample.CONF_ALL_TEMPERATURES
           Sample.str_dict 2 (init (Sample.always (Sample.with_temperature (Raises
           Scenario.key_error) Sample.healthy))) Sample.w0).
  reflexivity.
Defined.

Lemma poll_three_failed_connects_witness :
  ∃ e0 e1 e2 : exn,
    aenter (script (device (init Scenario.out_of_range_device)) (acquired Sample.w0)) =
    Some e0
    ∧ aenter (script (device (init Scenario.out_of_range_device)) (acquired Sample.w0 + 1)) =
      Some e1
      ∧ aenter
          (script (device (init Scenario.out_of_range_device)) (acquired Sample.w0 + 2)) =
        Some e2
        ∧ (Eurotronic._async_update_data Sample.CONF_ALL_TEMPERATURES Sample.str_dict
             (3 + 0) (init Scenario.out_of_range_device) Sample.w0).1 =
          (Raise (raise_from UpdateFailed ("Error retrieving data: " +:+ exn_str e2) e2),
           init Scenario.out_of_range_device)
          ∧ trace
              (Eurotronic._async_update_data Sample.CONF_ALL_TEMPERATURES Sample.str_dict
                 (3 + 0) (init Scenario.out_of_range_device) Sample.w0).2 =
            trace Sample.w0 ++
            [EEnter; ELog INFO "Retrying after %s (%s)" [type_name e0; exn_str e0]; EEnter;
             ELog INFO "Retrying after %s (%s)" [type_name e1; exn_str e1]; EEnter].
Proof.
  apply (poll_three_failed_connects Sample.CONF_ALL_TEMPERATURES Sample.str_dict 0
           (init Scenario.out_of_range_device) Sample.w0).
  intros; reflexivity.
Defined.

Lemma poll_battery_connection_error_is_retried_witness :
  ∃ e2 : exn,
    get_battery_async
      (script
         (device
            (init
               (Sample.always (Sample.with_battery (Raises Sample.timeout) Sample.healthy))))
         (acquired Sample.w0 + 2)) =
    Raises e2
    ∧ (Eurotronic._async_update_data Sample.CONF_ALL_TEMPERATURES Sample.str_dict 
         (3 + 0)
         (init (Sample.always (Sample.with_battery (Raises Sample.timeout) Sample.healthy)))
         Sample.w0).1 =
      (Raise (raise_from UpdateFailed ("Error retrieving data: " +:+ exn_str e2) e2),
       init (Sample.always (Sample.with_battery (Raises Sample.timeout) Sample.healthy)))
      ∧ acquired
          (Eurotronic._async_update_data Sample.CONF_ALL_TEMPERATURES Sample.str_dict
             (3 + 0)
             (init
                (Sample.always (Sample.with_battery (Raises Sample.timeout) Sample.healthy)))
             Sample.w0).2 =
        (acquired Sample.w0 + 3)%nat
        ∧ count (is_ECall "get_temperature_async")
            (trace
               (Eurotronic._async_update_data Sample.CONF_ALL_TEMPERATURES Sample.str_dict
                  (3 + 0)
                  (init
                     (Sample.always
                        (Sample.with_battery (Raises Sample.timeout) Sample.healthy)))
                  Sample.w0).2) =
          (count (is_ECall "get_temperature_async") (trace Sample.w0) + 3)%nat
          ∧ count (is_ECall "get_holiday_async")
              (trace
                 (Eurotronic._async_update_data Sample.CONF_ALL_TEMPERATURES Sample.str_dict
                    (3 + 0)
                    (init
                       (Sample.always
                          (Sample.with_battery (Raises Sample.timeout) Sample.healthy)))
                    Sample.w0).2) =
            count (is_ECall "get_holiday_async") (trace Sample.w0).
Proof.
  apply (poll_battery_connection_error_is_retried Sample.CONF_ALL_TEMPERATURES
           Sample.str_dict 0 (init (Sample.always (Sample.with_battery (Raises
           Sample.timeout) Sample.healthy))) Sample.w0).
  intros; reflexivity.
Defined.

Lemma dispatch_retries_then_returns_witness :
  (Eurotronic.send_command Sample.str_dict (2 + 1) "get_battery_async" ∅ "sensor.battery"
     (init (Scenario.answers_after 2)) Sample.w0).1 =
  (Returns (VInt 80), init (Scenario.answers_after 2))
  ∧ acquired
      (Eurotronic.send_command Sample.str_dict (2 + 1) "get_battery_async" ∅
         "sensor.battery" (init (Scenario.answers_after 2)) Sample.w0).2 =
    (acquired Sample.w0 + 2 + 1)%nat
    ∧ count (is_ELog INFO)
        (trace
           (Eurotronic.send_command Sample.str_dict (2 + 1) "get_battery_async" ∅
              "sensor.battery" (init (Scenario.answers_after 2)) Sample.w0).2) =
      (count (is_ELog INFO) (trace Sample.w0) + 2)%nat.
Proof.
  apply (dispatch_retries_then_returns Sample.str_dict 2 0 "get_battery_async" ∅
           "sensor.battery" (init (Scenario.answers_after 2)) Sample.w0 (VInt 80)).
  - lia.
  - intros i Hi; destruct i as [|[|i]]; [reflexivity|reflexivity|lia].
  - reflexivity.
  - reflexivity.
Defined.

Lemma dispatch_other_error_propagates_witness :
  Eurotronic.send_command Sample.str_dict 3 "set_colour_async" ∅ "light.dial"
    (init (Sample.always Scenario.without_operation)) Sample.w0
  = (Raise Scenario.unknown_operation, init (Sample.always Scenario.without_operation),
     emit EExit
       (enter
          (emit (ELog DEBUG "Updating device with '%s' from '%s'"
                   ["light.dial"; Sample.str_dict ∅])
             Sample.w0))).
Proof.
  apply (dispatch_other_error_propagates Sample.str_dict 2 "set_colour_async" ∅
           "light.dial" (init (Sample.always Scenario.without_operation)) Sample.w0
           Scenario.unknown_operation).
  - reflexivity.
  - reflexivity.
  - reflexivity.
Defined.

Lemma dispatch_exit_error_repeats_operation_witness :
  ∃ ex : exn,
    aexit (script (device (init Scenario.drops_on_first_exit)) (acquired Sample.w0)) =
    Some ex
    ∧ (Eurotronic.send_command Sample.str_dict 3 "get_battery_async" ∅ "sensor.battery"
         (init Scenario.drops_on_first_exit) Sample.w0).1 =
      (Returns (VInt 80), init Scenario.drops_on_first_exit)
      ∧ trace
          (Eurotronic.send_command Sample.str_dict 3 "get_battery_async" ∅ "sensor.battery"
             (init Scenario.drops_on_first_exit) Sample.w0).2 =
        trace Sample.w0 ++
        [ELog DEBUG "Updating device with '%s' from '%s'"
           ["sensor.battery"; Sample.str_dict ∅];
         EEnter; ECall "get_battery_async"; EExit;
         ELog INFO "Retrying command '%s' to '%s' after %s (%s)"
           [Sample.str_dict ∅; "sensor.battery"; type_name ex; exn_str ex];
         EEnter; ECall "get_battery_async"; EExit].
Proof.
  apply (dispatch_exit_error_repeats_operation Sample.str_dict 1 "get_battery_async"
           ∅ "sensor.battery" (init Scenario.drops_on_first_exit) Sample.w0 (VInt
           80)).
  - reflexivity.
  - reflexivity.
  - reflexivity.
Defined.

Lemma dispatch_value_error_after_retries_witness :
  ∃ ex : exn,
    command (script (device (init (Scenario.rejects_after 1))) (acquired Sample.w0 + 1))
      "set_temperature_async" Sample.payload =
    Raises ex
    ∧ (Eurotronic.send_command Sample.str_dict (1 + 2) "set_temperature_async"
         Sample.payload "climate.living" (init (Scenario.rejects_after 1)) Sample.w0).1 =
      (Raise
         (raise_from ServiceValidationError
            ("Invalid payload '" +:+
             Sample.str_dict Sample.payload +:+
             "' for '" +:+ "climate.living" +:+ "': " +:+ exn_str ex)
            ex),
       init (Scenario.rejects_after 1))
      ∧ acquired
          (Eurotronic.send_command Sample.str_dict (1 + 2) "set_temperature_async"
             Sample.payload "climate.living" (init (Scenario.rejects_after 1)) Sample.w0).2 =
        (acquired Sample.w0 + 1 + 1)%nat.
Proof.
  apply (dispatch_value_error_after_retries Sample.str_dict 1 1
           "set_temperature_async" Sample.payload "climate.living" (init
           (Scenario.rejects_after 1)) Sample.w0).
  - lia.
  - intros i Hi; destruct i as [|i]; [reflexivity|lia].
  - reflexivity.
Defined.

Lemma dispatch_three_failed_connects_witness :
  ∃ e0 e1 e2 : exn,
    aenter (script (device (init Scenario.out_of_range_device)) (acquired Sample.w0)) =
    Some e0
    ∧ aenter (script (device (init Scenario.out_of_range_device)) (acquired Sample.w0 + 1)) =
      Some e1
      ∧ aenter
          (script (device (init Scenario.out_of_range_device)) (acquired Sample.w0 + 2)) =
        Some e2
        ∧ (Eurotronic.send_command Sample.str_dict (3 + 0) "set_temperature_async"
             Sample.payload "climate.living" (init Scenario.out_of_range_device) Sample.w0).1 =
          (Raise
             (raise_from HomeAssistantError
                ("Error sending command '" +:+
                 Sample.str_dict Sample.payload +:+
                 "' to '" +:+ "climate.living" +:+ "': " +:+ exn_str e2)
                e2),
           init Scenario.out_of_range_device)
          ∧ trace
              (Eurotronic.send_command Sample.str_dict (3 + 0) "set_temperature_async"
                 Sample.payload "climate.living" (init Scenario.out_of_range_device)
                 Sample.w0).2 =
            trace Sample.w0 ++
            [ELog DEBUG "Updating device with '%s' from '%s'"
               ["climate.living"; Sample.str_dict Sample.payload];
             EEnter;
             ELog INFO "Retrying command '%s' to '%s' after %s (%s)"
               [Sample.str_dict Sample.payload; "climate.living"; type_name e0; exn_str e0];
             EEnter;
             ELog INFO "Retrying command '%s' to '%s' after %s (%s)"
               [Sample.str_dict Sample.payload; "climate.living"; type_name e1; exn_str e1];
             EEnter].
Proof.
  apply (dispatch_three_failed_connects Sample.str_dict 0 "set_temperature_async"
           Sample.payload "climate.living" (init Scenario.out_of_range_device)
           Sample.w0).
  intros; reflexivity.
Defined.

Lemma merged_data_truthy_read_wins_witness :
  Eurotronic.merged_data Sample.CONF_ALL_TEMPERATURES
    (Scenario.polled (Sample.always Sample.healthy) 0) Scenario.all_read
  !! "targetTempLow" =
  Some (dict_get (Eurotronic.retrieved_temperatures Scenario.all_read) "targetTempLow").
Proof.
  apply (proj1 (merged_data_truthy_read_wins Sample.CONF_ALL_TEMPERATURES
           (Scenario.polled (Sample.always Sample.healthy) 0) Scenario.all_read
           "targetTempLow")).
  - apply (bool_decide_unpack _); vm_compute; exact I.
  - reflexivity.
Defined.

Lemma merged_data_keys_witness :
  Eurotronic.merged_data Sample.CONF_ALL_TEMPERATURES (init (Sample.always Sample.healthy))
    Eurotronic.initial_locals
  !! "currentTemp" = Some VNone.
Proof.
  apply (proj2 (merged_data_keys Sample.CONF_ALL_TEMPERATURES (init (Sample.always
           Sample.healthy)) Eurotronic.initial_locals "currentTemp")).
  - apply (bool_decide_unpack _); vm_compute; exact I.
  - reflexivity.
  - reflexivity.
Defined.

Lemma legacy_poll_malformed_tolerated_witness :
  (Legacy._async_update_data Sample.CONF_ALL_TEMPERATURES Sample.str_dict
     (Scenario.polled (Sample.always Scenario.malformed_battery) 2) Sample.w0).1 =
  (Returns (data (Scenario.polled (Sample.always Scenario.malformed_battery) 2)),
   set_failed_update_count
     (failed_update_count (Scenario.polled (Sample.always Scenario.malformed_battery) 2) + 1)
     (Scenario.polled (Sample.always Scenario.malformed_battery) 2)).
Proof.
  apply (legacy_poll_malformed_tolerated Sample.CONF_ALL_TEMPERATURES
           Sample.str_dict (Scenario.polled (Sample.always
           Scenario.malformed_battery) 2) Sample.w0).
  - reflexivity.
  - reflexivity.
  - apply (bool_decide_unpack _); vm_compute; exact I.
Defined.

Lemma legacy_poll_malformed_fatal_witness :
  ∃ ex : exn,
    is_InvalidByteValueError ex = true
    ∧ (Legacy._async_update_data Sample.CONF_ALL_TEMPERATURES Sample.str_dict
         (init (Sample.always Scenario.malformed_battery)) Sample.w0).1 =
      (Raise (raise_from UpdateFailed ("Error in device response: " +:+ exn_str ex) ex),
       init (Sample.always Scenario.malformed_battery)).
Proof.
  apply (legacy_poll_malformed_fatal Sample.CONF_ALL_TEMPERATURES Sample.str_dict
           (init (Sample.always Scenario.malformed_battery)) Sample.w0).
  - reflexivity.
  - right; reflexivity.
Defined.

Lemma legacy_poll_other_error_witness :
  ∃ ex : exn,
    get_temperature_async
      (script (device (init (Sample.always Scenario.temperature_timeout)))
         (acquired Sample.w0)) =
    Raises ex
    ∧ Legacy._async_update_data Sample.CONF_ALL_TEMPERATURES Sample.str_dict
        (init (Sample.always Scenario.temperature_timeout)) Sample.w0 =
      (Raise (raise_from UpdateFailed ("(" +:+ type_name ex +:+ ") " +:+ exn_str ex) ex),
       set_failed_update_count
         (failed_update_count (init (Sample.always Scenario.temperature_timeout)) + 1)
         (init (Sample.always Scenario.temperature_timeout)),
       emit EExit (emit (ECall "get_temperature_async") (enter Sample.w0))).
Proof.
  apply (legacy_poll_other_error Sample.CONF_ALL_TEMPERATURES Sample.str_dict (init
           (Sample.always Scenario.temperature_timeout)) Sample.w0).
  reflexivity.
Defined.

Lemma legacy_poll_success_resets_witness :
  ∃ (t : gmap string value) (b h : value),
    get_temperature_async
      (script (device (Scenario.polled (Sample.always Sample.healthy) 3))
         (acquired Sample.w0)) =
    Ok t
    ∧ get_battery_async
        (script (device (Scenario.polled (Sample.always Sample.healthy) 3))
           (acquired Sample.w0)) =
      Ok b
      ∧ get_holiday_async
          (script (device (Scenario.polled (Sample.always Sample.healthy) 3))
             (acquired Sample.w0)) =
        Ok h
        ∧ (Legacy._async_update_data Sample.CONF_ALL_TEMPERATURES Sample.str_dict
             (Scenario.polled (Sample.always Sample.healthy) 3) Sample.w0).1.1 =
          Returns
            (Legacy.new_data Sample.CONF_ALL_TEMPERATURES
               (Scenario.polled (Sample.always Sample.healthy) 3) t b h)
          ∧ failed_update_count
              (Legacy._async_update_data Sample.CONF_ALL_TEMPERATURES Sample.str_dict
                 (Scenario.polled (Sample.always Sample.healthy) 3) Sample.w0).1.2 =
            0
            ∧ available
                (Legacy._async_update_data Sample.CONF_ALL_TEMPERATURES Sample.str_dict
                   (Scenario.polled (Sample.always Sample.healthy) 3) Sample.w0).1.2
                (λ _ : string, true) =
              (λ _ : string, true)
                (address (Scenario.polled (Sample.always Sample.healthy) 3)).
Proof.
  apply (legacy_poll_success_resets Sample.CONF_ALL_TEMPERATURES Sample.str_dict
           (Scenario.polled (Sample.always Sample.healthy) 3) Sample.w0 (λ _, true)).
  reflexivity.
Defined.

Lemma legacy_poll_stores_battery_as_read_witness :
  ∃ (snapshot : gmap string value) (b h : value),
    get_battery_async
      (script (device (Scenario.polled (Sample.always Scenario.no_battery_value) 0))
         (acquired Sample.w0)) =
    Ok b
    ∧ get_holiday_async
        (script (device (Scenario.polled (Sample.always Scenario.no_battery_value) 0))
           (acquired Sample.w0)) =
      Ok h
      ∧ (Legacy._async_update_data Sample.CONF_ALL_TEMPERATURES Sample.str_dict
           (Scenario.polled (Sample.always Scenario.no_battery_value) 0) Sample.w0).1.1 =
        Returns snapshot ∧ snapshot !! "battery" = Some b ∧ snapshot !! "holiday" = Some h.
Proof.
  apply (legacy_poll_stores_battery_as_read Sample.CONF_ALL_TEMPERATURES
           Sample.str_dict (Scenario.polled (Sample.always
           Scenario.no_battery_value) 0) Sample.w0).
  - reflexivity.
  - apply (bool_decide_unpack _); vm_compute; exact I.
  - apply (bool_decide_unpack _); vm_compute; exact I.
Defined.

Lemma legacy_malformed_polls_saturate_witness :
  failed_update_count
    (legacy_polls Sample.CONF_ALL_TEMPERATURES Sample.str_dict 5
       (Scenario.polled (Sample.always Scenario.malformed_battery) 0) Sample.w0).1 =
  (failed_update_count (Scenario.polled (Sample.always Scenario.malformed_battery) 0) +
   Z.of_nat 5)
  `min` RETRY_COUNT
  ∧ data
      (legacy_polls Sample.CONF_ALL_TEMPERATURES Sample.str_dict 5
         (Scenario.polled (Sample.always Scenario.malformed_battery) 0) Sample.w0).1 =
    data (Scenario.polled (Sample.always Scenario.malformed_battery) 0).
Proof.
  apply (legacy_malformed_polls_saturate Sample.CONF_ALL_TEMPERATURES
           Sample.str_dict 5 (Scenario.polled (Sample.always
           Scenario.malformed_battery) 0) Sample.w0).
  - intros; reflexivity.
  - apply (bool_decide_unpack _); vm_compute; exact I.
  - split; [reflexivity|discriminate].
Defined.

Lemma legacy_failing_polls_count_witness :
  failed_update_count
    (legacy_polls Sample.CONF_ALL_TEMPERATURES Sample.str_dict 3
       (init (Sample.always Scenario.temperature_timeout)) Sample.w0).1 =
  failed_update_count (init (Sample.always Scenario.temperature_timeout)) + Z.of_nat 3
  ∧ (RETRY_COUNT
     ≤ failed_update_count (init (Sample.always Scenario.temperature_timeout)) + Z.of_nat 3
     → available
         (legacy_polls Sample.CONF_ALL_TEMPERATURES Sample.str_dict 3
            (init (Sample.always Scenario.temperature_timeout)) Sample.w0).1
         (λ _ : string, true) =
       false).
Proof.
  apply (legacy_failing_polls_count Sample.CONF_ALL_TEMPERATURES Sample.str_dict 3
           (init (Sample.always Scenario.temperature_timeout)) Sample.w0 (λ _, true)).
  intros; reflexivity.
Defined.

Lemma legacy_dispatch_gives_None_witness :
  Legacy.send_command Sample.str_dict "get_battery_async" ∅ "sensor.battery"
    (init (Sample.always Sample.answering)) Sample.w0 =
  (Returns VNone, init (Sample.always Sample.answering),
   emit EExit
     (emit (ECall "get_battery_async")
        (enter
           (emit
              (ELog DEBUG "Updating device with '%s' from '%s'"
                 ["sensor.battery"; Sample.str_dict ∅])
              Sample.w0)))).
Proof.
  apply (legacy_dispatch_gives_None Sample.str_dict "get_battery_async" ∅
           "sensor.battery" (init (Sample.always Sample.answering)) Sample.w0 (VInt
           80)).
  - reflexivity.
  - reflexivity.
Defined.

Lemma legacy_dispatch_one_attempt_witness :
  ∃ ex : exn,
    command
      (script
         (device
            (init
               (Sample.always (Sample.with_command (Raises Sample.timeout) Sample.healthy))))
         (acquired Sample.w0))
      "set_temperature_async" Sample.payload =
    Raises ex
    ∧ Legacy.send_command Sample.str_dict "set_temperature_async" Sample.payload
        "climate.living"
        (init (Sample.always (Sample.with_command (Raises Sample.timeout) Sample.healthy)))
        Sample.w0 =
      (Raise
         (if is_ValueError ex
          then
           raise_from ServiceValidationError
             ("Invalid payload '" +:+
              Sample.str_dict Sample.payload +:+
              "' for '" +:+ "climate.living" +:+ "': " +:+ exn_str ex)
             ex
          else
           raise_from HomeAssistantError
             ("Error sending command '" +:+
              Sample.str_dict Sample.payload +:+
              "' to '" +:+ "climate.living" +:+ "': " +:+ exn_str ex)
             ex),
       init (Sample.always (Sample.with_command (Raises Sample.timeout) Sample.healthy)),
       emit EExit
         (emit (ECall "set_temperature_async")
            (enter
               (emit
                  (ELog DEBUG "Updating device with '%s' from '%s'"
                     ["climate.living"; Sample.str_dict Sample.payload])
                  Sample.w0)))).
Proof.
  apply (legacy_dispatch_one_attempt Sample.str_dict "set_temperature_async"
           Sample.payload "climate.living" (init (Sample.always (Sample.with_command
           (Raises Sample.timeout) Sample.healthy))) Sample.w0).
  reflexivity.
Defined.

(** * Instances of the claims that both variants decide *)

Lemma C2_not_carried_forward_witness :
  (∀ snapshot,
     (Eurotronic._async_update_data Sample.CONF_ALL_TEMPERATURES Sample.str_dict 2
        (Scenario.polled (Sample.always Scenario.no_battery_value) 0) Sample.w0).1.1
     ≠ Returns snapshot)
  ∧ (acquired Sample.w0 + 2
     ≤ acquired
         (Eurotronic._async_update_data Sample.CONF_ALL_TEMPERATURES Sample.str_dict 2
            (Scenario.polled (Sample.always Scenario.no_battery_value) 0) Sample.w0).2)%nat
  ∧ ∃ snapshot,
      (Legacy._async_update_data Sample.CONF_ALL_TEMPERATURES Sample.str_dict
         (Scenario.polled (Sample.always Scenario.no_battery_value) 0) Sample.w0).1.1
      = Returns snapshot
      ∧ snapshot !! "battery" = Some VNone
      ∧ VNone ≠ dict_get (data (Scenario.polled (Sample.always Scenario.no_battery_value) 0))
                  "battery".
Proof.
  pose proof (C2_stored_value_is_not_carried_forward Sample.CONF_ALL_TEMPERATURES
                Sample.str_dict 0
                (Scenario.polled (Sample.always Scenario.no_battery_value) 0) Sample.w0 VNone
                ltac:(reflexivity) ltac:(reflexivity) ltac:(reflexivity) ltac:(reflexivity))
    as H.
  split; [exact (proj1 H)|]. split; [exact (proj1 (proj2 H))|].
  apply (proj2 (proj2 H)).
  apply (bool_decide_unpack _); vm_compute; exact I.
Defined.

Lemma C3_raises_without_counting_witness :
  (∃ ex,
     get_temperature_async
       (script (device (init (Sample.always Scenario.temperature_timeout)))
          (acquired Sample.w0 + 2)) = Raises ex ∧
     (Eurotronic._async_update_data Sample.CONF_ALL_TEMPERATURES Sample.str_dict 3
        (init (Sample.always Scenario.temperature_timeout)) Sample.w0).1.1
     = Raise (raise_from UpdateFailed ("Error retrieving data: " +:+ exn_str ex) ex) ∧
     acquired
       (Eurotronic._async_update_data Sample.CONF_ALL_TEMPERATURES Sample.str_dict 3
          (init (Sample.always Scenario.temperature_timeout)) Sample.w0).2
     = (acquired Sample.w0 + 3)%nat ∧
     failed_update_count
       (Eurotronic._async_update_data Sample.CONF_ALL_TEMPERATURES Sample.str_dict 3
          (init (Sample.always Scenario.temperature_timeout)) Sample.w0).1.2
     = failed_update_count (init (Sample.always Scenario.temperature_timeout)) ∧
     ∀ async_address_present,
       available
         (Eurotronic._async_update_data Sample.CONF_ALL_TEMPERATURES Sample.str_dict 3
            (init (Sample.always Scenario.temperature_timeout)) Sample.w0).1.2
         async_address_present
       = available (init (Sample.always Scenario.temperature_timeout)) async_address_present)
  ∧ (∃ ex,
       get_temperature_async
         (script (device (init (Sample.always Scenario.temperature_key_error)))
            (acquired Sample.w0)) = Raises ex ∧
       (Eurotronic._async_update_data Sample.CONF_ALL_TEMPERATURES Sample.str_dict 1
          (init (Sample.always Scenario.temperature_key_error)) Sample.w0).1.1
       = Raise (raise_from UpdateFailed ("(" +:+ type_name ex +:+ ") " +:+ exn_str ex) ex) ∧
       acquired
         (Eurotronic._async_update_data Sample.CONF_ALL_TEMPERATURES Sample.str_dict 1
            (init (Sample.always Scenario.temperature_key_error)) Sample.w0).2
       = (acquired Sample.w0 + 1)%nat ∧
       failed_update_count
         (Eurotronic._async_update_data Sample.CONF_ALL_TEMPERATURES Sample.str_dict 1
            (init (Sample.always Scenario.temperature_key_error)) Sample.w0).1.2
       = failed_update_count (init (Sample.always Scenario.temperature_key_error))).
Proof.
  split.
  - apply (proj1 (C3_failed_cycle_raises_without_counting Sample.CONF_ALL_TEMPERATURES
                    Sample.str_dict 0 (init (Sample.always Scenario.temperature_timeout))
                    Sample.w0)).
    intros i Hi. reflexivity.
  - apply (proj2 (C3_failed_cycle_raises_without_counting Sample.CONF_ALL_TEMPERATURES
                    Sample.str_dict 0 (init (Sample.always Scenario.temperature_key_error))
                    Sample.w0)).
    reflexivity.
Defined.

Lemma C9_discards_the_result_witness :
  (Legacy.send_command Sample.str_dict "get_battery_async" ∅ "sensor.battery"
     (init (Sample.always Sample.answering)) Sample.w0).1.1 = Returns VNone
  ∧ (Eurotronic.send_command Sample.str_dict 3 "get_battery_async" ∅ "sensor.battery"
       (init (Sample.always Sample.answering)) Sample.w0).1.1 = Returns (VInt 80).
Proof.
  apply (C9_earlier_dispatch_discards_the_result Sample.str_dict 2 "get_battery_async" ∅
           "sensor.battery" (init (Sample.always Sample.answering)) Sample.w0 (VInt 80)).
  - reflexivity.
  - reflexivity.
Defined.

Lemma dispatch_value_error_subclass_rejected_witness :
  (Eurotronic.send_command Sample.str_dict 3 "get_battery_async" ∅ "sensor.battery"
     (init (Sample.always Scenario.garbled)) Sample.w0).1
  = (Raise (raise_from ServiceValidationError
              ("Invalid payload '" +:+ Sample.str_dict ∅ +:+ "' for '"
                 +:+ "sensor.battery" +:+ "': " +:+ exn_str Scenario.undecodable)
              Scenario.undecodable),
     init (Sample.always Scenario.garbled))
  ∧ acquired
      (Eurotronic.send_command Sample.str_dict 3 "get_battery_async" ∅ "sensor.battery"
         (init (Sample.always Scenario.garbled)) Sample.w0).2
    = (acquired Sample.w0 + 1)%nat
  ∧ count (is_ELog INFO)
      (trace
         (Eurotronic.send_command Sample.str_dict 3 "get_battery_async" ∅ "sensor.battery"
            (init (Sample.always Scenario.garbled)) Sample.w0).2)
    = count (is_ELog INFO) (trace Sample.w0).
Proof.
  apply (dispatch_value_error_subclass_rejected Sample.str_dict 2 "get_battery_async" ∅
           "sensor.battery" (init (Sample.always Scenario.garbled)) Sample.w0
           Scenario.undecodable).
  - reflexivity.
  - reflexivity.
  - reflexivity.
  - reflexivity.
Defined.
